(** * MCP-News v2.1: the hybrid news classification pipeline

    A shallow embedding of [response_models.py], [news_analyzer.py],
    [cache_manager.py], [webhook_manager.py] and of the batch entry points
    and the token guard of [mcp_news_main.py], followed by the properties
    of the pipeline and of the services around it.

    Python values are modelled as they reach the code: text is a sequence of
    Unicode code points, JSON data is a tagged union, exceptions are values
    of an error monad.  What belongs to the Python runtime and its
    libraries rather than to the repository (Unicode tables, [json.loads],
    [hash], the lax coercions of pydantic) is gathered in the class
    [PyRuntime]; every property is proved for an arbitrary runtime.  A
    runtime stands for one interpreter process: [hash] of a text is seeded
    when the process starts, so that two processes over one store are two
    runtimes. *)

From Stdlib Require Import ZArith NArith List Ascii String Bool Lia Floats.
From stdpp Require Import base option list gmap pretty.

Import ListNotations.
Local Open Scope Z_scope.
Set Warnings "-register-all".

(* ===================================================================== *)
(** ** Python text, exceptions and values                                 *)
(* ===================================================================== *)

(** A Python [str]: the list of its code points. *)
Abbreviation str := (list N).

(** An ASCII literal as a [str]. *)
Definition lit (s : string) : list N :=
  map (fun a => N.of_nat (nat_of_ascii a)) (list_ascii_of_string s).

(** [str(n)] for an integer. *)
Definition str_of_Z (z : Z) : list N := lit (pretty z).

(** [needle in text] on strings. *)
Fixpoint starts_with (needle text : list N) : bool :=
  match needle, text with
  | [], _ => true
  | _ :: _, [] => false
  | a :: needle', c :: text' => (a =? c)%N && starts_with needle' text'
  end.

Fixpoint contains (needle text : list N) : bool :=
  starts_with needle text ||
  match text with
  | [] => false
  | _ :: text' => contains needle text'
  end.

(** An exception: its class name and [str(e)]. *)
Record exn := Exception { exn_class : string; exn_str : list N }.

(** Code that may raise. *)
Definition result (A : Type) : Type := exn + A.

Definition ret {A} (a : A) : result A := inr a.
Definition raise {A} (cls : string) (msg : list N) : result A :=
  inl (Exception cls msg).

(** Sequencing: an exception skips the rest.  With these instances the
    notation [x ← m; k] reads as Python's statement order. *)
#[global] Instance result_ret : MRet result := fun A a => inr a.
#[global] Instance result_bind : MBind result := fun A B k m =>
  match m with
  | inl e => inl e
  | inr a => k a
  end.

(** [for x in xs: ys.append(f(x))] where [f] may raise: the first exception
    leaves the loop. *)
Fixpoint for_each {A B} (f : A -> result B) (xs : list A) : result (list B) :=
  match xs with
  | [] => ret []
  | x :: xs' =>
      y ← f x;
      ys ← for_each f xs';
      ret (y :: ys)
  end.

(** Python values: those [json.loads] produces, which are also the values
    a JSON-RPC request carries, and the instances of a pydantic model,
    given by the name of the class and the fields.  A dict keeps its items
    in insertion order. *)
Inductive pyval : Type :=
| PNone
| PBool (b : bool)
| PInt (z : Z)
| PFloat (x : float)
| PStr (s : list N)
| PList (l : list pyval)
| PDict (d : list (list N * pyval))
| PObject (class : string) (fields : list (list N * pyval)).

(** [type(v).__name__] *)
Definition type_name (v : pyval) : list N :=
  match v with
  | PNone => lit "NoneType"
  | PBool _ => lit "bool"
  | PInt _ => lit "int"
  | PFloat _ => lit "float"
  | PStr _ => lit "str"
  | PList _ => lit "list"
  | PDict _ => lit "dict"
  | PObject class _ => lit class
  end.

(** Truthiness, as [if v:] and [not v] see it. *)
Definition truthy (v : pyval) : bool :=
  match v with
  | PNone => false
  | PBool b => b
  | PInt z => negb (z =? 0)
  | PFloat x => negb (PrimFloat.eqb x 0%float)
  | PStr s => negb (Nat.eqb (length s) 0)
  | PList l => negb (Nat.eqb (length l) 0)
  | PDict d => negb (Nat.eqb (length d) 0)
  | PObject _ _ => true
  end.

(** [d.get(key)] on the items of a dict. *)
Fixpoint dict_lookup (key : list N) (d : list (list N * pyval)) : option pyval :=
  match d with
  | [] => None
  | (k, v) :: d' => if decide (k = key) then Some v else dict_lookup key d'
  end.

(** [d.get(key, default)] *)
Definition dict_get (d : list (list N * pyval)) (key : list N) (default : pyval) : pyval :=
  match dict_lookup key d with
  | Some v => v
  | None => default
  end.

(** [item.get(key, default)] on an arbitrary value: only a dict has the
    method; a pydantic model has attributes and no [get]. *)
Definition py_get (item : pyval) (key : list N) (default : pyval) : result pyval :=
  match item with
  | PDict d => ret (dict_get d key default)
  | _ => raise "AttributeError"
           (lit "'" ++ type_name item ++ lit "' object has no attribute 'get'")
  end.

(** A [bool] is an [int]. *)
Definition int_of_bool (b : bool) : Z := if b then 1 else 0.

(** [a + b].  [float_add] is the sum of two numbers of which one at least
    is a float. *)
Definition py_add (float_add : pyval -> pyval -> float) (a b : pyval) : result pyval :=
  let unsupported :=
    raise "TypeError"
      (lit "unsupported operand type(s) for +: '" ++ type_name a ++
       lit "' and '" ++ type_name b ++ lit "'") in
  let concat_only :=
    raise "TypeError"
      (lit "can only concatenate " ++ type_name a ++ lit " (not " ++ [34%N] ++
       type_name b ++ [34%N] ++ lit ") to " ++ type_name a) in
  match a, b with
  | PStr s, PStr t => ret (PStr (s ++ t))
  | PStr _, _ => concat_only
  | PList l, PList m => ret (PList (l ++ m))
  | PList _, _ => concat_only
  | PInt x, PInt y => ret (PInt (x + y))
  | PInt x, PBool y => ret (PInt (x + int_of_bool y))
  | PBool x, PInt y => ret (PInt (int_of_bool x + y))
  | PBool x, PBool y => ret (PInt (int_of_bool x + int_of_bool y))
  | PFloat _, (PBool _ | PInt _ | PFloat _)
  | (PBool _ | PInt _), PFloat _ => ret (PFloat (float_add a b))
  | _, _ => unsupported
  end.

(** The argument check of [re.search] and [re.findall]. *)
Definition expect_str (v : pyval) : result (list N) :=
  match v with
  | PStr s => ret s
  | _ => raise "TypeError" (lit "expected string or bytes-like object")
  end.

(* ===================================================================== *)
(** ** The Python runtime                                                 *)
(* ===================================================================== *)

(** What the interpreter and the libraries decide.  On Basic Latin text and
    on values of the expected type the model below is explicit; the class
    supplies the rest: case mapping of text that is not pure ASCII, the
    regex classes of code points from 128 on, float addition, [format] of
    a value that is not a [str], [int] of a value that is not an int,
    [hash] of text and of numbers, [json.loads]
    ([None]: it raises), and what pydantic makes of an input that is not
    already of the field's type ([None]: a validation error). *)
Class PyRuntime := {
  float_add : pyval -> pyval -> float;
  uni_lower : list N -> list N;
  uni_upper : list N -> list N;
  uni_word : N -> bool;
  uni_ieq : N -> N -> bool;
  py_format : pyval -> list N;
  py_int : pyval -> option Z;
  hash_str : list N -> Z;
  hash_number : pyval -> Z;
  json_loads : list N -> option pyval;
  coerce_int : pyval -> option Z;
  coerce_str : pyval -> option (list N);
  coerce_bool : pyval -> option bool
}.

(* ===================================================================== *)
(** ** Text primitives                                                    *)
(* ===================================================================== *)

Section Text.
Context {rt : PyRuntime}.

Definition is_ascii (c : N) : bool := (c <? 128)%N.

Definition ascii_lower (c : N) : N :=
  if (65 <=? c)%N && (c <=? 90)%N then (c + 32)%N else c.

Definition ascii_upper (c : N) : N :=
  if (97 <=? c)%N && (c <=? 122)%N then (c - 32)%N else c.

(** [s.lower()] and [s.upper()] *)
Definition str_lower (s : list N) : list N :=
  if forallb is_ascii s then map ascii_lower s else uni_lower s.

Definition str_upper (s : list N) : list N :=
  if forallb is_ascii s then map ascii_upper s else uni_upper s.

(** The class [\w] of a Unicode pattern. *)
Definition re_word (c : N) : bool :=
  if is_ascii c then
    ((48 <=? c) && (c <=? 57) || (65 <=? c) && (c <=? 90) ||
     (97 <=? c) && (c <=? 122) || (c =? 95))%N
  else uni_word c.

(** Does the literal pattern character [p] match the text character [c]
    under [re.IGNORECASE]? *)
Definition re_ieq (p c : N) : bool :=
  if is_ascii p && is_ascii c then (ascii_lower p =? ascii_lower c)%N
  else uni_ieq p c.

(** [\b] between the character before a position and the one after it;
    outside the text there is no word character. *)
Definition is_word_opt (c : option N) : bool :=
  match c with
  | Some c => re_word c
  | None => false
  end.

Definition word_boundary (prev : option N) (text : list N) : bool :=
  xorb (is_word_opt prev) (is_word_opt (head text)).

(** Matching a literal from the current position: the last character
    consumed and the rest of the text. *)
Fixpoint match_literal (eqc : N -> N -> bool) (pat : list N)
    (prev : option N) (text : list N) : option (option N * list N) :=
  match pat with
  | [] => Some (prev, text)
  | p :: pat' =>
      match text with
      | [] => None
      | c :: text' =>
          if eqc p c then match_literal eqc pat' (Some c) text' else None
      end
  end.

(** The pattern [\b<pat>\b] at the current position. *)
Definition match_word_at (eqc : N -> N -> bool) (pat : list N)
    (prev : option N) (text : list N) : bool :=
  word_boundary prev text &&
  match match_literal eqc pat prev text with
  | Some (last, rest) => word_boundary last rest
  | None => false
  end.

(** [len(re.findall(r'\b' + re.escape(pat) + r'\b', text, re.IGNORECASE))]
    for a non-empty literal [pat]: the scan goes left to right, and after a
    match it resumes behind the match ([skip] counts the characters of the
    match still to pass). *)
Fixpoint findall_word_from (pat : list N) (prev : option N) (text : list N)
    (skip : nat) : Z :=
  match text with
  | [] => 0
  | c :: text' =>
      match skip with
      | S k => findall_word_from pat (Some c) text' k
      | O =>
          if match_word_at re_ieq pat prev text
          then 1 + findall_word_from pat (Some c) text' (length pat - 1)
          else findall_word_from pat (Some c) text' 0
      end
  end.

Definition findall_word_count (pat text : list N) : Z :=
  findall_word_from pat None text 0.

(** [re.search(r'\ba\b|\bb\b|...', text)] for literal alternatives, without
    flags: is there a position where one of them matches? *)
Fixpoint search_words_from (alts : list (list N)) (prev : option N)
    (text : list N) : bool :=
  existsb (fun pat => match_word_at N.eqb pat prev text) alts ||
  match text with
  | [] => false
  | c :: text' => search_words_from alts (Some c) text'
  end.

Definition search_words (alts : list (list N)) (text : list N) : bool :=
  search_words_from alts None text.

(** [hash(v)]: lists and dicts are unhashable. *)
Definition py_hash (v : pyval) : result Z :=
  match v with
  | PStr s => ret (hash_str s)
  | PList _ | PDict _ =>
      raise "TypeError" (lit "unhashable type: '" ++ type_name v ++ lit "'")
  | _ => ret (hash_number v)
  end.

End Text.

(* ===================================================================== *)
(** ** response_models.py                                                 *)
(* ===================================================================== *)

Module response_models.
Section Defs.
Context {rt : PyRuntime}.

Inductive ImpactType := POSITIVE | NEGATIVE | NEUTRAL.

(** [impact.value] *)
Definition ImpactType_value (i : ImpactType) : list N :=
  match i with
  | POSITIVE => lit "Positive"
  | NEGATIVE => lit "Negative"
  | NEUTRAL => lit "Neutral"
  end.

(** [ImpactType(v)]: the member whose value is [v]. *)
Definition ImpactType_of (v : pyval) : option ImpactType :=
  match v with
  | PStr s =>
      if decide (s = lit "Positive") then Some POSITIVE
      else if decide (s = lit "Negative") then Some NEGATIVE
      else if decide (s = lit "Neutral") then Some NEUTRAL
      else None
  | _ => None
  end.

Record NewsItem := { ni_title : list N; ni_summary : list N }.

(** [affected_coins] is a list that every construction rebuilds with
    [list(set(...))]: the field is modelled as the set of names the list
    holds.  The order in which a list shows them, which may differ from
    one construction to the next, is not modelled; equality of responses
    is equality up to that order. *)
Record NewsAnalysisResponse := {
  impact : ImpactType;
  confidence : Z;
  affected_coins : gset (list N);
  summary : list N;
  lang : list N;
  low_confidence : option bool;
  error : option (list N)
}.

(** Field validation.  A value of the field's type is taken as it is. *)
Definition int_validator (v : pyval) : option Z :=
  match v with
  | PInt z => Some z
  | _ => coerce_int v
  end.

Definition str_validator (v : pyval) : option (list N) :=
  match v with
  | PStr s => Some s
  | _ => coerce_str v
  end.

Definition bool_validator (v : pyval) : option bool :=
  match v with
  | PBool b => Some b
  | _ => coerce_bool v
  end.

Definition list_str_validator (v : pyval) : option (list (list N)) :=
  match v with
  | PList l => mapM str_validator l
  | _ => None
  end.

(** [Optional[T]]: [None] is accepted as it is. *)
Definition optional {A} (validate : pyval -> option A) (v : pyval) : option (option A) :=
  match v with
  | PNone => Some None
  | _ => Some <$> validate v
  end.

(** A field of the keyword arguments: [required] fails when it is absent,
    [with_default] takes the default then. *)
Definition required {A} (validate : pyval -> option A)
    (kwargs : list (list N * pyval)) (name : string) : option A :=
  dict_lookup (lit name) kwargs ≫= validate.

Definition with_default {A} (validate : pyval -> option A) (default : A)
    (kwargs : list (list N * pyval)) (name : string) : option A :=
  match dict_lookup (lit name) kwargs with
  | Some v => validate v
  | None => Some default
  end.

(** [validate_coins]: upper case, empty names dropped, duplicates merged. *)
Definition validate_coins (v : list (list N)) : gset (list N) :=
  list_to_set (str_upper <$> filter (fun coin => coin ≠ []) v).

(** [NewsAnalysisResponse] called with keyword arguments.  The text of pydantic's error report
    is cut down to its heading. *)
Definition NewsAnalysisResponse_init (kwargs : list (list N * pyval))
    : result NewsAnalysisResponse :=
  let fields :=
    i ← required ImpactType_of kwargs "impact";
    c ← required int_validator kwargs "confidence";
    _ ← guard (0 <= c <= 100);
    coins ← with_default (fun v => validate_coins <$> list_str_validator v)
              ∅ kwargs "affected_coins";
    s ← required str_validator kwargs "summary";
    l ← with_default str_validator (lit "en") kwargs "lang";
    lc ← with_default (optional bool_validator) (Some false) kwargs "low_confidence";
    e ← with_default (optional str_validator) None kwargs "error";
    Some {| impact := i; confidence := c; affected_coins := coins;
            summary := s; lang := l; low_confidence := lc; error := e |} in
  match fields with
  | Some r => ret r
  | None => raise "ValidationError" (lit "validation error for NewsAnalysisResponse")
  end.

(** [response.affected_coins = coins]: assignment does not validate. *)
Definition set_affected_coins (r : NewsAnalysisResponse) (coins : gset (list N))
    : NewsAnalysisResponse :=
  {| impact := impact r; confidence := confidence r; affected_coins := coins;
     summary := summary r; lang := lang r; low_confidence := low_confidence r;
     error := error r |}.

Definition py_option {A} (f : A -> pyval) (o : option A) : pyval :=
  match o with
  | Some a => f a
  | None => PNone
  end.

(** [response.dict()]; the enum member is a [str] and is written as its
    value. *)
Definition NewsAnalysisResponse_dict (r : NewsAnalysisResponse) : pyval :=
  PDict [ (lit "impact", PStr (ImpactType_value (impact r)));
          (lit "confidence", PInt (confidence r));
          (lit "affected_coins", PList (PStr <$> elements (affected_coins r)));
          (lit "summary", PStr (summary r));
          (lit "lang", PStr (lang r));
          (lit "low_confidence", py_option PBool (low_confidence r));
          (lit "error", py_option PStr (error r)) ].

(** [NewsItem] as FastAPI validates it inside a request body. *)
Definition NewsItem_parse (v : pyval) : option NewsItem :=
  match v with
  | PDict d =>
      t ← required str_validator d "title";
      _ ← guard (1 <= length t <= 500)%nat;
      s ← required str_validator d "summary";
      _ ← guard (1 <= length s <= 2000)%nat;
      Some {| ni_title := t; ni_summary := s |}
  | _ => None
  end.

(** [BatchNewsRequest]: between 1 and 50 items. *)
Definition BatchNewsRequest_parse (body : pyval) : option (list NewsItem) :=
  match body with
  | PDict d =>
      match dict_lookup (lit "news") d with
      | Some (PList l) =>
          _ ← guard (1 <= length l <= 50)%nat;
          mapM NewsItem_parse l
      | _ => None
      end
  | _ => None
  end.

(** [WebhookPayload]: a result given as a dict is validated as a
    [NewsAnalysisResponse]. *)
Record WebhookPayload := {
  wp_request_id : list N;
  wp_timestamp : list N;
  wp_total_items : Z;
  wp_results : list NewsAnalysisResponse;
  wp_summary_stats : list (list N * Z)
}.

Definition response_validator (v : pyval) : option NewsAnalysisResponse :=
  match v with
  | PDict d =>
      match NewsAnalysisResponse_init d with
      | inr r => Some r
      | inl _ => None
      end
  | _ => None
  end.

Definition WebhookPayload_init (request_id timestamp : list N) (total_items : Z)
    (results : list pyval) (summary_stats : list (list N * Z))
    : result WebhookPayload :=
  match mapM response_validator results with
  | Some rs =>
      ret {| wp_request_id := request_id; wp_timestamp := timestamp;
             wp_total_items := total_items; wp_results := rs;
             wp_summary_stats := summary_stats |}
  | None => raise "ValidationError" (lit "validation error for WebhookPayload")
  end.

(** [payload.dict()] *)
Definition WebhookPayload_dict (p : WebhookPayload) : pyval :=
  PDict [ (lit "request_id", PStr (wp_request_id p));
          (lit "timestamp", PStr (wp_timestamp p));
          (lit "total_items", PInt (wp_total_items p));
          (lit "results", PList (NewsAnalysisResponse_dict <$> wp_results p));
          (lit "summary_stats",
           PDict ((fun '(key, n) => (key, PInt n)) <$> wp_summary_stats p)) ].

End Defs.
End response_models.

(* ===================================================================== *)
(** ** cache_manager.py                                                   *)
(* ===================================================================== *)

Module cache_manager.
Section Defs.
Context {rt : PyRuntime}.

(** The Redis server as the client sees it.  A stored string is either the
    JSON text of a document, kept as the document it denotes
    ([json.dumps] writes it, [json.loads] reads it back), or any other
    text.  An entry may carry the time at which it expires.  [faults] is
    the fate of the coming commands: [true] makes the next command raise. *)
Inductive redis_value :=
| RJson (doc : pyval)
| RText (s : list N).

Record redis_entry := { value : redis_value; expires_at : option Z }.

Record Redis := {
  data : gmap (list N) redis_entry;
  faults : list bool
}.

Definition live (now : Z) (e : redis_entry) : bool :=
  match expires_at e with
  | Some t => now <? t
  | None => true
  end.

(** Every command first meets the connection. *)
Definition redis_command (r : Redis) : bool * Redis :=
  match faults r with
  | [] => (false, r)
  | fault :: rest => (fault, {| data := data r; faults := rest |})
  end.

Definition connection_error {A} : result A :=
  raise "ConnectionError" (lit "Error connecting to Redis").

Definition redis_get (r : Redis) (now : Z) (key : list N)
    : result (option redis_value) * Redis :=
  let '(fault, r) := redis_command r in
  if (fault : bool) then (connection_error, r)
  else
    match data r !! key with
    | Some e => (ret (if live now e then Some (value e) else None), r)
    | None => (ret None, r)
    end.

Definition redis_setex (r : Redis) (now : Z) (key : list N) (ttl : Z)
    (v : redis_value) : result () * Redis :=
  let '(fault, r) := redis_command r in
  if (fault : bool) then (connection_error, r)
  else
    (ret (), {| data := <[key := {| value := v; expires_at := Some (now + ttl) |}]> (data r);
                faults := faults r |}).

(** [INCR]: a missing or expired key counts from zero and gets no expiry;
    a value that is not an integer is refused. *)
Definition redis_incr (r : Redis) (now : Z) (key : list N) : result Z * Redis :=
  let '(fault, r) := redis_command r in
  if (fault : bool) then (connection_error, r)
  else
    let store n expiry :=
      (ret n, {| data := <[key := {| value := RJson (PInt n); expires_at := expiry |}]> (data r);
                 faults := faults r |}) in
    match data r !! key with
    | Some e =>
        if live now e then
          match value e with
          | RJson (PInt n) => store (n + 1) (expires_at e)
          | _ => (raise "ResponseError" (lit "value is not an integer or out of range"), r)
          end
        else store 1 None
    | None => store 1 None
    end.

Record Stats := { hits : Z; misses : Z; total : Z }.

Record CacheManager := {
  redis : option Redis;
  stats : Stats
}.

Definition with_redis (self : CacheManager) (r : Redis) : CacheManager :=
  {| redis := Some r; stats := stats self |}.

(** [json.loads(value)] on a stored string. *)
Definition loads_stored (v : redis_value) : option pyval :=
  match v with
  | RJson doc => Some doc
  | RText s => json_loads s
  end.

(** [if value:] on a stored string: JSON text is never empty. *)
Definition stored_truthy (v : option redis_value) : bool :=
  match v with
  | None => false
  | Some (RJson _) => true
  | Some (RText s) => negb (Nat.eqb (length s) 0)
  end.

(** [int(current)] on a stored string. *)
Definition int_stored (v : redis_value) : result Z :=
  let invalid := raise "ValueError" (lit "invalid literal for int() with base 10") in
  match v with
  | RJson (PInt n) => ret n
  | RJson _ => invalid
  | RText s =>
      match py_int (PStr s) with
      | Some n => ret n
      | None => invalid
      end
  end.

(** [get]: the cached value, [None] on a miss, without a connection and
    when anything raises. *)
Definition get (self : CacheManager) (now : Z) (key : list N)
    : option pyval * CacheManager :=
  match redis self with
  | None => (None, self)
  | Some r =>
      let '(reply, r) := redis_get r now key in
      let self := with_redis self r in
      match reply with
      | inl _ => (None, self)
      | inr v =>
          if stored_truthy v then
            let self := {| redis := redis self;
                           stats := {| hits := hits (stats self) + 1;
                                       misses := misses (stats self);
                                       total := total (stats self) + 1 |} |} in
            (v ≫= loads_stored, self)
          else
            let self := {| redis := redis self;
                           stats := {| hits := hits (stats self);
                                       misses := misses (stats self) + 1;
                                       total := total (stats self) + 1 |} |} in
            (None, self)
      end
  end.

(** [json.dumps(value, default=str)], as the document its text denotes:
    what JSON has no form for, here the instance of a model, is written as
    the text [str] gives for it. *)
Fixpoint dumped (v : pyval) : pyval :=
  match v with
  | PList l => PList (map dumped l)
  | PDict d => PDict (map (fun item => (item.1, dumped item.2)) d)
  | PObject _ _ => PStr (py_format v)
  | _ => v
  end.

(** [set]: [True] when the value was stored. *)
Definition set (self : CacheManager) (now : Z) (key : list N) (v : pyval)
    (ttl : Z) : bool * CacheManager :=
  match redis self with
  | None => (false, self)
  | Some r =>
      let '(reply, r) := redis_setex r now key ttl (RJson (dumped v)) in
      let self := with_redis self r in
      match reply with
      | inl _ => (false, self)
      | inr _ => (true, self)
      end
  end.

(** [check_rate_limit]: [True] when the request is within the limit. *)
Definition check_rate_limit (self : CacheManager) (now : Z)
    (identifier : list N) (limit window : Z) : bool * CacheManager :=
  match redis self with
  | None => (true, self)
  | Some r =>
      let key := lit "rate_limit:" ++ identifier in
      let '(reply, r) := redis_get r now key in
      match reply with
      | inl _ => (true, with_redis self r)
      | inr None =>
          let '(_, r) := redis_setex r now key window (RJson (PInt 1)) in
          (true, with_redis self r)
      | inr (Some current) =>
          match int_stored current with
          | inl _ => (true, with_redis self r)
          | inr current_count =>
              if limit <=? current_count then (false, with_redis self r)
              else
                let '(_, r) := redis_incr r now key in
                (true, with_redis self r)
          end
      end
  end.

(** *** The other commands and methods *)


(** [DEL key ...]: the keys are removed one after the other, and the reply
    is the number of those that were there.  An entry that has expired is
    not there any more. *)
Definition redis_delete (r : Redis) (now : Z) (keys : list (list N))
    : result Z * Redis :=
  let '(fault, r) := redis_command r in
  if (fault : bool) then (connection_error, r)
  else
    let '(removed, d) :=
      fold_left
        (fun '(removed, d) key =>
           match d !! key with
           | Some e => (if live now e then removed + 1 else removed, base.delete key d)
           | None => (removed, d)
           end)
        keys (0, data r) in
    (ret removed, {| data := d; faults := faults r |}).

(** [TTL]: the seconds an entry has left, -1 for an entry without expiry,
    -2 when there is no entry. *)
Definition redis_ttl (r : Redis) (now : Z) (key : list N) : result Z * Redis :=
  let '(fault, r) := redis_command r in
  if (fault : bool) then (connection_error, r)
  else
    match data r !! key with
    | Some e =>
        (ret (if live now e then
                match expires_at e with
                | Some t => t - now
                | None => -1
                end
              else -2), r)
    | None => (ret (-2), r)
    end.

(** [FLUSHDB] *)
Definition redis_flushdb (r : Redis) : result () * Redis :=
  let '(fault, r) := redis_command r in
  if (fault : bool) then (connection_error, r)
  else (ret (), {| data := ∅; faults := faults r |}).

(** [KEYS pattern]: the keys of the entries that are there and match.
    [glob pattern key] is the pattern language of the server. *)
Variable glob : list N -> list N -> bool.

Definition redis_keys (r : Redis) (now : Z) (pattern : list N)
    : result (list (list N)) * Redis :=
  let '(fault, r) := redis_command r in
  if (fault : bool) then (connection_error, r)
  else
    (ret ((filter (fun '(key, e) => glob pattern key && live now e)
             (map_to_list (data r))).*1), r).


(** [delete]: [True] when the command went through. *)
Definition delete (self : CacheManager) (now : Z) (key : list N)
    : bool * CacheManager :=
  match redis self with
  | None => (false, self)
  | Some r =>
      let '(reply, r) := redis_delete r now [key] in
      match reply with
      | inl _ => (false, with_redis self r)
      | inr _ => (true, with_redis self r)
      end
  end.

(** The dict [get_rate_limit_status] returns. *)
Record rate_limit_status := { count : Z; remaining : Z; reset_time : Z }.

(** [get_rate_limit_status]: [now] and [later] are the times at which the
    store serves [GET] and [TTL], and [utcnow] is
    [int(datetime.utcnow().timestamp())].  The argument [window] is not
    used by the method. *)
Definition get_rate_limit_status (self : CacheManager) (now later utcnow : Z)
    (identifier : list N) (window : Z) : rate_limit_status * CacheManager :=
  let unknown := {| count := 0; remaining := 100; reset_time := 0 |} in
  match redis self with
  | None => (unknown, self)
  | Some r =>
      let key := lit "rate_limit:" ++ identifier in
      let '(reply, r) := redis_get r now key in
      match reply with
      | inl _ => (unknown, with_redis self r)
      | inr current =>
          let '(reply, r) := redis_ttl r later key in
          match reply with
          | inl _ => (unknown, with_redis self r)
          | inr ttl =>
              let counted :=
                match current with
                | Some v => if stored_truthy current then int_stored v else ret 0
                | None => ret 0
                end in
              match counted with
              | inl _ => (unknown, with_redis self r)
              | inr n =>
                  ({| count := n;
                      remaining := Z.max 0 (100 - n);
                      reset_time := if 0 <? ttl then utcnow + ttl else 0 |},
                   with_redis self r)
              end
          end
      end
  end.

(** [flush_cache]: the number of entries removed under a pattern, 1 after
    the whole database was flushed, 0 when nothing could be done. *)
Definition flush_cache (self : CacheManager) (now : Z) (pattern : option (list N))
    : Z * CacheManager :=
  match redis self with
  | None => (0, self)
  | Some r =>
      match pattern with
      | Some (c :: p) =>
          let '(reply, r) := redis_keys r now (c :: p) in
          match reply with
          | inl _ => (0, with_redis self r)
          | inr [] => (0, with_redis self r)
          | inr keys =>
              let '(reply, r) := redis_delete r now keys in
              match reply with
              | inl _ => (0, with_redis self r)
              | inr removed => (removed, with_redis self r)
              end
          end
      | _ =>
          let '(reply, r) := redis_flushdb r in
          match reply with
          | inl _ => (0, with_redis self r)
          | inr _ => (1, with_redis self r)
          end
      end
  end.

End Defs.
End cache_manager.

(* ===================================================================== *)
(** ** news_analyzer.py                                                   *)
(* ===================================================================== *)

(** What lies outside the process: the configured credential and, for each
    call to the completion endpoint (told apart by the item it is made for
    and by the prompt sent), what comes back.  The call either raises
    (transport failure, timeout) or answers with a status and a body, on
    which [response.json()] raises or yields a value. *)
Inductive http_outcome :=
| Raises (e : exn)
| Responds (status : Z) (body : result pyval).

Record World := {
  OPENAI_API_KEY : option (list N);
  post_completion : list N -> list N -> http_outcome
}.

Module news_analyzer.
Import response_models cache_manager.
Section Defs.
Context {rt : PyRuntime}.
Variable world : World.

(** [try: body / except Exception as e: handler(e)] *)
Definition try_except {A} (body : result A) (handler : exn -> result A) : result A :=
  match body with
  | inl e => handler e
  | inr a => inr a
  end.

(** A value inside an f-string. *)
Definition fmt (v : pyval) : list N :=
  match v with
  | PStr s => s
  | _ => py_format v
  end.

(** [v[key]] for a string key and [v[0]]. *)
Definition subscript_key (v : pyval) (key : list N) : result pyval :=
  match v with
  | PDict d =>
      match dict_lookup key d with
      | Some x => ret x
      | None => raise "KeyError" (lit "'" ++ key ++ lit "'")
      end
  | PList _ => raise "TypeError" (lit "list indices must be integers or slices, not str")
  | PStr _ => raise "TypeError" (lit "string indices must be integers")
  | _ => raise "TypeError" (lit "'" ++ type_name v ++ lit "' object is not subscriptable")
  end.

Definition subscript_0 (v : pyval) : result pyval :=
  match v with
  | PList (x :: _) => ret x
  | PList [] => raise "IndexError" (lit "list index out of range")
  | PStr (c :: _) => ret (PStr [c])
  | PStr [] => raise "IndexError" (lit "string index out of range")
  | PDict _ => raise "KeyError" (lit "0")
  | _ => raise "TypeError" (lit "'" ++ type_name v ++ lit "' object is not subscriptable")
  end.

(** [max(v, 0)] and [min(v, 100)]: the second argument replaces the first
    when it is strictly beyond it; text, [None] and containers do not
    compare with an int. *)
Definition not_comparable {A} (op : string) (a b : list N) : result A :=
  raise "TypeError"
    (lit "'" ++ lit op ++ lit "' not supported between instances of '" ++ a ++
     lit "' and '" ++ b ++ lit "'").

Definition max_0 (v : pyval) : result pyval :=
  match v with
  | PInt z => ret (if z <? 0 then PInt 0 else v)
  | PBool b => ret v
  | PFloat x => ret (if PrimFloat.ltb x 0%float then PInt 0 else v)
  | _ => not_comparable ">" (lit "int") (type_name v)
  end.

Definition min_100 (v : pyval) : result pyval :=
  match v with
  | PInt z => ret (if 100 <? z then PInt 100 else v)
  | PBool b => ret v
  | PFloat x => ret (if PrimFloat.ltb 100%float x then PInt 100 else v)
  | _ => not_comparable "<" (lit "int") (type_name v)
  end.

(** *** The tables of [__init__] *)

Definition positive_keywords : list (list N * Z) :=
  map (fun '(keyword, weight) => (lit keyword, weight))
    [ ("surge", 10); ("soar", 10); ("rally", 9); ("pump", 8); ("moon", 8);
      ("bullish", 9); ("positive", 7); ("gain", 8); ("up", 6); ("rise", 7);
      ("breakout", 9); ("adoption", 8); ("approval", 10); ("partnership", 8);
      ("upgrade", 7); ("milestone", 8); ("breakthrough", 9); ("success", 8);
      ("launch", 7); ("integration", 7); ("buy", 6); ("invest", 7);
      ("green", 5); ("profit", 8); ("ath", 9); ("new high", 9) ]%string.

Definition negative_keywords : list (list N * Z) :=
  map (fun '(keyword, weight) => (lit keyword, weight))
    [ ("crash", 10); ("dump", 9); ("drop", 8); ("fall", 7); ("decline", 7);
      ("bearish", 9); ("negative", 7); ("loss", 8); ("down", 6); ("plunge", 9);
      ("collapse", 10); ("hack", 10); ("scam", 10); ("fraud", 10); ("ban", 9);
      ("regulation", 6); ("crackdown", 8); ("liquidation", 8); ("sell", 6);
      ("red", 5); ("correction", 7); ("dip", 5); ("panic", 8); ("fear", 7) ]%string.

(** Each pattern is an alternation of whole words. *)
Definition crypto_patterns : list (list (list N) * list N) :=
  map (fun '(a, b, coin) => ([lit a; lit b], lit coin))
    [ ("btc", "bitcoin", "BTC"); ("eth", "ethereum", "ETH");
      ("bnb", "binance", "BNB"); ("ada", "cardano", "ADA");
      ("sol", "solana", "SOL"); ("xrp", "ripple", "XRP");
      ("dot", "polkadot", "DOT"); ("avax", "avalanche", "AVAX");
      ("matic", "polygon", "MATIC"); ("link", "chainlink", "LINK") ]%string.

(** [arabic_pattern.search(text)]: a character of U+0600..U+06FF. *)
Definition arabic_pattern_search (text : list N) : bool :=
  existsb (fun c => (1536 <=? c)%N && (c <=? 1791)%N) text.

(** *** [_keyword_analysis] *)

(** One scoring loop: every keyword adds its matches times its weight. *)
Definition keyword_score (keywords : list (list N * Z)) (text : list N) : Z :=
  fold_left
    (fun score '(keyword, weight) =>
       let matches := findall_word_count keyword text in
       score + matches * weight)
    keywords 0.

Definition _keyword_analysis (text : list N) : ImpactType * Z :=
  let positive_score := keyword_score positive_keywords text in
  let negative_score := keyword_score negative_keywords text in
  let '(impact, confidence) :=
    if (negative_score <? positive_score) && (5 <? positive_score) then
      (POSITIVE, Z.min (positive_score * 2) 100)
    else if (positive_score <? negative_score) && (5 <? negative_score) then
      (NEGATIVE, Z.min (negative_score * 2) 100)
    else
      (NEUTRAL, 40 + Z.abs (positive_score - negative_score)) in
  (impact, Z.min confidence 85).

(** *** [_needs_llm_analysis] *)

Definition high_impact_keywords : list (list N) :=
  map lit ["regulation"; "ban"; "approval"; "etf"; "sec"; "hack"]%string.

Definition _needs_llm_analysis (keyword_result : ImpactType * Z) (text : list N) : bool :=
  let '(impact, confidence) := keyword_result in
  if confidence <? 60 then true
  else if existsb (fun keyword => contains keyword text) high_impact_keywords then true
  else false.

(** *** [_detect_coins] *)

Definition _detect_coins (text : list N) : gset (list N) :=
  let text_lower := str_lower text in
  let detected :=
    fold_left
      (fun detected '(pattern, coin) =>
         if search_words pattern text_lower then detected ++ [coin] else detected)
      crypto_patterns [] in
  list_to_set detected.

(** *** [_generate_summary] *)

Definition confidence_text (confidence : Z) : list N :=
  if 75 <? confidence then lit "High"
  else if 50 <? confidence then lit "Medium"
  else lit "Low".

(** The two Arabic words of the template: "impact" and "confidence". *)
Definition arabic_impact : list N := [1578; 1571; 1579; 1610; 1585]%N.
Definition arabic_confidence : list N := [1579; 1602; 1577]%N.

Definition _generate_summary (title : list N) (impact : ImpactType)
    (confidence : Z) (lang : list N) : list N :=
  let short_title :=
    if (80 <? length title)%nat then take 80 title ++ lit "..." else title in
  if decide (lang = lit "ar") then
    short_title ++ lit " - " ++ arabic_impact ++ lit " " ++ ImpactType_value impact ++
    lit " (" ++ confidence_text confidence ++ lit " " ++ arabic_confidence ++ lit ")"
  else
    short_title ++ lit " - " ++ ImpactType_value impact ++ lit " impact (" ++
    confidence_text confidence ++ lit " confidence)".

(** *** [_create_llm_prompt] *)

Definition quoted (s : string) : list N := [34%N] ++ lit s ++ [34%N].
Definition nl : list N := [10%N].

Definition _create_llm_prompt (title summary : pyval) (lang : list N) : list N :=
  lit "Analyze this cryptocurrency news for market impact:" ++ nl ++ nl ++
  lit "Title: " ++ fmt title ++ nl ++
  lit "Summary: " ++ fmt summary ++ nl ++ nl ++
  lit "Respond with JSON format only:" ++ nl ++
  lit "{" ++ nl ++
  lit "    " ++ quoted "impact" ++ lit ": " ++ quoted "Positive|Negative|Neutral" ++ lit "," ++ nl ++
  lit "    " ++ quoted "confidence" ++ lit ": 0-100," ++ nl ++
  lit "    " ++ quoted "summary" ++ lit ": " ++ quoted "Brief summary for trading alerts" ++ lit "," ++ nl ++
  lit "    " ++ quoted "reasoning" ++ lit ": " ++ quoted "Why this impact?" ++ nl ++
  lit "}" ++ nl ++ nl ++
  lit "Focus on immediate market sentiment and price impact potential.".

(** *** [_parse_llm_response] *)

(** [re.search(r'\{.*\}', response, re.DOTALL)]: from the first opening
    brace to the last closing brace behind it. *)
Fixpoint from_open_brace (s : list N) : option (list N) :=
  match s with
  | [] => None
  | c :: s' => if (c =? 123)%N then Some s' else from_open_brace s'
  end.

Fixpoint to_last_close_brace (s : list N) : option (list N) :=
  match s with
  | [] => None
  | c :: s' =>
      match to_last_close_brace s' with
      | Some m => Some (c :: m)
      | None => if (c =? 125)%N then Some [c] else None
      end
  end.

Definition search_json_object (response : list N) : option (list N) :=
  inside ← from_open_brace response;
  m ← to_last_close_brace inside;
  Some (123%N :: m).

Definition _parse_llm_response (response : pyval) (lang : list N)
    : option NewsAnalysisResponse :=
  let body : result (option NewsAnalysisResponse) :=
    text ← expect_str response;
    match search_json_object text with
    | None => ret None
    | Some json_match =>
        data ← match json_loads json_match with
               | Some data => ret data
               | None => raise "JSONDecodeError" (lit "Expecting value")
               end;
        impact_value ← py_get data (lit "impact") (PStr (lit "Neutral"));
        impact ← match ImpactType_of impact_value with
                 | Some i => ret i
                 | None => raise "ValueError"
                             (fmt impact_value ++ lit " is not a valid ImpactType")
                 end;
        confidence_value ← py_get data (lit "confidence") (PInt 50);
        lower ← max_0 confidence_value;
        confidence ← min_100 lower;
        summary_value ← py_get data (lit "summary") (PStr (lit "Analysis completed"));
        r ← NewsAnalysisResponse_init
              [ (lit "impact", PStr (ImpactType_value impact));
                (lit "confidence", confidence);
                (lit "affected_coins", PList []);
                (lit "summary", summary_value);
                (lit "lang", PStr lang);
                (lit "low_confidence", PBool false) ];
        ret (Some r)
    end in
  match body with
  | inl _ => None
  | inr r => r
  end.

(** *** [_llm_analysis] *)

Definition _llm_analysis (title summary : pyval) (lang item_id : list N)
    : result (option NewsAnalysisResponse) :=
  match OPENAI_API_KEY world with
  | None | Some [] => ret None
  | Some _ =>
      let prompt := _create_llm_prompt title summary lang in
      try_except
        (match post_completion world item_id prompt with
         | Raises e => inl e
         | Responds status body =>
             if negb (status =? 200) then ret None
             else
               data ← body;
               choices ← subscript_key data (lit "choices");
               choice ← subscript_0 choices;
               message ← subscript_key choice (lit "message");
               result_text ← subscript_key message (lit "content");
               ret (_parse_llm_response result_text lang)
         end)
        (fun e => ret None)
  end.

(** *** [_analyze_news_item] *)

(** The verdict built from the keyword draft. *)
Definition keyword_verdict (title : list N) (keyword_result : ImpactType * Z)
    (affected_coins : gset (list N)) (lang : list N) : result NewsAnalysisResponse :=
  let '(impact, confidence) := keyword_result in
  let summary_text := _generate_summary title impact confidence lang in
  NewsAnalysisResponse_init
    [ (lit "impact", PStr (ImpactType_value impact));
      (lit "confidence", PInt (Z.min confidence 75));
      (lit "affected_coins", PList (PStr <$> elements affected_coins));
      (lit "summary", PStr summary_text);
      (lit "lang", PStr lang);
      (lit "low_confidence", PBool (if confidence <? 60 then true else false)) ].

(** [title + summary] is evaluated for the language and for the coins; it
    raises unless both are text, so that behind it [title] is its own
    rendering. *)
Definition _analyze_news_item (title summary : pyval) (item_id : list N)
    : result NewsAnalysisResponse :=
  let full_text := str_lower (fmt title ++ lit " " ++ fmt summary) in
  let keyword_result := _keyword_analysis full_text in
  joined ← py_add float_add title summary;
  text ← expect_str joined;
  let lang := if arabic_pattern_search text then lit "ar" else lit "en" in
  let affected_coins := _detect_coins text in
  let needs_llm := _needs_llm_analysis keyword_result full_text in
  attempt ←
    (if needs_llm then
       try_except (_llm_analysis title summary lang item_id) (fun e => ret None)
     else ret None);
  match attempt with
  | Some llm_result =>
      ret (set_affected_coins llm_result
             (if decide (affected_coins = ∅)
              then response_models.affected_coins llm_result
              else affected_coins))
  | None => keyword_verdict (fmt title) keyword_result affected_coins lang
  end.

(** *** [analyze_batch] *)

(** The placeholder that stands for an item whose analysis raised. *)
Definition failed_verdict (e : exn) : pyval :=
  PDict [ (lit "impact", PStr (lit "Neutral"));
          (lit "confidence", PInt 0);
          (lit "affected_coins", PList []);
          (lit "summary", PStr (lit "Analysis failed"));
          (lit "lang", PStr (lit "en"));
          (lit "error", PStr (exn_str e)) ].

Fixpoint enumerate_from {A} (i : Z) (xs : list A) : list (Z * A) :=
  match xs with
  | [] => []
  | x :: xs' => (i, x) :: enumerate_from (i + 1) xs'
  end.

(** The arguments of a task are read from the item while the tasks are
    being created; [gather] then runs every task and hands back, in the
    order of the tasks, either its result or the exception it raised. *)
Definition analyze_batch (news_items : list pyval) (request_id : list N)
    : result (list pyval) :=
  tasks ←
    for_each
      (fun '(i, item) =>
         title ← py_get item (lit "title") (PStr []);
         summary ← py_get item (lit "summary") (PStr []);
         ret (title, summary, request_id ++ lit "_item_" ++ str_of_Z i))
      (enumerate_from 0 news_items);
  let results :=
    map (fun '(title, summary, item_id) => _analyze_news_item title summary item_id)
      tasks in
  let processed_results :=
    map (fun r : result NewsAnalysisResponse =>
           match r with
           | inl e => failed_verdict e
           | inr r => NewsAnalysisResponse_dict r
           end)
      results in
  ret processed_results.

(** *** [analyze_single] *)

(** [NewsAnalysisResponse] called with the items of a cached value as
    keyword arguments. *)
Definition from_cached (cached_result : pyval) : result NewsAnalysisResponse :=
  match cached_result with
  | PDict d => NewsAnalysisResponse_init d
  | _ => raise "TypeError"
           (lit "argument after ** must be a mapping, not " ++ type_name cached_result)
  end.

(** [f"news:{hash(title + summary)}"] *)
Definition cache_key (title summary : pyval) : result (list N) :=
  joined ← py_add float_add title summary;
  h ← py_hash joined;
  ret (lit "news:" ++ str_of_Z h).

(** [now] is the time of the cache lookup and [later] the time at which
    the fresh verdict is stored. *)
Definition analyze_single (cache : CacheManager) (now later : Z)
    (title summary : pyval) (request_id : list N)
    : result NewsAnalysisResponse * CacheManager :=
  match cache_key title summary with
  | inl e => (inl e, cache)
  | inr cache_key =>
      let '(cached_result, cache) := get cache now cache_key in
      let analyze :=
        match _analyze_news_item title summary request_id with
        | inl e => (inl e, cache)
        | inr r =>
            let '(_, cache) :=
              set cache later cache_key (NewsAnalysisResponse_dict r) 43200 in
            (ret r, cache)
        end in
      match cached_result with
      | Some cached => if truthy cached then (from_cached cached, cache) else analyze
      | None => analyze
      end
  end.

End Defs.
End news_analyzer.

(* ===================================================================== *)
(** ** mcp_news_main.py                                                   *)
(* ===================================================================== *)

Module mcp_news_main.
Import response_models cache_manager news_analyzer.
Section Defs.
Context {rt : PyRuntime}.
Variable world : World.

(** A request after FastAPI has validated its envelope. *)
Record MCPRequest := {
  id : pyval;
  method : list N;
  params : list (list N * pyval)
}.

(** What an endpoint answers: an [HTTPException] with its status code (422
    is FastAPI's own refusal of a body that fails validation), a JSON-RPC
    reply, or the body of the REST reply. *)
Inductive reply :=
| HTTPException (status_code : Z) (detail : list N)
| MCPResponse (id : pyval) (result error : option pyval)
| RestResults (results : list pyval) (request_id : list N).

(** [v == "..."]: only that text is equal to a text. *)
Definition is_text (v : pyval) (s : string) : bool :=
  match v with
  | PStr t => bool_decide (t = lit s)
  | _ => false
  end.

(** ["news" in arguments] *)
Definition has_news (arguments : pyval) : result bool :=
  match arguments with
  | PDict d => ret (bool_decide (is_Some (dict_lookup (lit "news") d)))
  | PList l => ret (existsb (fun v => is_text v "news") l)
  | PStr s => ret (contains (lit "news") s)
  | _ => raise "TypeError"
           (lit "argument of type '" ++ type_name arguments ++ lit "' is not iterable")
  end.

Definition is_list (v : pyval) : bool :=
  match v with
  | PList _ => true
  | _ => false
  end.

Definition items_of (v : pyval) : list pyval :=
  match v with
  | PList l => l
  | _ => []
  end.

Definition property (type description : string) : pyval :=
  PDict [ (lit "type", PStr (lit type)); (lit "description", PStr (lit description)) ].

(** The reply to [tools/list]. *)
Definition tools : pyval :=
  PList [ PDict [
    (lit "name", PStr (lit "news_analysis"));
    (lit "description",
      PStr (lit "Analyze cryptocurrency news for sentiment and market impact (single or batch)"));
    (lit "inputSchema", PDict [
      (lit "type", PStr (lit "object"));
      (lit "properties", PDict [
        (lit "title", property "string" "News headline (single mode)");
        (lit "summary", property "string" "News description (single mode)");
        (lit "news", PDict [
          (lit "type", PStr (lit "array"));
          (lit "description", PStr (lit "Array of news items for batch processing"));
          (lit "items", PDict [
            (lit "type", PStr (lit "object"));
            (lit "properties", PDict [
              (lit "title", PDict [ (lit "type", PStr (lit "string")) ]);
              (lit "summary", PDict [ (lit "type", PStr (lit "string")) ]) ]);
            (lit "required", PList [ PStr (lit "title"); PStr (lit "summary") ]) ]) ]) ]) ]) ] ].

(** What the handler does inside its [try]: either an [HTTPException],
    which is raised again, or any other outcome.  The webhook notification
    that follows a batch changes neither the results nor the reply and
    swallows its own failures; it is left out. *)
Definition mcp_body (cache : CacheManager) (now later : Z) (request : MCPRequest)
    (request_id : list N) : result reply * CacheManager :=
  if decide (method request = lit "tools/call") then
    let tool_name := dict_get (params request) (lit "name") PNone in
    if is_text tool_name "news_analysis" then
      let arguments := dict_get (params request) (lit "arguments") (PDict []) in
      match has_news arguments with
      | inl e => (inl e, cache)
      | inr true =>
          match subscript_key arguments (lit "news") with
          | inl e => (inl e, cache)
          | inr news_items =>
              if negb (truthy news_items) || negb (is_list news_items) then
                (ret (HTTPException 400 (lit "Invalid batch news format")), cache)
              else
                (results ← analyze_batch world (items_of news_items) request_id;
                 ret (MCPResponse (id request) (Some (PList results)) None),
                 cache)
          end
      | inr false =>
          match (title ← py_get arguments (lit "title") (PStr []);
                 summary ← py_get arguments (lit "summary") (PStr []);
                 ret (title, summary)) with
          | inl e => (inl e, cache)
          | inr (title, summary) =>
              if negb (truthy title) || negb (truthy summary) then
                (ret (HTTPException 400 (lit "Both 'title' and 'summary' required")), cache)
              else
                let '(r, cache) :=
                  analyze_single world cache now later title summary request_id in
                (r ← r;
                 ret (MCPResponse (id request) (Some (NewsAnalysisResponse_dict r)) None),
                 cache)
          end
      end
    else
      (ret (HTTPException 400 (lit "Unknown tool: " ++ fmt tool_name)), cache)
  else if decide (method request = lit "tools/list") then
    (ret (MCPResponse (id request) (Some (PDict [ (lit "tools", tools) ])) None), cache)
  else
    (ret (HTTPException 400 (lit "Unknown method: " ++ method request)), cache).

(** [mcp_endpoint]: any exception other than an [HTTPException] becomes a
    JSON-RPC internal error. *)
Definition mcp_endpoint (cache : CacheManager) (now later : Z) (request : MCPRequest)
    (request_id : list N) : reply * CacheManager :=
  let '(outcome, cache) := mcp_body cache now later request request_id in
  match outcome with
  | inr r => (r, cache)
  | inl e =>
      (MCPResponse (id request) None
         (Some (PDict [ (lit "code", PInt (-32603));
                        (lit "message", PStr (lit "Internal error"));
                        (lit "data", PStr (exn_str e)) ])),
       cache)
  end.

(** A validated [NewsItem] as the object the handler receives. *)
Definition NewsItem_object (item : NewsItem) : pyval :=
  PObject "NewsItem" [ (lit "title", PStr (ni_title item));
                       (lit "summary", PStr (ni_summary item)) ].

(** [analyze_endpoint]: FastAPI validates the body as a [BatchNewsRequest]
    before the handler runs. *)
Definition analyze_endpoint (body : pyval) (request_id : list N) : reply :=
  match BatchNewsRequest_parse body with
  | None => HTTPException 422 (lit "Unprocessable Entity")
  | Some news =>
      match analyze_batch world (NewsItem_object <$> news) request_id with
      | inr results => RestResults results request_id
      | inl e => HTTPException 500 (lit "Analysis failed: " ++ exn_str e)
      end
  end.

(** *** [verify_token] *)

(** [s.split(sep)] for a separator of one character. *)
Fixpoint split_from (sep : N) (piece s : list N) : list (list N) :=
  match s with
  | [] => [piece]
  | c :: s' =>
      if (c =? sep)%N then piece :: split_from sep [] s'
      else split_from sep (piece ++ [c]) s'
  end.

Definition str_split (sep : N) (s : list N) : list (list N) := split_from sep [] s.

(** [verify_token]: [API_TOKEN] is the variable of the environment and
    [authorization] the header of the request.  The dependency returns
    [True] or raises; an [IndexError] would be answered with status 500. *)
Definition verify_token (API_TOKEN authorization : option (list N)) : reply + bool :=
  match API_TOKEN with
  | None | Some [] => inr true
  | Some required_token =>
      match authorization with
      | None | Some [] =>
          inl (HTTPException 401 (lit "Authorization header required"))
      | Some authorization =>
          if negb (starts_with (lit "Bearer ") authorization) then
            inl (HTTPException 401 (lit "Invalid authorization format"))
          else
            match str_split 32 authorization !! 1%nat with
            | None => inl (HTTPException 500 (lit "Internal Server Error"))
            | Some token =>
                if decide (token = required_token) then inr true
                else inl (HTTPException 401 (lit "Invalid token"))
            end
      end
  end.

End Defs.
End mcp_news_main.

(* ===================================================================== *)
(** ** webhook_manager.py                                                 *)
(* ===================================================================== *)

(** What a request to the webhook endpoint comes to: it raises (transport
    failure, timeout) or is answered with a status. *)
Inductive post_outcome :=
| PostRaises (e : exn)
| PostStatus (status : Z).

Module webhook_manager.
Import response_models news_analyzer.
Section Defs.
Context {rt : PyRuntime}.

(** [session.post(url, json=payload, headers=headers)] *)
Variable post : option (list N) -> list (list N * list N) -> pyval -> post_outcome.

Record WebhookManager := {
  webhook_url : option (list N);
  webhook_secret : option (list N);
  enabled : bool
}.

(** [bool(v)] and [if v:] on a variable of the environment. *)
Definition is_set (v : option (list N)) : bool :=
  match v with
  | Some (_ :: _) => true
  | _ => false
  end.

Definition __init__ (WEBHOOK_URL WEBHOOK_SECRET : option (list N)) : WebhookManager :=
  {| webhook_url := WEBHOOK_URL;
     webhook_secret := WEBHOOK_SECRET;
     enabled := is_set WEBHOOK_URL |}.

(** *** [_generate_summary_stats] *)

(** The counters, a dict in the order of its keys. *)
Definition no_stats : list (list N * Z) :=
  map (fun key => (lit key, 0))
    [ "positive"; "negative"; "neutral"; "high_confidence"; "low_confidence";
      "errors" ]%string.

(** [stats[key] += 1] for a key of the dict. *)
Definition increment (key : list N) (stats : list (list N * Z)) : list (list N * Z) :=
  map (fun '(k, n) => if decide (k = key) then (k, n + 1) else (k, n)) stats.

(** [v.lower()]: a method of text only. *)
Definition lower_method (v : pyval) : result (list N) :=
  match v with
  | PStr s => ret (str_lower s)
  | _ => raise "AttributeError"
           (lit "'" ++ type_name v ++ lit "' object has no attribute 'lower'")
  end.

(** [v > 75] *)
Definition above_75 (v : pyval) : result bool :=
  match v with
  | PInt z => ret (75 <? z)
  | PBool b => ret (75 <? int_of_bool b)
  | PFloat x => ret (PrimFloat.ltb 75%float x)
  | _ => not_comparable ">" (type_name v) (lit "int")
  end.

(** The body of the loop. *)
Definition count_result (stats : list (list N * Z)) (entry : pyval)
    : result (list (list N * Z)) :=
  impact_value ← py_get entry (lit "impact") (PStr (lit "Neutral"));
  impact ← lower_method impact_value;
  let stats := if bool_decide (impact ∈ stats.*1) then increment impact stats else stats in
  confidence ← py_get entry (lit "confidence") (PInt 0);
  high ← above_75 confidence;
  let stats :=
    if (high : bool) then increment (lit "high_confidence") stats
    else increment (lit "low_confidence") stats in
  error ← py_get entry (lit "error") PNone;
  let stats := if truthy error then increment (lit "errors") stats else stats in
  ret stats.

Fixpoint count_results (stats : list (list N * Z)) (results : list pyval)
    : result (list (list N * Z)) :=
  match results with
  | [] => ret stats
  | entry :: rest =>
      stats ← count_result stats entry;
      count_results stats rest
  end.

Definition _generate_summary_stats (results : list pyval) : result (list (list N * Z)) :=
  count_results no_stats results.

(** *** [_send_webhook] *)

Definition headers (self : WebhookManager) : list (list N * list N) :=
  [ (lit "Content-Type", lit "application/json");
    (lit "User-Agent", lit "MCP-News-v2.1-Webhook") ] ++
  match webhook_secret self with
  | Some (c :: secret) => [ (lit "X-Webhook-Secret", c :: secret) ]
  | _ => []
  end.

(** The first handler of the method names [aiohttp.ClientTimeout], the
    class of the timeout settings, which is not an exception class:
    matching an exception against it raises [TypeError], so that no
    exception of the request reaches the second handler. *)
Definition _send_webhook (self : WebhookManager) (payload : pyval) : result bool :=
  match post (webhook_url self) (headers self) payload with
  | PostStatus status => ret (bool_decide (status ∈ [200; 201; 202]))
  | PostRaises e =>
      raise "TypeError"
        (lit "catching classes that do not inherit from BaseException is not allowed")
  end.

(** *** [send_batch_results] *)

(** [timestamp] is [datetime.utcnow().isoformat() + "Z"]. *)
Definition send_batch_results (self : WebhookManager) (results : list pyval)
    (request_id timestamp : list N) : bool :=
  if negb (enabled self) then true
  else
    match (summary_stats ← _generate_summary_stats results;
           payload ← WebhookPayload_init request_id timestamp
                       (Z.of_nat (length results)) results summary_stats;
           _send_webhook self (WebhookPayload_dict payload)) with
    | inl _ => false
    | inr success => success
    end.

(** *** [test_webhook] *)

Definition test_webhook (self : WebhookManager) (timestamp : list N) : result pyval :=
  if negb (enabled self) then
    ret (PDict [ (lit "status", PStr (lit "disabled"));
                 (lit "message", PStr (lit "No webhook URL configured")) ])
  else
    let test_payload :=
      PDict [ (lit "test", PBool true);
              (lit "timestamp", PStr timestamp);
              (lit "service", PStr (lit "mcp-news-v2.1")) ] in
    success ← _send_webhook self test_payload;
    ret (PDict [ (lit "status", PStr (lit (if (success : bool) then "success" else "failed")));
                 (lit "url", py_option PStr (webhook_url self));
                 (lit "message",
                  PStr (lit (if success then "Test webhook sent"
                             else "Test webhook failed"))) ]).

End Defs.
End webhook_manager.

(* ===================================================================== *)
(** ** A concrete runtime for worked examples                             *)
(* ===================================================================== *)

(** The properties below hold for every runtime.  To run the model on
    concrete inputs we fix one that agrees with CPython on the fragment the
    examples use: text made of Basic Latin and of caseless letters such as
    the Arabic ones, JSON documents without floats and without [\u]
    escapes, integers written in decimal.  [hash] is a polynomial stand-in
    for the seeded hash of a process. *)
Module basic.

Definition lower_chars (s : list N) : list N :=
  map (fun c => if (c <? 128)%N then
                  (if (65 <=? c)%N && (c <=? 90)%N then (c + 32)%N else c)
                else c) s.

Definition upper_chars (s : list N) : list N :=
  map (fun c => if (c <? 128)%N then
                  (if (97 <=? c)%N && (c <=? 122)%N then (c - 32)%N else c)
                else c) s.

(** Arabic letters are word characters. *)
Definition word_char (c : N) : bool := (1568 <=? c)%N && (c <=? 1610)%N.

Definition is_digit (c : N) : bool := (48 <=? c)%N && (c <=? 57)%N.

Fixpoint digits_value (acc : Z) (s : list N) : option Z :=
  match s with
  | [] => Some acc
  | c :: s' =>
      if is_digit c then digits_value (10 * acc + Z.of_N (c - 48)) s' else None
  end.

(** [int(text)] for an optional sign followed by digits. *)
Definition int_of_text (s : list N) : option Z :=
  match s with
  | [] => None
  | 45%N :: (_ :: _) as ds => Z.opp <$> digits_value 0 ds
  | 45%N :: [] => None
  | _ => digits_value 0 s
  end.

Definition format_value (v : pyval) : list N :=
  match v with
  | PNone => lit "None"
  | PBool true => lit "True"
  | PBool false => lit "False"
  | PInt z => str_of_Z z
  | PStr s => s
  | _ => type_name v
  end.

Definition poly_hash (s : list N) : Z :=
  fold_left (fun h c => (31 * h + Z.of_N c) mod 2305843009213693951) s 7.

Definition number_hash (v : pyval) : Z :=
  match v with
  | PInt z => z mod 2305843009213693951
  | PBool b => int_of_bool b
  | _ => 0
  end.

Definition float_of_num (v : pyval) : float :=
  match v with
  | PFloat x => x
  | PInt z =>
      if z <? 0 then PrimFloat.opp (PrimFloat.of_uint63 (Uint63.of_Z (- z)))
      else PrimFloat.of_uint63 (Uint63.of_Z z)
  | PBool true => 1%float
  | _ => 0%float
  end.

(** *** A reader for JSON text *)

Definition is_space (c : N) : bool :=
  (c =? 32)%N || (c =? 9)%N || (c =? 10)%N || (c =? 13)%N.

Fixpoint skip_space (s : list N) : list N :=
  match s with
  | c :: s' => if is_space c then skip_space s' else s
  | [] => []
  end.

(** The characters of a string up to the closing quote. *)
Fixpoint read_string (s : list N) : option (list N * list N) :=
  match s with
  | [] => None
  | 34%N :: rest => Some ([], rest)
  | 92%N :: e :: s' =>
      let escaped :=
        if (e =? 34)%N || (e =? 92)%N || (e =? 47)%N then Some e
        else if (e =? 110)%N then Some 10%N
        else if (e =? 116)%N then Some 9%N
        else if (e =? 114)%N then Some 13%N
        else None in
      c ← escaped;
      '(t, rest) ← read_string s';
      Some (c :: t, rest)
  | 92%N :: [] => None
  | c :: s' =>
      if (c <? 32)%N then None
      else '(t, rest) ← read_string s'; Some (c :: t, rest)
  end.

Fixpoint span_digits (s : list N) : list N * list N :=
  match s with
  | c :: s' =>
      if is_digit c then let '(ds, rest) := span_digits s' in (c :: ds, rest)
      else ([], s)
  | [] => ([], [])
  end.

(** An integer; a fraction or an exponent is outside the fragment. *)
Definition read_int (s : list N) : option (Z * list N) :=
  let '(negative, s) :=
    match s with
    | 45%N :: s' => (true, s')
    | _ => (false, s)
    end in
  let '(ds, rest) := span_digits s in
  match ds, rest with
  | [], _ => None
  | _, (46%N | 101%N | 69%N) :: _ => None
  | 48%N :: _ :: _, _ => None
  | _, _ => n ← digits_value 0 ds; Some (if (negative : bool) then - n else n, rest)
  end.

(** [d[k] = v] *)
Fixpoint dict_set (k : list N) (v : pyval) (d : list (list N * pyval))
    : list (list N * pyval) :=
  match d with
  | [] => [(k, v)]
  | (k', v') :: d' => if decide (k' = k) then (k, v) :: d' else (k', v') :: dict_set k v d'
  end.

Fixpoint read_value (fuel : nat) (s : list N) : option (pyval * list N) :=
  match fuel with
  | O => None
  | S fuel =>
      let read_items :=
        fix read_items (n : nat) (acc : list pyval) (s : list N) : option (pyval * list N) :=
          match n with
          | O => None
          | S n =>
              '(v, s) ← read_value fuel s;
              match skip_space s with
              | 44%N :: s' => read_items n (acc ++ [v]) s'
              | 93%N :: s' => Some (PList (acc ++ [v]), s')
              | _ => None
              end
          end in
      let read_members :=
        fix read_members (n : nat) (acc : list (list N * pyval)) (s : list N)
            : option (pyval * list N) :=
          match n with
          | O => None
          | S n =>
              match skip_space s with
              | 34%N :: s' =>
                  '(k, s) ← read_string s';
                  match skip_space s with
                  | 58%N :: s' =>
                      '(v, s) ← read_value fuel s';
                      match skip_space s with
                      | 44%N :: s' => read_members n (dict_set k v acc) s'
                      | 125%N :: s' => Some (PDict (dict_set k v acc), s')
                      | _ => None
                      end
                  | _ => None
                  end
              | _ => None
              end
          end in
      match skip_space s with
      | 123%N :: s' =>
          match skip_space s' with
          | 125%N :: rest => Some (PDict [], rest)
          | _ => read_members (length s) [] s'
          end
      | 91%N :: s' =>
          match skip_space s' with
          | 93%N :: rest => Some (PList [], rest)
          | _ => read_items (length s) [] s'
          end
      | 34%N :: s' => '(t, rest) ← read_string s'; Some (PStr t, rest)
      | s' =>
          if starts_with (lit "null") s' then Some (PNone, drop 4 s')
          else if starts_with (lit "true") s' then Some (PBool true, drop 4 s')
          else if starts_with (lit "false") s' then Some (PBool false, drop 5 s')
          else '(n, rest) ← read_int s'; Some (PInt n, rest)
      end
  end.

Definition loads (s : list N) : option pyval :=
  '(v, rest) ← read_value (S (length s)) s;
  match skip_space rest with
  | [] => Some v
  | _ => None
  end.

(** pydantic's reading of a value that is not of the field's type. *)
Definition to_int (v : pyval) : option Z :=
  match v with
  | PBool b => Some (int_of_bool b)
  | PStr s => int_of_text s
  | _ => None
  end.

Definition to_str (v : pyval) : option (list N) :=
  match v with
  | PInt z => Some (str_of_Z z)
  | _ => None
  end.

Definition to_bool (v : pyval) : option bool :=
  match v with
  | PInt 0 => Some false
  | PInt 1 => Some true
  | _ => None
  end.

Definition runtime : PyRuntime := {|
  float_add := fun a b => PrimFloat.add (float_of_num a) (float_of_num b);
  uni_lower := lower_chars;
  uni_upper := upper_chars;
  uni_word := word_char;
  uni_ieq := N.eqb;
  py_format := format_value;
  py_int := fun v => match v with PStr s => int_of_text s | _ => None end;
  hash_str := poly_hash;
  hash_number := number_hash;
  json_loads := loads;
  coerce_int := to_int;
  coerce_str := to_str;
  coerce_bool := to_bool
|}.


(** A world without a credential, and one whose endpoint answers every
    call with the given completion text. *)
Definition offline : World :=
  {| OPENAI_API_KEY := None;
     post_completion := fun _ _ => Raises (Exception "ClientError" (lit "unreachable")) |}.

Definition completion (text : list N) : pyval :=
  PDict [ (lit "choices",
           PList [ PDict [ (lit "message",
                            PDict [ (lit "content", PStr text) ]) ] ]) ].

Definition answering (text : list N) : World :=
  {| OPENAI_API_KEY := Some (lit "sk-test");
     post_completion := fun _ _ => Responds 200 (inr (completion text)) |}.

End basic.

(** Inputs of the worked examples. *)
Module examples.

(** "Bitcoin" in Arabic script. *)
Definition arabic_bitcoin : list N := [1576; 1610; 1578; 1603; 1608; 1610; 1606]%N.

Definition rally_title : list N := lit "Bitcoin rally".
Definition rally_summary : list N := lit "prices gain".

Definition arabic_title : list N := arabic_bitcoin ++ lit " surge rally soar pump moon".
Definition arabic_summary : list N := lit "today".

Definition english_title : list N := lit "Bitcoin surge rally soar pump moon".

(** A well-formed item, as a JSON object and as a validated model. *)
Definition rally_dict : pyval :=
  PDict [ (lit "title", PStr rally_title); (lit "summary", PStr rally_summary) ].

Definition rally_item : response_models.NewsItem :=
  {| response_models.ni_title := rally_title;
     response_models.ni_summary := rally_summary |}.

(** An item whose title is [null]. *)
Definition untitled_dict : pyval :=
  PDict [ (lit "title", PNone); (lit "summary", PStr rally_summary) ].

(** The body of a REST request with one item, and the JSON-RPC request of
    a batch of 51 items. *)
Definition rest_body : pyval := PDict [ (lit "news", PList [ rally_dict ]) ].

Definition oversized_body : pyval :=
  PDict [ (lit "news", PList (replicate 51 rally_dict)) ].

Definition oversized_request : mcp_news_main.MCPRequest :=
  {| mcp_news_main.id := PInt 1;
     mcp_news_main.method := lit "tools/call";
     mcp_news_main.params :=
       [ (lit "name", PStr (lit "news_analysis"));
         (lit "arguments", oversized_body) ] |}.

(** A connected store that holds nothing, one whose commands all work and
    one whose next two commands raise. *)
Definition empty_store (faults : list bool) : cache_manager.CacheManager :=
  {| cache_manager.redis := Some {| cache_manager.data := ∅; cache_manager.faults := faults |};
     cache_manager.stats :=
       {| cache_manager.hits := 0; cache_manager.misses := 0; cache_manager.total := 0 |} |}.

Definition no_cache : cache_manager.CacheManager :=
  {| cache_manager.redis := None;
     cache_manager.stats :=
       {| cache_manager.hits := 0; cache_manager.misses := 0; cache_manager.total := 0 |} |}.

End examples.

(* ===================================================================== *)
(** ** Vocabulary of the specification                                    *)
(* ===================================================================== *)

Module spec.
Import response_models cache_manager news_analyzer.
Section Defs.
Context {rt : PyRuntime}.

(** The score of a lexicon: every term weighs in once per whole-word
    occurrence found in the text. *)
Definition lexicon_score (lexicon : list (list N * Z)) (text : list N) : Z :=
  foldr (fun '(term, weight) total => findall_word_count term text * weight + total)
    0 lexicon.

(** The number of positions of the text at which the term stands as a
    whole word, whatever its case: every position counts, also one inside
    an earlier occurrence. *)
Fixpoint whole_word_occurrences_from (term : list N) (prev : option N)
    (text : list N) : Z :=
  (if match_word_at re_ieq term prev text then 1 else 0) +
  match text with
  | [] => 0
  | c :: text' => whole_word_occurrences_from term (Some c) text'
  end.

Definition whole_word_occurrences (term text : list N) : Z :=
  whole_word_occurrences_from term None text.

(** No occurrence of the term can begin inside another: wherever a word
    boundary falls inside the term, the character behind it differs from
    the first one. *)
Fixpoint restart_free (first prev : N) (rest : list N) : bool :=
  match rest with
  | [] => true
  | q :: rest' =>
      negb (xorb (re_word prev) (re_word q) && re_ieq first q) &&
      restart_free first q rest'
  end.

Definition rigid (term : list N) : bool :=
  match term with
  | [] => false
  | p :: rest => restart_free p p rest
  end.

(** The term does not stand at any of the next [k] positions. *)
Fixpoint quiet (term : list N) (prev : option N) (text : list N) (k : nat)
    {struct k} : Prop :=
  match k with
  | O => True
  | S k' =>
      match text with
      | [] => True
      | c :: text' =>
          match_word_at re_ieq term prev text = false /\ quiet term (Some c) text' k'
      end
  end.

(** The score of a lexicon by positions: every term weighs in once per
    position at which it stands as a whole word. *)
Definition occurrences_score (lexicon : list (list N * Z)) (text : list N) : Z :=
  foldr (fun '(term, weight) total => whole_word_occurrences term text * weight + total)
    0 lexicon.

(** The code points of Basic Latin. *)
Definition ascii_codes : list N := N.of_nat <$> seq 0 128.

(** [needle] occurs in [text] as a raw substring. *)
Definition substring (needle text : list N) : Prop :=
  exists before after, text = before ++ needle ++ after.

(** The trigger terms of the escalation policy. *)
Definition trigger_terms : list (list N) :=
  [ lit "regulation"; lit "ban"; lit "approval"; lit "etf"; lit "sec"; lit "hack" ].

(** The canonical symbols of the pattern table. *)
Definition symbols : list (list N) := crypto_patterns.*2.

(** The language the pipeline detects. *)
Definition detected_lang (title summary : list N) : list N :=
  if arabic_pattern_search (title ++ summary) then lit "ar" else lit "en".

(** The keyword draft of the pipeline: its raw verdict. *)
Definition keyword_draft (title summary : list N) : ImpactType * Z :=
  _keyword_analysis (str_lower (title ++ lit " " ++ summary)).

(** The pipeline reaches its keyword fallback: no escalation, or an
    escalation that brought no verdict back. *)
Definition falls_back (world : World) (title summary item_id : list N) : Prop :=
  _needs_llm_analysis (keyword_draft title summary)
    (str_lower (title ++ lit " " ++ summary)) = false \/
  forall r, _llm_analysis world (PStr title) (PStr summary)
              (detected_lang title summary) item_id ≠ inr (Some r).

(** The title as the generated summary shows it. *)
Definition short_title (title : list N) : list N :=
  if (80 <? length title)%nat then take 80 title ++ lit "..." else title.

(** The completion endpoint cannot be used: no credential, a call that
    raises (transport failure, timeout), or a status other than 200. *)
Definition unavailable (world : World) (title summary : pyval)
    (lang item_id : list N) : Prop :=
  OPENAI_API_KEY world = None \/
  OPENAI_API_KEY world = Some [] \/
  (exists e,
     post_completion world item_id (_create_llm_prompt title summary lang) = Raises e) \/
  (exists status body,
     post_completion world item_id (_create_llm_prompt title summary lang)
     = Responds status body /\ status ≠ 200).

(** Text, [None] and containers do not compare with a number. *)
Definition not_a_number (v : pyval) : Prop :=
  match v with
  | PInt _ | PBool _ | PFloat _ => False
  | _ => True
  end.

(** The text holds an opening brace with a closing brace behind it. *)
Definition has_json_object (text : list N) : Prop :=
  exists before inside after,
    text = before ++ [123%N] ++ inside ++ [125%N] ++ after.

(** The verdict of a reply that names none of the fields. *)
Definition default_verdict (lang : list N) : NewsAnalysisResponse :=
  {| impact := NEUTRAL; confidence := 50; affected_coins := ∅;
     summary := lit "Analysis completed"; lang := lang;
     low_confidence := Some false; error := None |}.

(** What a batch holds at the place of an item given as a dict: the
    verdict of its analysis, or the placeholder when the analysis raised. *)
Definition item_verdict (world : World) (request_id : list N) (i : Z)
    (item : list (list N * pyval)) : pyval :=
  match _analyze_news_item world
          (dict_get item (lit "title") (PStr []))
          (dict_get item (lit "summary") (PStr []))
          (request_id ++ lit "_item_" ++ str_of_Z i) with
  | inl e =>
      PDict [ (lit "impact", PStr (lit "Neutral"));
              (lit "confidence", PInt 0);
              (lit "affected_coins", PList []);
              (lit "summary", PStr (lit "Analysis failed"));
              (lit "lang", PStr (lit "en"));
              (lit "error", PStr (exn_str e)) ]
  | inr r => NewsAnalysisResponse_dict r
  end.

(** The store cannot be used: there is no connection, or the next
    command raises. *)
Definition store_down (cache : CacheManager) : Prop :=
  redis cache = None \/
  exists r rest, redis cache = Some r /\ faults r = true :: rest.

(** A command sent to the store between two states of the cache manager
    raised: the commands sent are those whose fate was used up. *)
Definition raised_between (cache cache' : CacheManager) : Prop :=
  exists r r' sent,
    redis cache = Some r /\ redis cache' = Some r' /\
    faults r = sent ++ faults r' /\ true ∈ sent.

(** Two states of the cache manager over the same stored data. *)
Definition same_data (cache cache' : CacheManager) : Prop :=
  match redis cache, redis cache' with
  | Some r, Some r' => data r = data r'
  | None, None => True
  | _, _ => False
  end.

(** The string a working store returns for a key. *)
Definition lookup_live (r : Redis) (now : Z) (key : list N) : option redis_value :=
  e ← data r !! key; if live now e then Some (value e) else None.


(** The counters after a lookup. *)
Definition counted (cache : CacheManager) (hit : bool) : CacheManager :=
  {| redis := redis cache;
     stats := {| hits := hits (stats cache) + (if hit then 1 else 0);
                 misses := misses (stats cache) + (if hit then 0 else 1);
                 total := total (stats cache) + 1 |} |}.

(** A response whose fields the constructor would leave as they are. *)
Definition valid_response (r : NewsAnalysisResponse) : Prop :=
  0 <= confidence r <= 100 /\
  forall coin, coin ∈ affected_coins r -> coin ≠ [] /\ str_upper coin = coin.

End Defs.
End spec.

(* ===================================================================== *)
(** ** Vocabulary of the behaviour of the services                        *)
(* ===================================================================== *)

Module behaviour.
Import response_models cache_manager news_analyzer mcp_news_main webhook_manager spec.
Section Defs.
Context {rt : PyRuntime}.


(** The store answers every command. *)
Definition working (cache : CacheManager) : Prop :=
  exists r, redis cache = Some r /\ faults r = [].

(** The string the store holds for a key at a time. *)
Definition stored (cache : CacheManager) (now : Z) (key : list N)
    : option redis_value :=
  r ← redis cache; lookup_live r now key.

(** The key under which the verdict of an item is cached. *)
Definition news_key (title summary : list N) : list N :=
  lit "news:" ++ str_of_Z (hash_str (title ++ summary)).

(** The key of the counter of an identifier. *)
Definition counter_key (identifier : list N) : list N :=
  lit "rate_limit:" ++ identifier.

(** The requests of one identifier, checked one after the other at the
    given times: the answers and the cache manager behind them. *)
Fixpoint requests (cache : CacheManager) (times : list Z) (identifier : list N)
    (limit window : Z) : list bool * CacheManager :=
  match times with
  | [] => ([], cache)
  | now :: times' =>
      let '(allowed, cache) := check_rate_limit cache now identifier limit window in
      let '(answers, cache) := requests cache times' identifier limit window in
      (allowed :: answers, cache)
  end.






(** The entries of the store that are there at a time and match a
    pattern. *)
Definition matching (glob : list N -> list N -> bool) (cache : CacheManager)
    (now : Z) (pattern : list N) : gmap (list N) redis_entry :=
  match redis cache with
  | Some r => filter (fun '(key, e) => glob pattern key && live now e) (data r)
  | None => ∅
  end.


(** What a batch holds at the place of an item: its verdict, or the
    exception its analysis raised. *)
Inductive outcome :=
| Verdict (r : NewsAnalysisResponse)
| Failed (e : exn).

(** The entry of the batch result. *)
Definition entry_of (o : outcome) : pyval :=
  match o with
  | Verdict r => NewsAnalysisResponse_dict r
  | Failed e => failed_verdict e
  end.

(** The response the payload model makes of the entry. *)
Definition response_of (o : outcome) : NewsAnalysisResponse :=
  match o with
  | Verdict r => r
  | Failed e =>
      {| impact := NEUTRAL; confidence := 0; affected_coins := ∅;
         summary := lit "Analysis failed"; lang := lit "en";
         low_confidence := Some false; error := Some (exn_str e) |}
  end.

(** A verdict the constructor leaves as it is; a failure is always fine. *)
Definition sound (o : outcome) : Prop :=
  match o with
  | Verdict r => valid_response r
  | Failed _ => True
  end.

Definition has_impact (i : ImpactType) (o : outcome) : bool :=
  match i, impact (response_of o) with
  | POSITIVE, POSITIVE | NEGATIVE, NEGATIVE | NEUTRAL, NEUTRAL => true
  | _, _ => false
  end.

Definition is_high (o : outcome) : bool := 75 <? confidence (response_of o).

Definition is_low (o : outcome) : bool := negb (is_high o).

Definition has_error (o : outcome) : bool :=
  match error (response_of o) with
  | Some (_ :: _) => true
  | _ => false
  end.

(** The number of outcomes of a kind. *)
Definition tally (kind : outcome -> bool) (os : list outcome) : Z :=
  Z.of_nat (length (List.filter kind os)).

(** The dict of the six counters. *)
Definition stats_of (positive negative neutral high low errors : Z)
    : list (list N * Z) :=
  [ (lit "positive", positive); (lit "negative", negative); (lit "neutral", neutral);
    (lit "high_confidence", high); (lit "low_confidence", low);
    (lit "errors", errors) ].

Definition summary_of (os : list outcome) : list (list N * Z) :=
  stats_of (tally (has_impact POSITIVE) os) (tally (has_impact NEGATIVE) os)
    (tally (has_impact NEUTRAL) os) (tally is_high os) (tally is_low os)
    (tally has_error os).

(** The body of the notification of a batch. *)
Definition payload_of (request_id timestamp : list N) (os : list outcome) : pyval :=
  WebhookPayload_dict
    {| wp_request_id := request_id;
       wp_timestamp := timestamp;
       wp_total_items := Z.of_nat (length os);
       wp_results := response_of <$> os;
       wp_summary_stats := summary_of os |}.

(** Is a status one the webhook manager takes for a success? *)
Definition delivered (o : post_outcome) : bool :=
  match o with
  | PostStatus status => bool_decide (status ∈ [200; 201; 202])
  | PostRaises _ => false
  end.

End Defs.
End behaviour.

(** Inputs of the worked examples of the services. *)
Module scenarios.
Import response_models cache_manager news_analyzer mcp_news_main webhook_manager.

(** A pattern language with nothing but a trailing star. *)
Definition prefix_glob (pattern key : list N) : bool :=
  match reverse pattern with
  | 42%N :: stem => starts_with (reverse stem) key
  | _ => bool_decide (pattern = key)
  end.

(** A working store with a cached document and a counter. *)
Definition two_entries : CacheManager :=
  {| redis :=
       Some {| data :=
                 <[lit "news:7" := {| value := RJson (PDict []); expires_at := Some 100 |}]>
                   (<[lit "rate_limit:client" :=
                        {| value := RJson (PInt 3); expires_at := Some 200 |}]> ∅);
               faults := [] |};
     stats := {| hits := 0; misses := 0; total := 0 |} |}.

(** A webhook endpoint that accepts every request, and one that cannot be
    reached. *)
Definition accepting (url : option (list N)) (headers : list (list N * list N))
    (payload : pyval) : post_outcome :=
  PostStatus 200.

Definition unreachable (url : option (list N)) (headers : list (list N * list N))
    (payload : pyval) : post_outcome :=
  PostRaises (Exception "ClientConnectorError" (lit "Cannot connect to host")).

Definition notifier : WebhookManager :=
  __init__ (Some (lit "https://hooks.example/news")) None.

(** A JSON-RPC request in single mode and one in batch mode. *)
Definition single_arguments : list (list N * pyval) :=
  [ (lit "title", PStr examples.rally_title);
    (lit "summary", PStr examples.rally_summary) ].

Definition single_request : MCPRequest :=
  {| id := PInt 1;
     method := lit "tools/call";
     params := [ (lit "name", PStr (lit "news_analysis"));
                 (lit "arguments", PDict single_arguments) ] |}.

Definition batch_request : MCPRequest :=
  {| id := PInt 2;
     method := lit "tools/call";
     params := [ (lit "name", PStr (lit "news_analysis"));
                 (lit "arguments", examples.rest_body) ] |}.

End scenarios.

(** Looking a literal key up in an explicit list of keyword arguments. *)
Ltac lookup_keys :=
  repeat (cbn [dict_lookup];
          first [ rewrite decide_True by reflexivity
                | rewrite decide_False
                    by (let K := fresh in intros K; vm_compute in K; discriminate K) ]).

(** Case analysis on whatever the goal matches on. *)
Ltac break_match :=
  repeat match goal with
         | |- context [match ?x with _ => _ end] => destruct x
         end.

(* ===================================================================== *)
(** ** Properties                                                         *)
(* ===================================================================== *)

Import response_models cache_manager news_analyzer mcp_news_main spec.

(** *** Keyword scoring *)

Section KeywordScorer.
Context {rt : PyRuntime}.

Lemma keyword_score_from (lexicon : list (list N * Z)) (text : list N) (start : Z) :
  fold_left
    (fun score '(keyword, weight) =>
       let matches := findall_word_count keyword text in
       score + matches * weight)
    lexicon start
  = start + lexicon_score lexicon text.
Proof.
  revert start. induction lexicon as [|[term weight] lexicon IH]; intros start; simpl.
  - lia.
  - rewrite IH. lia.
Qed.

Lemma keyword_score_sum (lexicon : list (list N * Z)) (text : list N) :
  keyword_score lexicon text = lexicon_score lexicon text.
Proof. unfold keyword_score. rewrite keyword_score_from. lia. Qed.

(** A term placed anywhere in a lexicon adds its number of occurrences
    times its weight to the score of that lexicon. *)
Lemma keyword_score_term (before after : list (list N * Z)) (term : list N)
    (weight : Z) (text : list N) :
  keyword_score (before ++ (term, weight) :: after) text
  = keyword_score (before ++ after) text + findall_word_count term text * weight.
Proof.
  rewrite !keyword_score_sum. unfold lexicon_score.
  induction before as [|[t w] before IH]; simpl; lia.
Qed.

(** The confidence of the keyword verdict lies between 0 and 85. *)
Lemma keyword_analysis_range (text : list N) :
  0 <= (_keyword_analysis text).2 <= 85.
Proof.
  unfold _keyword_analysis.
  set (p := keyword_score positive_keywords text).
  set (n := keyword_score negative_keywords text).
  destruct (Z.ltb_spec n p), (Z.ltb_spec 5 p), (Z.ltb_spec p n), (Z.ltb_spec 5 n);
    cbn [andb fst snd]; lia.
Qed.

(** **** Occurrences counted by position

    What follows needs two facts about the case-insensitive matching of
    the runtime: a character that matches a pattern character is a word
    character exactly when that one is, and two pattern characters matched
    by one character match each other. *)
Section Occurrences.
Hypothesis ieq_word : forall p c, re_ieq p c = true -> re_word c = re_word p.
Hypothesis ieq_class :
  forall p q c, re_ieq p c = true -> re_ieq q c = true -> re_ieq p q = true.

(** Behind a character matched by [prev], while the rest of the term is
    being matched, no occurrence begins. *)
Lemma matched_rest_is_quiet (first : N) (tail : list N) (rest : list N)
    (prev c : N) (text : list N) (last : option N) (after : list N) :
  re_ieq prev c = true ->
  match_literal re_ieq rest (Some c) text = Some (last, after) ->
  restart_free first prev rest = true ->
  quiet (first :: tail) (Some c) text (length rest).
Proof.
  revert prev c text. induction rest as [|q rest IH]; intros prev c text Hprev Hm Hfree.
  - cbn [length quiet]. exact I.
  - cbn [match_literal] in Hm. destruct text as [|c' text]; [discriminate|].
    destruct (re_ieq q c') eqn:Hq; [|discriminate].
    cbn [restart_free] in Hfree. apply andb_true_iff in Hfree as [Hhere Hfree].
    cbn [length quiet]. split; [|by eapply IH].
    unfold match_word_at, word_boundary. cbn [head is_word_opt match_literal].
    rewrite (ieq_word _ _ Hprev), (ieq_word _ _ Hq).
    destruct (xorb (re_word prev) (re_word q)) eqn:Hx; [|reflexivity].
    destruct (re_ieq first c') eqn:Hf; [|reflexivity].
    rewrite (ieq_class _ _ _ Hf Hq) in Hhere. discriminate.
Qed.

Lemma match_is_followed_by_quiet (term : list N) (prev : option N) (c : N)
    (text : list N) :
  rigid term = true ->
  match_word_at re_ieq term prev (c :: text) = true ->
  quiet term (Some c) text (length term - 1).
Proof.
  destruct term as [|p rest]; [discriminate|]. intros Hrigid Hm.
  unfold match_word_at in Hm. apply andb_true_iff in Hm as [_ Hm].
  cbn [match_literal] in Hm. destruct (re_ieq p c) eqn:Hp; [|discriminate].
  destruct (match_literal re_ieq rest (Some c) text) as [[last after]|] eqn:Hrest;
    [|discriminate].
  cbn [length]. rewrite Nat.sub_succ, Nat.sub_0_r.
  by eapply matched_rest_is_quiet.
Qed.

Lemma findall_counts_positions_from (term : list N) (text : list N)
    (prev : option N) (k : nat) :
  rigid term = true -> quiet term prev text k ->
  findall_word_from term prev text k = whole_word_occurrences_from term prev text.
Proof.
  intros Hrigid. revert prev k. induction text as [|c text IH]; intros prev k Hquiet.
  - cbn [findall_word_from whole_word_occurrences_from].
    destruct term as [|p rest]; [discriminate|].
    unfold match_word_at. cbn [match_literal]. by rewrite andb_false_r.
  - cbn [findall_word_from whole_word_occurrences_from]. destruct k as [|k].
    + destruct (match_word_at re_ieq term prev (c :: text)) eqn:Hm.
      * rewrite IH; [reflexivity|]. by apply match_is_followed_by_quiet with prev.
      * rewrite IH; [lia|]. by destruct text.
    + destruct Hquiet as [-> Hquiet]. rewrite IH by exact Hquiet. lia.
Qed.

(** The scan of [findall] counts every whole-word occurrence of a rigid
    term. *)
Lemma findall_counts_positions (term text : list N) :
  rigid term = true ->
  findall_word_count term text = whole_word_occurrences term text.
Proof.
  intros Hrigid. apply findall_counts_positions_from; [exact Hrigid|].
  by destruct text.
Qed.

Lemma lexicon_terms_are_rigid :
  Forall (fun entry => rigid entry.1 = true) (positive_keywords ++ negative_keywords).
Proof. repeat constructor. Qed.

(** Each lexicon scores the sum, over its terms, of the occurrences of
    the term as a whole word times its weight. *)
Lemma keyword_score_whole_words (lexicon : list (list N * Z)) (text : list N) :
  Forall (fun entry => rigid entry.1 = true) lexicon ->
  keyword_score lexicon text = occurrences_score lexicon text.
Proof.
  rewrite keyword_score_sum. unfold lexicon_score, occurrences_score.
  induction 1 as [|[term weight] lexicon Hterm _ IH]; [reflexivity|].
  cbn [foldr]. rewrite IH. cbn [fst] in Hterm.
  by rewrite findall_counts_positions.
Qed.

End Occurrences.

(** C2.  Keyword scoring is a function of the text alone.  With each
    lexicon's score being the sum, over its terms, of the number of
    whole-word case-insensitive occurrences times the weight, the verdict
    is Positive with min(2p,100) when p > n and p > 5, Negative with
    min(2n,100) when n > p and n > 5, Neutral with 40 + |p - n| otherwise,
    the confidence being finally cut at 85; it always lies in [0, 85].
    The occurrences are those the left-to-right scan finds; they are all
    the positions at which the term stands as a whole word as soon as
    case-insensitive matching respects word characters and letters. *)
Theorem keyword_analysis_contract (text : list N) :
  let p := lexicon_score positive_keywords text in
  let n := lexicon_score negative_keywords text in
  let draft :=
    if decide (p > n /\ p > 5) then (POSITIVE, Z.min (2 * p) 100)
    else if decide (n > p /\ n > 5) then (NEGATIVE, Z.min (2 * n) 100)
    else (NEUTRAL, 40 + Z.abs (p - n)) in
  _keyword_analysis text = (draft.1, Z.min draft.2 85) /\
  0 <= (_keyword_analysis text).2 <= 85 /\
  ((forall a c, re_ieq a c = true -> re_word c = re_word a) ->
   (forall a b c, re_ieq a c = true -> re_ieq b c = true -> re_ieq a b = true) ->
   p = occurrences_score positive_keywords text /\
   n = occurrences_score negative_keywords text).
Proof.
  intros p n draft. split; [|split; [apply keyword_analysis_range|]].
  - unfold _keyword_analysis. rewrite !keyword_score_sum. fold p n.
    assert (E : (if (n <? p) && (5 <? p) then (POSITIVE, Z.min (p * 2) 100)
                 else if (p <? n) && (5 <? n) then (NEGATIVE, Z.min (n * 2) 100)
                 else (NEUTRAL, 40 + Z.abs (p - n))) = draft).
    { unfold draft.
      destruct (Z.ltb_spec n p), (Z.ltb_spec 5 p), (Z.ltb_spec p n), (Z.ltb_spec 5 n);
        simpl; repeat case_decide; try lia; f_equal; f_equal; lia. }
    rewrite E. by destruct draft.
  - intros Hword Hclass.
    pose proof lexicon_terms_are_rigid as [Hp Hn]%Forall_app.
    unfold p, n. rewrite <- !keyword_score_sum.
    split; by apply keyword_score_whole_words.
Qed.

End KeywordScorer.

(** *** Escalation *)

Section EscalationPolicy.

Lemma starts_with_spec (needle text : list N) :
  starts_with needle text = true <-> exists after, text = needle ++ after.
Proof.
  revert text. induction needle as [|a needle IH]; intros text; simpl.
  - split; eauto.
  - destruct text as [|c text].
    + split; [discriminate|]. intros [after E]. discriminate.
    + rewrite andb_true_iff, IH, N.eqb_eq. split.
      * intros [-> [after ->]]. eauto.
      * intros [after E]. inversion E. eauto.
Qed.

Lemma contains_spec (needle text : list N) :
  contains needle text = true <-> substring needle text.
Proof.
  unfold substring. induction text as [|c text IH]; simpl.
  - rewrite orb_false_r, starts_with_spec. split.
    + intros [after E]. exists [], after. exact E.
    + intros [before [after E]]. destruct before; [eauto|discriminate].
  - rewrite orb_true_iff, starts_with_spec, IH. split.
    + intros [[after E]|[before [after E]]].
      * exists [], after. exact E.
      * exists (c :: before), after. simpl. congruence.
    + intros [before [after E]]. destruct before as [|b before].
      * left. eauto.
      * right. inversion E. eauto.
Qed.

Lemma trigger_found (text : list N) :
  existsb (fun keyword => contains keyword text) high_impact_keywords = true <->
  exists term, term ∈ trigger_terms /\ substring term text.
Proof.
  rewrite existsb_exists. change high_impact_keywords with trigger_terms.
  split; intros [term [Hin Hsub]]; exists term.
  - split; [by apply list_elem_of_In | by apply contains_spec].
  - split; [by apply list_elem_of_In | by apply contains_spec].
Qed.

(** C3.  The escalation decision is true exactly when the confidence is
    below 60 or the text contains one of "regulation", "ban", "approval",
    "etf", "sec", "hack" as a raw substring; without a trigger term it
    escalates at confidence 59 and does not at confidence 60. *)
Theorem needs_llm_analysis_contract (impact : ImpactType) (confidence : Z)
    (text : list N) :
  (_needs_llm_analysis (impact, confidence) text = true <->
     confidence < 60 \/
     exists term,
       term ∈ [ lit "regulation"; lit "ban"; lit "approval"; lit "etf";
                lit "sec"; lit "hack" ] /\ substring term text) /\
  _needs_llm_analysis (impact, 59) text = true /\
  ((forall term, term ∈ trigger_terms -> ~ substring term text) ->
   _needs_llm_analysis (impact, 60) text = false).
Proof.
  split; [|split].
  - unfold _needs_llm_analysis. destruct (Z.ltb_spec confidence 60) as [Hlt|Hge].
    + split; auto.
    + destruct (existsb _ _) eqn:E.
      * split; [|reflexivity]. intros _. right. by apply trigger_found.
      * split; [discriminate|]. intros [Hlt|Hterm]; [lia|].
        apply trigger_found in Hterm. congruence.
  - reflexivity.
  - intros Habsent. unfold _needs_llm_analysis.
    change (60 <? 60) with false. cbv beta iota.
    destruct (existsb (fun keyword => contains keyword text) high_impact_keywords)
      eqn:E; [|reflexivity].
    apply trigger_found in E as [term [Hin Hsub]]. by destruct (Habsent term).
Qed.

End EscalationPolicy.

(** *** The response model *)

Section ResponseModel.
Context {rt : PyRuntime}.

Lemma impact_of_value (i : ImpactType) :
  ImpactType_of (PStr (ImpactType_value i)) = Some i.
Proof. destruct i; reflexivity. Qed.

Lemma list_str_validator_texts (coins : list (list N)) :
  list_str_validator (PList (PStr <$> coins)) = Some coins.
Proof.
  unfold list_str_validator. apply mapM_Some.
  induction coins; simpl; constructor; auto.
Qed.

(** The constructor on six keyword arguments of which the confidence and
    the summary are yet to be validated. *)
Lemma init_six (i : ImpactType) (cv : pyval) (coins : list (list N))
    (sv : pyval) (l : list N) (lc : bool) :
  NewsAnalysisResponse_init
    [ (lit "impact", PStr (ImpactType_value i));
      (lit "confidence", cv);
      (lit "affected_coins", PList (PStr <$> coins));
      (lit "summary", sv);
      (lit "lang", PStr l);
      (lit "low_confidence", PBool lc) ]
  = match (c ← int_validator cv;
           _ ← guard (0 <= c <= 100);
           s ← str_validator sv;
           Some {| impact := i; confidence := c;
                   affected_coins := validate_coins coins; summary := s;
                   lang := l; low_confidence := Some lc; error := None |}) with
    | Some r => ret r
    | None => raise "ValidationError" (lit "validation error for NewsAnalysisResponse")
    end.
Proof.
  unfold NewsAnalysisResponse_init, required, with_default.
  lookup_keys.
  cbn [mbind option_bind]. rewrite impact_of_value. cbn [mbind option_bind].
  destruct (int_validator cv) as [c|]; [|reflexivity]. cbn [mbind option_bind].
  case_guard; [|reflexivity]. cbn [mbind option_bind].
  rewrite list_str_validator_texts. cbn [fmap option_fmap option_map mbind option_bind].
  destruct (str_validator sv) as [s|]; reflexivity.
Qed.

(** Whatever the arguments, a response that was constructed has its
    confidence in range. *)
Lemma init_confidence_range (kwargs : list (list N * pyval)) (r : NewsAnalysisResponse) :
  NewsAnalysisResponse_init kwargs = inr r -> 0 <= confidence r <= 100.
Proof.
  unfold NewsAnalysisResponse_init.
  destruct (required ImpactType_of kwargs "impact") as [i|]; [|discriminate].
  cbn [mbind option_bind].
  destruct (required int_validator kwargs "confidence") as [c|]; [|discriminate].
  cbn [mbind option_bind].
  case_guard; [|discriminate]. cbn [mbind option_bind].
  repeat match goal with
         | |- context [with_default ?v ?d ?k ?n] =>
             destruct (with_default v d k n); [|discriminate]; cbn [mbind option_bind]
         | |- context [required ?v ?k ?n] =>
             destruct (required v k n); [|discriminate]; cbn [mbind option_bind]
         end.
  intros E. inversion E. simpl. assumption.
Qed.

End ResponseModel.

(** *** Coin detection *)

Section CoinDetector.
Context {rt : PyRuntime}.

Lemma symbol_is_upper (coin : list N) :
  coin ∈ symbols -> coin ≠ [] /\ str_upper coin = coin.
Proof.
  intros Hin.
  change symbols with
    [ lit "BTC"; lit "ETH"; lit "BNB"; lit "ADA"; lit "SOL"; lit "XRP";
      lit "DOT"; lit "AVAX"; lit "MATIC"; lit "LINK" ] in Hin.
  repeat (apply elem_of_cons in Hin as [->|Hin]; [split; [discriminate|reflexivity]|]).
  by apply elem_of_nil in Hin.
Qed.

Lemma detected_from (patterns : list (list (list N) * list N)) (text : list N)
    (acc : list (list N)) (coin : list N) :
  coin ∈ fold_left
           (fun detected '(pattern, coin) =>
              if search_words pattern text then detected ++ [coin] else detected)
           patterns acc ->
  coin ∈ acc \/ coin ∈ patterns.*2.
Proof.
  revert acc. induction patterns as [|[pattern symbol] patterns IH]; intros acc; simpl.
  - auto.
  - intros Hin. apply IH in Hin as [Hin|Hin].
    + destruct (search_words pattern text); [|auto].
      apply elem_of_app in Hin as [Hin|Hin]; [auto|].
      apply list_elem_of_singleton in Hin as ->. right. left.
    + right. by right.
Qed.

Lemma detect_coins_symbols (text coin : list N) :
  coin ∈ _detect_coins text -> coin ∈ symbols.
Proof.
  unfold _detect_coins. rewrite elem_of_list_to_set. intros Hin.
  apply detected_from in Hin as [Hin|Hin]; [by apply elem_of_nil in Hin|done].
Qed.

(** The validator of the response leaves a set of clean upper-case names
    as it is. *)
Lemma validate_coins_fixed (coins : gset (list N)) :
  (forall coin, coin ∈ coins -> coin ≠ [] /\ str_upper coin = coin) ->
  validate_coins (elements coins) = coins.
Proof.
  intros Hclean. apply set_eq. intros x. unfold validate_coins.
  rewrite elem_of_list_to_set, list_elem_of_fmap. split.
  - intros [y [-> Hy]]. apply list_elem_of_filter in Hy as [_ Hy].
    apply elem_of_elements in Hy. by rewrite (proj2 (Hclean y Hy)).
  - intros Hx. exists x. split; [symmetry; by apply Hclean|].
    apply list_elem_of_filter. split; [by apply Hclean | by apply elem_of_elements].
Qed.

Lemma validate_detected (text : list N) :
  validate_coins (elements (_detect_coins text)) = _detect_coins text.
Proof.
  apply validate_coins_fixed. intros coin Hin.
  by apply symbol_is_upper, detect_coins_symbols with text.
Qed.

End CoinDetector.

(** *** The single-item pipeline *)

Section AnalysisPipeline.
Context {rt : PyRuntime}.
Variable world : World.

Lemma keyword_draft_range (title summary : list N) :
  0 <= (keyword_draft title summary).2 <= 85.
Proof. apply keyword_analysis_range. Qed.

Lemma keyword_verdict_value (title : list N) (impact : ImpactType) (raw : Z)
    (text lang : list N) :
  0 <= raw ->
  keyword_verdict title (impact, raw) (_detect_coins text) lang
  = inr {| impact := impact; confidence := Z.min raw 75;
           affected_coins := _detect_coins text;
           summary := _generate_summary title impact raw lang;
           lang := lang; low_confidence := Some (bool_decide (raw < 60));
           error := None |}.
Proof.
  intros Hraw. unfold keyword_verdict. rewrite init_six.
  cbn [int_validator str_validator mbind option_bind].
  case_guard; [|lia]. cbn [mbind option_bind].
  rewrite validate_detected. unfold ret. do 3 f_equal.
  destruct (Z.ltb_spec raw 60); [rewrite bool_decide_eq_true_2 | rewrite bool_decide_eq_false_2];
    (reflexivity || lia).
Qed.

Lemma bind_ret {A B} (a : A) (k : A -> result B) : (ret a ≫= k) = k a.
Proof. reflexivity. Qed.

Lemma bind_inl {A B} (e : exn) (k : A -> result B) : (inl e ≫= k) = inl e.
Proof. reflexivity. Qed.

Lemma bind_inr {A B} (a : A) (k : A -> result B) : (inr a ≫= k) = k a.
Proof. reflexivity. Qed.

Lemma py_add_text (f : pyval -> pyval -> float) (s t : list N) :
  py_add f (PStr s) (PStr t) = ret (PStr (s ++ t)).
Proof. reflexivity. Qed.

Lemma expect_str_text (s : list N) : expect_str (PStr s) = ret s.
Proof. reflexivity. Qed.

Lemma analyze_text (title summary item_id : list N) :
  _analyze_news_item world (PStr title) (PStr summary) item_id
  = (attempt ←
       (if _needs_llm_analysis (keyword_draft title summary)
             (str_lower (title ++ lit " " ++ summary))
        then try_except
               (_llm_analysis world (PStr title) (PStr summary)
                  (detected_lang title summary) item_id)
               (fun e => ret None)
        else ret None);
     match attempt with
     | Some llm_result =>
         ret (set_affected_coins llm_result
                (if decide (_detect_coins (title ++ summary) = ∅)
                 then affected_coins llm_result
                 else _detect_coins (title ++ summary)))
     | None =>
         keyword_verdict title (keyword_draft title summary)
           (_detect_coins (title ++ summary)) (detected_lang title summary)
     end).
Proof.
  unfold _analyze_news_item, keyword_draft, detected_lang.
  rewrite py_add_text, bind_ret, expect_str_text, bind_ret.
  reflexivity.
Qed.

Lemma analyze_falls_back (title summary item_id : list N) :
  falls_back world title summary item_id ->
  _analyze_news_item world (PStr title) (PStr summary) item_id
  = keyword_verdict title (keyword_draft title summary)
      (_detect_coins (title ++ summary)) (detected_lang title summary).
Proof.
  rewrite analyze_text. intros [Hno|Hnone].
  - rewrite Hno, bind_ret. reflexivity.
  - destruct (_needs_llm_analysis _ _); [|by rewrite bind_ret].
    destruct (_llm_analysis world (PStr title) (PStr summary) _ item_id)
      as [e|[r|]] eqn:E.
    + change (try_except (inl e) _) with (ret (@None NewsAnalysisResponse)).
      by rewrite bind_ret.
    + by destruct (Hnone r).
    + change (try_except (inr None) _) with (ret (@None NewsAnalysisResponse)).
      by rewrite bind_ret.
Qed.

(** C4.  On the keyword-fallback path the verdict has the confidence of
    the keyword draft capped at 75, low_confidence set exactly when that
    raw confidence is below 60, and the impact and the detected coins as
    the keyword and coin stages gave them. *)
Theorem keyword_fallback_verdict (title summary item_id : list N) :
  falls_back world title summary item_id ->
  exists r,
    _analyze_news_item world (PStr title) (PStr summary) item_id = inr r /\
    confidence r = Z.min (keyword_draft title summary).2 75 /\
    low_confidence r = Some (bool_decide ((keyword_draft title summary).2 < 60)) /\
    impact r = (keyword_draft title summary).1 /\
    affected_coins r = _detect_coins (title ++ summary).
Proof.
  intros Hfb. rewrite (analyze_falls_back _ _ _ Hfb).
  pose proof (keyword_draft_range title summary) as Hrange.
  destruct (keyword_draft title summary) as [impact raw].
  cbn [fst snd] in *.
  rewrite keyword_verdict_value by lia.
  eexists. split; [reflexivity|]. cbn [confidence low_confidence response_models.impact affected_coins]. auto.
Qed.

(** On text the pipeline always returns a verdict. *)
Lemma analyze_text_total (title summary item_id : list N) :
  exists r, _analyze_news_item world (PStr title) (PStr summary) item_id = inr r.
Proof.
  rewrite analyze_text.
  assert (Hkeyword : exists r,
    keyword_verdict title (keyword_draft title summary)
      (_detect_coins (title ++ summary)) (detected_lang title summary) = inr r).
  { pose proof (keyword_draft_range title summary) as Hrange.
    destruct (keyword_draft title summary) as [impact raw]. cbn [fst snd] in Hrange.
    rewrite keyword_verdict_value by lia. eauto. }
  destruct (_needs_llm_analysis _ _); [|by rewrite bind_ret].
  destruct (_llm_analysis world (PStr title) (PStr summary) _ item_id) as [e|[llm|]].
  - change (try_except (inl e) _) with (ret (@None NewsAnalysisResponse)).
    by rewrite bind_ret.
  - change (try_except (inr (Some llm)) _) with (ret (Some llm)).
    rewrite bind_ret. eauto.
  - change (try_except (inr None) _) with (ret (@None NewsAnalysisResponse)).
    by rewrite bind_ret.
Qed.

(** C10, as amended.  On the keyword-fallback path the label of the
    generated summary is computed from the raw keyword confidence: when
    that lies in 76..85 the verdict reports confidence 75 while its summary
    carries the label "High", as "(High confidence)" in the English
    template and as "(High" followed by the Arabic word for confidence in
    the Arabic one. *)
Theorem capped_confidence_high_label (title summary item_id : list N) :
  falls_back world title summary item_id ->
  76 <= (keyword_draft title summary).2 <= 85 ->
  exists r,
    _analyze_news_item world (PStr title) (PStr summary) item_id = inr r /\
    confidence r = 75 /\
    response_models.summary r =
      if decide (detected_lang title summary = lit "ar") then
        short_title title ++ lit " - " ++ arabic_impact ++ lit " " ++
        ImpactType_value (keyword_draft title summary).1 ++
        lit " (High " ++ arabic_confidence ++ lit ")"
      else
        short_title title ++ lit " - " ++
        ImpactType_value (keyword_draft title summary).1 ++
        lit " impact (High confidence)".
Proof.
  intros Hfb Hraw. rewrite (analyze_falls_back _ _ _ Hfb).
  destruct (keyword_draft title summary) as [impact raw].
  cbn [fst snd] in *.
  rewrite keyword_verdict_value by lia.
  eexists. split; [reflexivity|].
  cbn [confidence response_models.summary]. split; [lia|].
  unfold _generate_summary, short_title, confidence_text.
  destruct (Z.ltb_spec 75 raw); [|lia].
  case_decide; reflexivity.
Qed.

Lemma try_except_total {A} (body : result (option A)) :
  exists o, try_except body (fun _ => ret None) = inr o.
Proof. destruct body; simpl; eauto. Qed.

Lemma llm_analysis_total (title summary : pyval) (lang item_id : list N) :
  exists o, _llm_analysis world title summary lang item_id = inr o.
Proof.
  unfold _llm_analysis.
  destruct (OPENAI_API_KEY world) as [[|c key]|]; [by eexists | | by eexists].
  apply try_except_total.
Qed.

Lemma llm_analysis_unavailable (title summary : pyval) (lang item_id : list N) :
  unavailable world title summary lang item_id ->
  _llm_analysis world title summary lang item_id = inr None.
Proof.
  unfold unavailable, _llm_analysis.
  intros [Hkey|[Hkey|[[e Hpost]|[status [body [Hpost Hstatus]]]]]].
  - by rewrite Hkey.
  - by rewrite Hkey.
  - destruct (OPENAI_API_KEY world) as [[|c key]|]; [done | | done].
    by rewrite Hpost.
  - destruct (OPENAI_API_KEY world) as [[|c key]|]; [done | | done].
    rewrite Hpost. destruct (Z.eqb_spec status 200); [done|reflexivity].
Qed.

(** C5.  The LLM stage never raises: it always returns, and it returns
    "unavailable" when the credential is absent, when the call raises
    (transport failure, timeout) and when the status is not 200.  The
    pipeline then answers with the keyword verdict, not with an error: the
    impact of the keyword draft, its confidence capped at 75, the flag set
    exactly when the draft is below 60, the detected coins and language,
    the generated summary, and no error. *)
Theorem llm_stage_never_raises :
  (forall title summary lang item_id,
     exists o, _llm_analysis world title summary lang item_id = inr o) /\
  (forall title summary lang item_id,
     unavailable world title summary lang item_id ->
     _llm_analysis world title summary lang item_id = inr None) /\
  (forall title summary item_id,
     _llm_analysis world (PStr title) (PStr summary)
       (detected_lang title summary) item_id = inr None ->
     exists r,
       _analyze_news_item world (PStr title) (PStr summary) item_id = inr r /\
       impact r = (keyword_draft title summary).1 /\
       confidence r = Z.min (keyword_draft title summary).2 75 /\
       low_confidence r = Some (bool_decide ((keyword_draft title summary).2 < 60)) /\
       affected_coins r = _detect_coins (title ++ summary) /\
       response_models.summary r
       = _generate_summary title (keyword_draft title summary).1
           (keyword_draft title summary).2 (detected_lang title summary) /\
       response_models.lang r = detected_lang title summary /\
       error r = None) /\
  (forall title summary item_id,
     unavailable world (PStr title) (PStr summary) (detected_lang title summary)
       item_id ->
     exists r,
       _analyze_news_item world (PStr title) (PStr summary) item_id = inr r /\
       impact r = (keyword_draft title summary).1 /\
       confidence r = Z.min (keyword_draft title summary).2 75 /\
       low_confidence r = Some (bool_decide ((keyword_draft title summary).2 < 60)) /\
       affected_coins r = _detect_coins (title ++ summary) /\
       response_models.summary r
       = _generate_summary title (keyword_draft title summary).1
           (keyword_draft title summary).2 (detected_lang title summary) /\
       response_models.lang r = detected_lang title summary /\
       error r = None).
Proof.
  assert (Hfallback : forall title summary item_id,
     _llm_analysis world (PStr title) (PStr summary)
       (detected_lang title summary) item_id = inr None ->
     exists r,
       _analyze_news_item world (PStr title) (PStr summary) item_id = inr r /\
       impact r = (keyword_draft title summary).1 /\
       confidence r = Z.min (keyword_draft title summary).2 75 /\
       low_confidence r = Some (bool_decide ((keyword_draft title summary).2 < 60)) /\
       affected_coins r = _detect_coins (title ++ summary) /\
       response_models.summary r
       = _generate_summary title (keyword_draft title summary).1
           (keyword_draft title summary).2 (detected_lang title summary) /\
       response_models.lang r = detected_lang title summary /\
       error r = None).
  { intros title summary item_id Hnone.
    assert (Hfb : falls_back world title summary item_id).
    { right. intros r. rewrite Hnone. discriminate. }
    rewrite (analyze_falls_back _ _ _ Hfb).
    pose proof (keyword_draft_range title summary) as Hrange.
    destruct (keyword_draft title summary) as [impact raw]. cbn [fst snd] in *.
    rewrite keyword_verdict_value by lia.
    eexists. split; [reflexivity|].
    cbn [response_models.impact confidence low_confidence affected_coins
         response_models.summary response_models.lang error].
    by repeat split. }
  split; [|split; [|split]].
  - apply llm_analysis_total.
  - apply llm_analysis_unavailable.
  - exact Hfallback.
  - intros title summary item_id Hdown. apply Hfallback.
    by apply llm_analysis_unavailable.
Qed.

End AnalysisPipeline.

(** *** The pipeline on concrete inputs *)

(** An English item below the trust threshold, analysed without a
    credential: the keyword verdict, flagged as of low confidence. *)
Lemma keyword_fallback_verdict_witness :
  falls_back (rt := basic.runtime) basic.offline
    examples.rally_title examples.rally_summary (lit "item") /\
  exists r,
    _analyze_news_item (rt := basic.runtime) basic.offline
      (PStr examples.rally_title) (PStr examples.rally_summary) (lit "item") = inr r /\
    confidence r = 34 /\
    low_confidence r = Some true /\
    impact r = POSITIVE /\
    affected_coins r = {[ lit "BTC" ]}.
Proof.
  assert (H : falls_back (rt := basic.runtime) basic.offline
                examples.rally_title examples.rally_summary (lit "item")).
  { right. intros r. vm_compute. discriminate. }
  split; [exact H|].
  destruct (keyword_fallback_verdict (rt := basic.runtime) basic.offline
              examples.rally_title examples.rally_summary (lit "item") H)
    as (r & E & Hc & Hl & Hi & Ha).
  exists r. rewrite Hc, Hl, Hi, Ha.
  split; [exact E|]. repeat split; vm_compute; reflexivity.
Defined.

(** An item in Arabic script with a raw keyword confidence of 85 that is
    not escalated: the verdict reports 75 and the summary, built from the
    Arabic template, does not contain the English words. *)
Lemma high_label_not_english :
  falls_back (rt := basic.runtime) basic.offline
    examples.arabic_title examples.arabic_summary (lit "item") /\
  (keyword_draft (rt := basic.runtime) examples.arabic_title examples.arabic_summary).2 = 85 /\
  exists r,
    _analyze_news_item (rt := basic.runtime) basic.offline
      (PStr examples.arabic_title) (PStr examples.arabic_summary) (lit "item") = inr r /\
    confidence r = 75 /\
    response_models.summary r =
      examples.arabic_title ++ lit " - " ++ arabic_impact ++ lit " Positive (High " ++
      arabic_confidence ++ lit ")" /\
    contains (lit "High confidence") (response_models.summary r) = false.
Proof.
  split; [left; vm_compute; reflexivity|].
  split; [vm_compute; reflexivity|].
  eexists. split; [vm_compute; reflexivity|].
  repeat split; vm_compute; reflexivity.
Qed.

Lemma capped_confidence_high_label_witness :
  (falls_back (rt := basic.runtime) basic.offline
     examples.english_title examples.arabic_summary (lit "item") /\
   76 <= (keyword_draft (rt := basic.runtime)
            examples.english_title examples.arabic_summary).2 <= 85) /\
  exists r,
    _analyze_news_item (rt := basic.runtime) basic.offline
      (PStr examples.english_title) (PStr examples.arabic_summary) (lit "item") = inr r /\
    confidence r = 75 /\
    response_models.summary r =
      lit "Bitcoin surge rally soar pump moon - Positive impact (High confidence)".
Proof.
  assert (H : falls_back (rt := basic.runtime) basic.offline
                examples.english_title examples.arabic_summary (lit "item")).
  { left. vm_compute. reflexivity. }
  assert (R : 76 <= (keyword_draft (rt := basic.runtime)
                       examples.english_title examples.arabic_summary).2 <= 85).
  { vm_compute. split; discriminate. }
  split; [exact (conj H R)|].
  destruct (capped_confidence_high_label (rt := basic.runtime) basic.offline
              examples.english_title examples.arabic_summary (lit "item") H R)
    as (r & E & Hc & Hs).
  exists r. split; [exact E|]. split; [exact Hc|].
  rewrite Hs. vm_compute. reflexivity.
Defined.

(** *** Parsing the reply of the LLM *)

Section LLMReply.
Context {rt : PyRuntime}.

Lemma from_open_brace_Some (s rest : list N) :
  from_open_brace s = Some rest -> exists before, s = before ++ [123%N] ++ rest.
Proof.
  induction s as [|c s IH]; simpl; [discriminate|].
  destruct (N.eqb_spec c 123) as [->|_].
  - intros [= ->]. by exists [].
  - intros E. destruct (IH E) as [before ->]. by exists (c :: before).
Qed.

Lemma to_last_close_brace_Some (s m : list N) :
  to_last_close_brace s = Some m ->
  exists inside after, m = inside ++ [125%N] /\ s = m ++ after.
Proof.
  revert m. induction s as [|c s IH]; intros m; simpl; [discriminate|].
  destruct (to_last_close_brace s) as [m'|].
  - intros [= <-]. destruct (IH m' eq_refl) as (inside & after & -> & ->).
    by exists (c :: inside), after.
  - destruct (N.eqb_spec c 125) as [->|_]; [|discriminate].
    intros [= <-]. by exists [], s.
Qed.

(** A match of the pattern is an opening brace, anything, and a closing
    brace, somewhere in the text. *)
Lemma search_json_object_Some (text m : list N) :
  search_json_object text = Some m ->
  exists before inside after,
    m = [123%N] ++ inside ++ [125%N] /\ text = before ++ m ++ after.
Proof.
  unfold search_json_object.
  destruct (from_open_brace text) as [rest|] eqn:E1; [|discriminate].
  cbn [mbind option_bind].
  destruct (to_last_close_brace rest) as [m'|] eqn:E2; [|discriminate].
  cbn [mbind option_bind]. intros [= <-].
  apply from_open_brace_Some in E1 as [before ->].
  apply to_last_close_brace_Some in E2 as (inside & after & -> & ->).
  exists before, inside, after. split; [reflexivity|].
  simpl. by rewrite <- !app_assoc.
Qed.

(** The reply once the text of the object has been found and decoded. *)
Lemma parse_decoded (text lang m : list N) (d : list (list N * pyval)) :
  search_json_object text = Some m ->
  json_loads m = Some (PDict d) ->
  _parse_llm_response (PStr text) lang
  = match
      (impact ← match ImpactType_of (dict_get d (lit "impact") (PStr (lit "Neutral"))) with
                | Some i => ret i
                | None => raise "ValueError"
                            (fmt (dict_get d (lit "impact") (PStr (lit "Neutral"))) ++
                             lit " is not a valid ImpactType")
                end;
       lower ← max_0 (dict_get d (lit "confidence") (PInt 50));
       confidence ← min_100 lower;
       r ← NewsAnalysisResponse_init
             [ (lit "impact", PStr (ImpactType_value impact));
               (lit "confidence", confidence);
               (lit "affected_coins", PList []);
               (lit "summary", dict_get d (lit "summary") (PStr (lit "Analysis completed")));
               (lit "lang", PStr lang);
               (lit "low_confidence", PBool false) ];
       ret (Some r)) with
    | inl _ => None
    | inr r => r
    end.
Proof.
  intros Hm Hd. unfold _parse_llm_response.
  rewrite expect_str_text, bind_ret, Hm, Hd, bind_ret.
  unfold py_get. rewrite !bind_ret. reflexivity.
Qed.

(** What the constructor makes of the arguments the parser passes. *)
Lemma init_parsed (i : ImpactType) (cv sv : pyval) (lang : list N) (r : NewsAnalysisResponse) :
  NewsAnalysisResponse_init
    [ (lit "impact", PStr (ImpactType_value i)); (lit "confidence", cv);
      (lit "affected_coins", PList []); (lit "summary", sv);
      (lit "lang", PStr lang); (lit "low_confidence", PBool false) ] = inr r <->
  exists c s,
    int_validator cv = Some c /\ 0 <= c <= 100 /\ str_validator sv = Some s /\
    r = {| impact := i; confidence := c; affected_coins := ∅; summary := s;
           lang := lang; low_confidence := Some false; error := None |}.
Proof.
  change (PList []) with (PList (PStr <$> [])). rewrite init_six.
  change (validate_coins []) with (∅ : gset (list N)).
  destruct (int_validator cv) as [c|]; cbn [mbind option_bind].
  - case_guard; cbn [mbind option_bind].
    + destruct (str_validator sv) as [s|]; cbn [mbind option_bind].
      * split.
        -- intros [= <-]. by exists c, s.
        -- intros (c' & s' & [= <-] & _ & [= <-] & ->). reflexivity.
      * split; [discriminate|]. by intros (c' & s' & _ & _ & ? & _).
    + split; [discriminate|]. intros (c' & s' & [= <-] & ? & _). lia.
  - split; [discriminate|]. by intros (c' & s' & ? & _).
Qed.

Lemma max_0_int (z : Z) : max_0 (PInt z) = ret (PInt (Z.max z 0)).
Proof.
  unfold max_0. destruct (Z.ltb_spec z 0); do 2 f_equal; lia.
Qed.

Lemma min_100_int (z : Z) : min_100 (PInt z) = ret (PInt (Z.min z 100)).
Proof.
  unfold min_100. destruct (Z.ltb_spec 100 z); do 2 f_equal; lia.
Qed.

Lemma max_0_not_a_number (v : pyval) : not_a_number v -> exists e, max_0 v = inl e.
Proof. destruct v; simpl; intros []; eauto. Qed.

(** A verdict that was parsed, whatever the reply. *)
Lemma parsed_verdict (response : pyval) (lang : list N) (r : NewsAnalysisResponse) :
  _parse_llm_response response lang = Some r ->
  0 <= confidence r <= 100 /\ low_confidence r = Some false /\
  affected_coins r = ∅ /\ response_models.lang r = lang /\ error r = None.
Proof.
  unfold _parse_llm_response.
  destruct (expect_str response) as [e|text]; [discriminate|]. rewrite bind_ret.
  destruct (search_json_object text) as [m|]; [|discriminate].
  destruct (json_loads m) as [data|]; [|discriminate]. rewrite bind_ret.
  destruct (py_get data (lit "impact") _) as [e|iv]; [discriminate|]. rewrite bind_ret.
  destruct (ImpactType_of iv) as [i|]; [|discriminate]. rewrite bind_ret.
  destruct (py_get data (lit "confidence") _) as [e|cv]; [discriminate|]. rewrite bind_ret.
  destruct (max_0 cv) as [e|lower]; [discriminate|]. rewrite bind_ret.
  destruct (min_100 lower) as [e|c]; [discriminate|]. rewrite bind_ret.
  destruct (py_get data (lit "summary") _) as [e|sv]; [discriminate|]. rewrite bind_ret.
  destruct (NewsAnalysisResponse_init _) as [e|r'] eqn:E; [discriminate|].
  rewrite bind_ret. intros [= ->].
  apply init_parsed in E as (c' & s & _ & Hc & _ & ->). auto.
Qed.

(** C6, as amended.  The parser returns "unavailable" when the reply
    holds no JSON object, when the text found does not decode, when the
    impact is given and is not one of the three values, when the
    confidence is given and is not a number, and when the summary is given
    and the response model refuses it.  A field that is missing is
    not an error: impact, confidence and summary default, each on its
    own, to Neutral, 50 and "Analysis completed", whatever the other
    fields hold.  A verdict that is returned has its impact
    among Positive, Negative and Neutral, its confidence in [0,100] (an
    integer confidence is clamped), low_confidence false and no coins. *)
Theorem parse_llm_response_contract :
  (forall text lang,
     ~ has_json_object text -> _parse_llm_response (PStr text) lang = None) /\
  (forall text lang m,
     search_json_object text = Some m -> json_loads m = None ->
     _parse_llm_response (PStr text) lang = None) /\
  (forall text lang m d v,
     search_json_object text = Some m -> json_loads m = Some (PDict d) ->
     dict_lookup (lit "impact") d = Some v -> ImpactType_of v = None ->
     _parse_llm_response (PStr text) lang = None) /\
  (forall text lang m d v,
     search_json_object text = Some m -> json_loads m = Some (PDict d) ->
     dict_lookup (lit "confidence") d = Some v -> not_a_number v ->
     _parse_llm_response (PStr text) lang = None) /\
  (forall text lang m d v,
     search_json_object text = Some m -> json_loads m = Some (PDict d) ->
     dict_lookup (lit "summary") d = Some v -> str_validator v = None ->
     _parse_llm_response (PStr text) lang = None) /\
  (forall text lang m d,
     search_json_object text = Some m -> json_loads m = Some (PDict d) ->
     dict_lookup (lit "impact") d = None ->
     dict_lookup (lit "confidence") d = None ->
     dict_lookup (lit "summary") d = None ->
     _parse_llm_response (PStr text) lang = Some (default_verdict lang)) /\
  (forall text lang m d z r,
     search_json_object text = Some m -> json_loads m = Some (PDict d) ->
     dict_lookup (lit "confidence") d = Some (PInt z) ->
     _parse_llm_response (PStr text) lang = Some r ->
     confidence r = Z.min (Z.max z 0) 100) /\
  (forall response lang r,
     _parse_llm_response response lang = Some r ->
     impact r ∈ [POSITIVE; NEGATIVE; NEUTRAL] /\
     0 <= confidence r <= 100 /\
     low_confidence r = Some false /\
     affected_coins r = ∅) /\
  (forall text lang m d i z s,
     search_json_object text = Some m -> json_loads m = Some (PDict d) ->
     match dict_lookup (lit "impact") d with
     | Some v => ImpactType_of v
     | None => Some NEUTRAL
     end = Some i ->
     match dict_lookup (lit "confidence") d with
     | Some v => v
     | None => PInt 50
     end = PInt z ->
     match dict_lookup (lit "summary") d with
     | Some v => str_validator v
     | None => Some (lit "Analysis completed")
     end = Some s ->
     _parse_llm_response (PStr text) lang
     = Some {| impact := i; confidence := Z.min (Z.max z 0) 100;
               affected_coins := ∅; summary := s; lang := lang;
               low_confidence := Some false; error := None |}).
Proof.
  repeat apply conj.
  - intros text lang Hnone. unfold _parse_llm_response.
    rewrite expect_str_text, bind_ret.
    destruct (search_json_object text) as [m|] eqn:E; [|reflexivity].
    destruct Hnone. apply search_json_object_Some in E
      as (before & inside & after & -> & ->).
    exists before, inside, after. by rewrite <- !app_assoc.
  - intros text lang m Hm Hd. unfold _parse_llm_response.
    rewrite expect_str_text, bind_ret, Hm, Hd. reflexivity.
  - intros text lang m d v Hm Hd Hv Hi. rewrite (parse_decoded _ _ _ _ Hm Hd).
    unfold dict_get. rewrite Hv, Hi. reflexivity.
  - intros text lang m d v Hm Hd Hv Hnum. rewrite (parse_decoded _ _ _ _ Hm Hd).
    destruct (ImpactType_of _) as [i|]; [|reflexivity]. rewrite bind_ret.
    unfold dict_get. rewrite Hv.
    destruct (max_0_not_a_number v Hnum) as [e ->]. reflexivity.
  - intros text lang m d v Hm Hd Hv Hs. rewrite (parse_decoded _ _ _ _ Hm Hd).
    destruct (ImpactType_of _) as [i|]; [|reflexivity]. rewrite bind_ret.
    destruct (max_0 _) as [e|lower]; [reflexivity|]. rewrite bind_inr.
    destruct (min_100 lower) as [e|c]; [reflexivity|]. rewrite bind_inr.
    destruct (NewsAnalysisResponse_init _) as [e|r] eqn:E; [reflexivity|].
    apply init_parsed in E as (c' & s & _ & _ & Hs' & _).
    unfold dict_get in Hs'. rewrite Hv in Hs'. congruence.
  - intros text lang m d Hm Hd Hi Hc Hs. rewrite (parse_decoded _ _ _ _ Hm Hd).
    unfold dict_get. rewrite Hi, Hc, Hs.
    change (ImpactType_of (PStr (lit "Neutral"))) with (Some NEUTRAL).
    cbv iota. rewrite bind_ret, max_0_int, bind_ret, min_100_int, bind_ret.
    assert (E : NewsAnalysisResponse_init
                  [ (lit "impact", PStr (ImpactType_value NEUTRAL));
                    (lit "confidence", PInt (Z.min (Z.max 50 0) 100));
                    (lit "affected_coins", PList []);
                    (lit "summary", PStr (lit "Analysis completed"));
                    (lit "lang", PStr lang);
                    (lit "low_confidence", PBool false) ]
                = inr (default_verdict lang)).
    { apply init_parsed. exists 50, (lit "Analysis completed"). by repeat split. }
    rewrite E. reflexivity.
  - intros text lang m d z r Hm Hd Hz. rewrite (parse_decoded _ _ _ _ Hm Hd).
    destruct (ImpactType_of _) as [i|]; [|discriminate]. rewrite bind_ret.
    unfold dict_get. rewrite Hz.
    rewrite max_0_int, bind_ret, min_100_int, bind_ret.
    destruct (NewsAnalysisResponse_init _) as [e|r'] eqn:E; [discriminate|].
    rewrite bind_ret. intros [= ->].
    apply init_parsed in E as (c & s & [= <-] & _ & _ & ->). reflexivity.
  - intros response lang r Hr.
    apply parsed_verdict in Hr as (Hc & Hl & Ha & _ & _).
    split; [|auto]. destruct (impact r); repeat constructor.
  - intros text lang m d i z s Hm Hd Hi Hc Hs. rewrite (parse_decoded _ _ _ _ Hm Hd).
    unfold dict_get. rewrite Hc.
    assert (ImpactType_of match dict_lookup (lit "impact") d with
                          | Some v => v
                          | None => PStr (lit "Neutral")
                          end = Some i) as ->.
    { by destruct (dict_lookup (lit "impact") d). }
    rewrite bind_ret, max_0_int, bind_ret, min_100_int, bind_ret.
    assert (E : NewsAnalysisResponse_init
                  [ (lit "impact", PStr (ImpactType_value i));
                    (lit "confidence", PInt (Z.min (Z.max z 0) 100));
                    (lit "affected_coins", PList []);
                    (lit "summary",
                     match dict_lookup (lit "summary") d with
                     | Some v => v
                     | None => PStr (lit "Analysis completed")
                     end);
                    (lit "lang", PStr lang);
                    (lit "low_confidence", PBool false) ]
                = inr {| impact := i; confidence := Z.min (Z.max z 0) 100;
                         affected_coins := ∅; summary := s; lang := lang;
                         low_confidence := Some false; error := None |}).
    { apply init_parsed. exists (Z.min (Z.max z 0) 100), s.
      split; [reflexivity|]. split; [lia|]. split; [|reflexivity].
      by destruct (dict_lookup (lit "summary") d). }
    rewrite E. reflexivity.
Qed.

End LLMReply.

(** A reply whose object names no field at all is parsed into the default
    verdict. *)
Lemma missing_fields_are_defaulted :
  json_loads (PyRuntime := basic.runtime) (lit "{}") = Some (PDict []) /\
  _parse_llm_response (rt := basic.runtime) (PStr (lit "My answer: {}")) (lit "en")
  = Some {| impact := NEUTRAL; confidence := 50; affected_coins := ∅;
            summary := lit "Analysis completed"; lang := lit "en";
            low_confidence := Some false; error := None |}.
Proof. split; vm_compute; reflexivity. Qed.

(** A reply that names an impact and a summary and no confidence is
    parsed with the confidence 50. *)
Lemma missing_confidence_is_defaulted :
  _parse_llm_response (rt := basic.runtime)
    (PStr (lit "{" ++ quoted "impact" ++ lit ": " ++ quoted "Positive" ++ lit ", " ++
           quoted "summary" ++ lit ": " ++ quoted "ETF approved" ++ lit "}"))
    (lit "en")
  = Some {| impact := POSITIVE; confidence := 50; affected_coins := ∅;
            summary := lit "ETF approved"; lang := lit "en";
            low_confidence := Some false; error := None |}.
Proof. vm_compute. reflexivity. Qed.

(** *** Batches *)

Section BatchCoordinator.
Context {rt : PyRuntime}.
Variable world : World.

Lemma for_each_dicts (request_id : list N) (items : list (list (list N * pyval))) (k : Z) :
  for_each
    (fun '(i, item) =>
       title ← py_get item (lit "title") (PStr []);
       summary ← py_get item (lit "summary") (PStr []);
       ret (title, summary, request_id ++ lit "_item_" ++ str_of_Z i))
    (enumerate_from k (PDict <$> items))
  = inr (map (fun '(i, d) =>
                (dict_get d (lit "title") (PStr []),
                 dict_get d (lit "summary") (PStr []),
                 request_id ++ lit "_item_" ++ str_of_Z i))
           (enumerate_from k items)).
Proof.
  revert k. induction items as [|d items IH]; intros k; [reflexivity|].
  cbn [fmap list_fmap enumerate_from for_each map py_get].
  rewrite !bind_ret. fold (fmap (M := list) PDict items). rewrite IH.
  reflexivity.
Qed.

(** On a list of dicts the batch never raises: it holds, item by item and
    in order, the verdict or the placeholder. *)
Lemma analyze_batch_of_dicts (items : list (list (list N * pyval))) (request_id : list N) :
  analyze_batch world (PDict <$> items) request_id
  = inr (map (fun '(i, d) => item_verdict world request_id i d) (enumerate_from 0 items)).
Proof.
  unfold analyze_batch. rewrite for_each_dicts, bind_ret.
  unfold ret. f_equal. rewrite !map_map.
  apply map_ext. intros [i d]. reflexivity.
Qed.

Lemma enumerate_from_length {A} (k : Z) (xs : list A) :
  length (enumerate_from k xs) = length xs.
Proof. revert k. induction xs; intros k; simpl; auto. Qed.

Lemma enumerate_from_lookup {A} (k : Z) (xs : list A) (i : nat) (x : A) :
  xs !! i = Some x -> enumerate_from k xs !! i = Some (k + Z.of_nat i, x).
Proof.
  revert k i. induction xs as [|y xs IH]; intros k [|i]; simpl; try discriminate.
  - intros [= ->]. do 2 f_equal. lia.
  - intros Hx. rewrite (IH (k + 1) i Hx). do 2 f_equal. lia.
Qed.

Lemma analyze_batch_isolates_failures (items : list (list (list N * pyval)))
    (request_id : list N) :
  exists results,
    analyze_batch world (PDict <$> items) request_id = inr results /\
    length results = length items /\
    forall (i : nat) d, items !! i = Some d ->
      results !! i = Some (item_verdict world request_id (Z.of_nat i) d).
Proof.
  eexists. split; [apply analyze_batch_of_dicts|]. split.
  - by rewrite length_map, enumerate_from_length.
  - intros i d Hd.
    change (map ?f ?l) with (f <$> l).
    rewrite list_lookup_fmap, (enumerate_from_lookup 0 _ _ _ Hd). reflexivity.
Qed.

(** An item that is not a dict stops the batch while the tasks are being
    created, whatever comes before it and behind it. *)
Lemma analyze_batch_aborts (before : list (list (list N * pyval))) (item : pyval)
    (after : list pyval) (request_id : list N) :
  (forall d, item ≠ PDict d) ->
  analyze_batch world ((PDict <$> before) ++ item :: after) request_id
  = raise "AttributeError"
      (lit "'" ++ type_name item ++ lit "' object has no attribute 'get'").
Proof.
  intros Hitem. unfold analyze_batch.
  assert (E : forall k,
    for_each
      (fun '(i, item) =>
         title ← py_get item (lit "title") (PStr []);
         summary ← py_get item (lit "summary") (PStr []);
         ret (title, summary, request_id ++ lit "_item_" ++ str_of_Z i))
      (enumerate_from k ((PDict <$> before) ++ item :: after))
    = raise "AttributeError"
        (lit "'" ++ type_name item ++ lit "' object has no attribute 'get'")).
  { induction before as [|d before IH]; intros k.
    - cbn [fmap list_fmap app enumerate_from for_each].
      destruct item; try reflexivity. by destruct (Hitem d).
    - cbn [fmap list_fmap app enumerate_from for_each py_get].
      rewrite !bind_ret. fold (fmap (M := list) PDict before). rewrite IH.
      reflexivity. }
  rewrite E. reflexivity.
Qed.

(** The REST endpoint hands the validated models to the batch: every body
    it accepts ends in an internal error. *)
Lemma analyze_endpoint_accepted (body : pyval) (news : list NewsItem) (request_id : list N) :
  BatchNewsRequest_parse body = Some news ->
  analyze_endpoint world body request_id
  = HTTPException 500
      (lit "Analysis failed: 'NewsItem' object has no attribute 'get'").
Proof.
  intros Hbody. unfold analyze_endpoint. rewrite Hbody.
  assert (Hne : news ≠ []).
  { intros ->. unfold BatchNewsRequest_parse in Hbody.
    destruct body as [| | | | | |d|]; try discriminate.
    destruct (dict_lookup (lit "news") d) as [[| | | | |l| |]|]; try discriminate.
    cbn [mbind option_bind] in Hbody.
    case_guard as Hlen; [|discriminate]. cbn [mbind option_bind] in Hbody.
    apply mapM_Some, Forall2_length in Hbody.
    rewrite Hbody in Hlen. simpl in Hlen. lia. }
  destruct news as [|item news]; [done|].
  change (NewsItem_object <$> item :: news)
    with ((PDict <$> []) ++ NewsItem_object item :: (NewsItem_object <$> news)).
  rewrite analyze_batch_aborts by discriminate. reflexivity.
Qed.

End BatchCoordinator.

(** *** The two batch entry points *)

Section EntryPoints.
Context {rt : PyRuntime}.
Variable world : World.

(** The REST endpoint refuses a batch outside 1..50 before the handler
    runs. *)
Lemma analyze_endpoint_bounds (d : list (list N * pyval)) (l : list pyval)
    (request_id : list N) :
  dict_lookup (lit "news") d = Some (PList l) ->
  ~ (1 <= length l <= 50)%nat ->
  analyze_endpoint world (PDict d) request_id
  = HTTPException 422 (lit "Unprocessable Entity").
Proof.
  intros Hnews Hlen. unfold analyze_endpoint, BatchNewsRequest_parse.
  rewrite Hnews. cbn [mbind option_bind]. case_guard; [done|reflexivity].
Qed.

(** The JSON-RPC endpoint refuses an empty batch and takes any other list
    of dicts, however long. *)
Lemma mcp_endpoint_batch (cache : CacheManager) (now later : Z) (request : MCPRequest)
    (request_id : list N) (d : list (list N * pyval))
    (items : list (list (list N * pyval))) :
  method request = lit "tools/call" ->
  dict_lookup (lit "name") (params request) = Some (PStr (lit "news_analysis")) ->
  dict_lookup (lit "arguments") (params request) = Some (PDict d) ->
  dict_lookup (lit "news") d = Some (PList (PDict <$> items)) ->
  mcp_endpoint world cache now later request request_id
  = (match items with
     | [] => HTTPException 400 (lit "Invalid batch news format")
     | _ =>
         MCPResponse (id request)
           (Some (PList (map (fun '(i, d) => item_verdict world request_id i d)
                           (enumerate_from 0 items))))
           None
     end, cache).
Proof.
  intros Hmethod Hname Hargs Hnews.
  unfold mcp_endpoint, mcp_body.
  rewrite decide_True by exact Hmethod.
  unfold dict_get. rewrite Hname, Hargs.
  change (is_text (PStr (lit "news_analysis")) "news_analysis") with true.
  cbv iota. unfold has_news. rewrite Hnews.
  rewrite bool_decide_eq_true_2 by eauto.
  unfold ret at 1. cbv iota.
  unfold subscript_key. rewrite Hnews. unfold ret at 1. cbv iota.
  destruct items as [|item items]; [reflexivity|].
  change (negb (truthy (PList (PDict <$> item :: items))) ||
          negb (is_list (PList (PDict <$> item :: items)))) with false.
  cbv iota. change (items_of (PList ?l)) with l.
  rewrite analyze_batch_of_dicts, bind_ret. reflexivity.
Qed.

End EntryPoints.

(** C1 fails on the REST path.  The batch is to return a list as long as
    its input, with a placeholder wherever an item fails.  On a request
    with one well-formed item the endpoint hands the validated model to
    [analyze_batch], which raises while it reads the title, before any task
    exists: no list is returned and the caller gets an internal error. *)
Theorem rest_batch_raises :
  BatchNewsRequest_parse (rt := basic.runtime) examples.rest_body
  = Some [ examples.rally_item ] /\
  analyze_batch (rt := basic.runtime) basic.offline
    [ NewsItem_object examples.rally_item ] (lit "rest_1")
  = inl (Exception "AttributeError" (lit "'NewsItem' object has no attribute 'get'")) /\
  analyze_endpoint (rt := basic.runtime) basic.offline examples.rest_body (lit "rest_1")
  = HTTPException 500 (lit "Analysis failed: 'NewsItem' object has no attribute 'get'").
Proof. repeat split; vm_compute; reflexivity. Qed.

(** A JSON-RPC batch of a well-formed item and an item whose title is
    null: the second analysis raises and its place holds the placeholder. *)
Lemma batch_with_failing_item :
  exists verdict,
    analyze_batch (rt := basic.runtime) basic.offline
      [ examples.rally_dict; examples.untitled_dict ] (lit "mcp_1")
    = inr [ verdict;
            PDict [ (lit "impact", PStr (lit "Neutral"));
                    (lit "confidence", PInt 0);
                    (lit "affected_coins", PList []);
                    (lit "summary", PStr (lit "Analysis failed"));
                    (lit "lang", PStr (lit "en"));
                    (lit "error",
                     PStr (lit "unsupported operand type(s) for +: 'NoneType' and 'str'")) ] ] /\
    dict_lookup (lit "confidence") match verdict with PDict d => d | _ => [] end
    = Some (PInt 34).
Proof. eexists. split; vm_compute; reflexivity. Qed.

(** C7 fails on the JSON-RPC path.  A batch outside 1..50 is to be refused
    on every entry path; a JSON-RPC batch of 51 items is analysed in full,
    while the REST endpoint refuses the same list. *)
Theorem oversized_batch_is_processed :
  (exists results,
     mcp_endpoint (rt := basic.runtime) basic.offline examples.no_cache 0 0
       examples.oversized_request (lit "mcp_1")
     = (MCPResponse (PInt 1) (Some (PList results)) None, examples.no_cache) /\
     length results = 51%nat) /\
  analyze_endpoint (rt := basic.runtime) basic.offline examples.oversized_body (lit "rest_1")
  = HTTPException 422 (lit "Unprocessable Entity").
Proof.
  split; [|vm_compute; reflexivity].
  eexists. split; [vm_compute; reflexivity|]. reflexivity.
Qed.

(** *** The cache and the rate limiter *)

Section Cache.
Context {rt : PyRuntime}.
Variable world : World.

Lemma redis_command_fault (r : Redis) (rest : list bool) :
  faults r = true :: rest ->
  redis_command r = (true, {| data := data r; faults := rest |}).
Proof. unfold redis_command. by intros ->. Qed.

Lemma get_down (cache : CacheManager) (now : Z) (key : list N) :
  store_down cache -> (get cache now key).1 = None.
Proof.
  unfold get. intros [->|(r & rest & -> & Hf)]; [reflexivity|].
  unfold redis_get. rewrite (redis_command_fault _ _ Hf). reflexivity.
Qed.

Lemma set_down (cache : CacheManager) (now : Z) (key : list N) (v : pyval) (ttl : Z) :
  store_down cache ->
  (set cache now key v ttl).1 = false /\ same_data cache (set cache now key v ttl).2.
Proof.
  unfold set, same_data. intros [Hr|(r & rest & Hr & Hf)]; rewrite Hr.
  - cbn [fst snd]. by rewrite Hr.
  - unfold redis_setex. rewrite (redis_command_fault _ _ Hf). by split.
Qed.

Lemma check_rate_limit_down (cache : CacheManager) (now : Z) (identifier : list N)
    (limit window : Z) :
  store_down cache -> (check_rate_limit cache now identifier limit window).1 = true.
Proof.
  unfold check_rate_limit. intros [->|(r & rest & -> & Hf)]; [reflexivity|].
  unfold redis_get. rewrite (redis_command_fault _ _ Hf). reflexivity.
Qed.

(** A request is refused only after the counter was read, without any
    command raising, and found at the limit. *)
Lemma check_rate_limit_refuses (cache : CacheManager) (now : Z) (identifier : list N)
    (limit window : Z) :
  (check_rate_limit cache now identifier limit window).1 = false ->
  exists r current count,
    redis cache = Some r /\
    head (faults r) ≠ Some true /\
    lookup_live r now (lit "rate_limit:" ++ identifier) = Some current /\
    int_stored current = inr count /\
    limit <= count.
Proof.
  unfold check_rate_limit.
  destruct (redis cache) as [r|] eqn:Hr; [|discriminate].
  unfold redis_get, redis_command, lookup_live.
  assert (Hend : forall (r' : Redis) (o : option redis_value),
    (match (ret o, r') with
     | (inl _, r0) => (true, with_redis cache r0)
     | (inr (Some current), r0) =>
         match int_stored current with
         | inl _ => (true, with_redis cache r0)
         | inr current_count =>
             if limit <=? current_count
             then (false, with_redis cache r0)
             else
               let '(_, r2) := redis_incr r0 now (lit "rate_limit:" ++ identifier) in
               (true, with_redis cache r2)
         end
     | (inr None, r0) =>
         let '(_, r2) :=
           redis_setex r0 now (lit "rate_limit:" ++ identifier) window (RJson (PInt 1)) in
         (true, with_redis cache r2)
     end).1 = false ->
    exists current count,
      o = Some current /\ int_stored current = inr count /\ limit <= count).
  { intros r' [current|]; unfold ret; cbv iota.
    - destruct (int_stored current) as [err|count] eqn:Hc; [discriminate|].
      destruct (Z.leb_spec limit count); [by eauto|].
      destruct (redis_incr r' now (lit "rate_limit:" ++ identifier)); simpl; discriminate.
    - destruct (redis_setex r' now (lit "rate_limit:" ++ identifier) window
                  (RJson (PInt 1))); simpl; discriminate. }
  destruct (faults r) as [|[] rest] eqn:Hf; cbv iota.
  - destruct (data r !! _) as [e|] eqn:He; cbn [mbind option_bind].
    + intros H. apply Hend in H as (current & count & ? & ? & ?).
      exists r, current, count. rewrite Hf, He. by repeat split.
    + intros H. apply Hend in H as (current & count & ? & ? & ?). done.
  - discriminate.
  - cbn [data]. destruct (data r !! _) as [e|] eqn:He; cbn [mbind option_bind].
    + intros H. apply Hend in H as (current & count & ? & ? & ?).
      exists r, current, count. rewrite Hf, He. by repeat split.
    + intros H. apply Hend in H as (current & count & ? & ? & ?). done.
Qed.

Lemma cache_key_text (title summary : list N) :
  cache_key (PStr title) (PStr summary)
  = inr (lit "news:" ++ str_of_Z (hash_str (title ++ summary))).
Proof. reflexivity. Qed.

Lemma analyze_single_down (cache : CacheManager) (now later : Z)
    (title summary request_id : list N) :
  store_down cache ->
  (analyze_single world cache now later (PStr title) (PStr summary) request_id).1
  = _analyze_news_item world (PStr title) (PStr summary) request_id.
Proof.
  intros Hdown. unfold analyze_single. rewrite cache_key_text.
  pose proof (get_down cache now (lit "news:" ++ str_of_Z (hash_str (title ++ summary))) Hdown)
    as Hget.
  destruct (get cache now _) as [cached cache']. cbn [fst] in Hget. subst cached.
  destruct (_analyze_news_item world (PStr title) (PStr summary) request_id) as [e|r];
    [reflexivity|].
  by destruct (set cache' later _ _ _).
Qed.

(** A working store: the lookup and the write of the cache manager. *)
Lemma get_working (cache : CacheManager) (r : Redis) (now : Z) (key : list N) :
  redis cache = Some r -> faults r = [] ->
  get cache now key
  = (if stored_truthy (lookup_live r now key)
     then lookup_live r now key ≫= loads_stored else None,
     counted cache (stored_truthy (lookup_live r now key))).
Proof.
  intros Hr Hf. unfold get, redis_get, redis_command, lookup_live, counted, with_redis.
  rewrite Hr, Hf.
  destruct (data r !! key) as [e|]; cbn [mbind option_bind ret redis stats].
  - destruct (stored_truthy (if live now e then Some (value e) else None));
      do 3 f_equal; lia.
  - cbn [stored_truthy]. do 3 f_equal; lia.
Qed.

Lemma set_working (cache : CacheManager) (r : Redis) (now : Z) (key : list N)
    (v : pyval) (ttl : Z) :
  redis cache = Some r -> faults r = [] ->
  set cache now key v ttl
  = (true,
     {| redis := Some {| data := <[key := {| value := RJson (dumped v);
                                            expires_at := Some (now + ttl) |}]> (data r);
                         faults := [] |};
        stats := stats cache |}).
Proof.
  intros Hr Hf. unfold set, redis_setex, redis_command, with_redis.
  rewrite Hr, Hf. cbv iota. cbn [data faults]. rewrite Hf. reflexivity.
Qed.

(** The [dict] of a response is stored as it is. *)
Lemma dumped_texts (names : list (list N)) :
  map dumped (PStr <$> names) = PStr <$> names.
Proof. induction names as [|name names IH]; [reflexivity|]. cbn. by rewrite IH. Qed.

Lemma dumped_dict (r : NewsAnalysisResponse) :
  dumped (NewsAnalysisResponse_dict r) = NewsAnalysisResponse_dict r.
Proof.
  unfold NewsAnalysisResponse_dict. cbn [dumped map fst snd].
  rewrite dumped_texts.
  by destruct (low_confidence r) as [flag|], (error r) as [message|].
Qed.

(** Reading back what [dict] wrote gives the response again. *)
Lemma from_cached_dict (r : NewsAnalysisResponse) :
  valid_response r -> from_cached (NewsAnalysisResponse_dict r) = inr r.
Proof.
  intros [Hc Hcoins]. destruct r as [i c coins s l lc e].
  cbn [confidence affected_coins] in *.
  unfold from_cached, NewsAnalysisResponse_dict, NewsAnalysisResponse_init,
    required, with_default.
  cbn [response_models.impact confidence affected_coins summary lang
       low_confidence error].
  lookup_keys.
  cbn [mbind option_bind]. rewrite impact_of_value.
  cbn [mbind option_bind int_validator].
  case_guard; [|lia]. cbn [mbind option_bind].
  rewrite list_str_validator_texts.
  cbn [fmap option_fmap option_map mbind option_bind str_validator].
  rewrite (validate_coins_fixed coins Hcoins).
  destruct lc as [b|], e as [msg|]; reflexivity.
Qed.


Lemma py_add_text_inv (f : pyval -> pyval -> float) (a b : pyval) (x : list N) :
  py_add f a b = inr (PStr x) ->
  exists s t, a = PStr s /\ b = PStr t.
Proof. destruct a, b; simpl; try discriminate; eauto. Qed.

Lemma expect_str_inv (v : pyval) (text : list N) :
  expect_str v = inr text -> v = PStr text.
Proof. destruct v; simpl; try discriminate. by intros [= ->]. Qed.

Lemma analysis_inputs (title summary : pyval) (item_id : list N) (r : NewsAnalysisResponse) :
  _analyze_news_item world title summary item_id = inr r ->
  exists t s, title = PStr t /\ summary = PStr s.
Proof.
  unfold _analyze_news_item.
  destruct (py_add float_add title summary) as [e|joined] eqn:Ha;
    [rewrite bind_inl; discriminate|].
  rewrite bind_inr.
  destruct (expect_str joined) as [e|text] eqn:He; [rewrite bind_inl; discriminate|].
  intros _. apply expect_str_inv in He as ->. by apply py_add_text_inv in Ha.
Qed.

Lemma llm_analysis_Some (title summary : pyval) (lang item_id : list N)
    (r : NewsAnalysisResponse) :
  _llm_analysis world title summary lang item_id = inr (Some r) ->
  exists response, _parse_llm_response response lang = Some r.
Proof.
  unfold _llm_analysis.
  destruct (OPENAI_API_KEY world) as [[|c key]|]; [discriminate| |discriminate].
  destruct (post_completion world item_id _) as [e|status body]; [discriminate|].
  destruct (negb (status =? 200)); [discriminate|].
  destruct body as [e|data]; [discriminate|]. rewrite bind_inr.
  destruct (subscript_key data _) as [e|choices]; [discriminate|]. rewrite bind_inr.
  destruct (subscript_0 choices) as [e|choice]; [discriminate|]. rewrite bind_inr.
  destruct (subscript_key choice _) as [e|message]; [discriminate|]. rewrite bind_inr.
  destruct (subscript_key message _) as [e|result_text]; [discriminate|]. rewrite bind_inr.
  cbn [try_except ret]. intros [= E]. eauto.
Qed.

(** Every verdict of the pipeline is one the constructor leaves as it
    is. *)
Lemma analysis_valid (title summary : pyval) (item_id : list N) (r : NewsAnalysisResponse) :
  _analyze_news_item world title summary item_id = inr r -> valid_response r.
Proof.
  intros H. destruct (analysis_inputs _ _ _ _ H) as (t & s & -> & ->).
  rewrite analyze_text in H.
  assert (Hdetected : forall coin, coin ∈ _detect_coins (t ++ s) ->
            coin ≠ [] /\ str_upper coin = coin).
  { intros coin Hin. by apply symbol_is_upper, detect_coins_symbols with (t ++ s). }
  assert (Hkeyword :
    keyword_verdict t (keyword_draft t s) (_detect_coins (t ++ s)) (detected_lang t s)
    = inr r -> valid_response r).
  { pose proof (keyword_draft_range t s) as Hrange.
    destruct (keyword_draft t s) as [impact raw]. cbn [fst snd] in Hrange.
    rewrite keyword_verdict_value by lia. intros [= <-].
    split; cbn [confidence affected_coins]; [lia|exact Hdetected]. }
  destruct (_needs_llm_analysis _ _); [|by rewrite bind_ret in H; apply Hkeyword].
  destruct (_llm_analysis world (PStr t) (PStr s) (detected_lang t s) item_id)
    as [e|[llm|]] eqn:E.
  - change (try_except (inl e) _) with (ret (@None NewsAnalysisResponse)) in H.
    rewrite bind_ret in H. by apply Hkeyword.
  - change (try_except (inr (Some llm)) _) with (ret (Some llm)) in H.
    rewrite bind_ret in H. injection H as <-.
    apply llm_analysis_Some in E as [response E].
    apply parsed_verdict in E as (Hc & _ & Hcoins & _).
    split; cbn [set_affected_coins confidence affected_coins]; [exact Hc|].
    case_decide; [|exact Hdetected].
    rewrite Hcoins. intros coin Hin. by apply elem_of_empty in Hin.
  - change (try_except (inr None) _) with (ret (@None NewsAnalysisResponse)) in H.
    rewrite bind_ret in H. by apply Hkeyword.
Qed.

(** A store whose next command answers and uses up its fate. *)
Lemma get_answering (cache : CacheManager) (r : Redis) (rest : list bool) (now : Z)
    (key : list N) :
  redis cache = Some r -> faults r = false :: rest ->
  get cache now key
  = (if stored_truthy (lookup_live r now key)
     then lookup_live r now key ≫= loads_stored else None,
     counted (with_redis cache {| data := data r; faults := rest |})
       (stored_truthy (lookup_live r now key))).
Proof.
  intros Hr Hf. unfold get, redis_get, redis_command, lookup_live, counted, with_redis.
  rewrite Hr, Hf. cbv iota. cbn [data].
  destruct (data r !! key) as [e|]; cbn [mbind option_bind ret redis stats].
  - destruct (stored_truthy (if live now e then Some (value e) else None));
      do 3 f_equal; lia.
  - cbn [stored_truthy]. do 3 f_equal; lia.
Qed.

Lemma set_answering (cache : CacheManager) (r : Redis) (rest : list bool) (now : Z)
    (key : list N) (v : pyval) (ttl : Z) :
  redis cache = Some r -> faults r = false :: rest ->
  set cache now key v ttl
  = (true,
     {| redis := Some {| data := <[key := {| value := RJson (dumped v);
                                            expires_at := Some (now + ttl) |}]> (data r);
                         faults := rest |};
        stats := stats cache |}).
Proof.
  intros Hr Hf. unfold set, redis_setex, redis_command, with_redis.
  rewrite Hr, Hf. reflexivity.
Qed.

(** The fates used up when no command, and when one command, was sent. *)
Lemma nothing_sent (sent rest : list bool) : rest = sent ++ rest -> sent = [].
Proof. intros H. symmetry. exact (app_inv_tail rest [] sent H). Qed.

Lemma one_sent (fate : bool) (sent rest : list bool) :
  fate :: rest = sent ++ rest -> sent = [fate].
Proof. intros H. symmetry. exact (app_inv_tail rest [fate] sent H). Qed.

(** A lookup during which the command raised is a miss. *)
Lemma get_raised (cache : CacheManager) (now : Z) (key : list N) :
  raised_between cache (get cache now key).2 -> (get cache now key).1 = None.
Proof.
  intros (r & r' & sent & Hr & Hr' & Hf & Hin).
  destruct (faults r) as [|[] rest] eqn:E.
  - rewrite (get_working cache r now key Hr E) in Hr'. cbn [snd counted redis] in Hr'.
    rewrite Hr in Hr'. injection Hr' as <-. rewrite E in Hf.
    apply nothing_sent in Hf as ->. by apply elem_of_nil in Hin.
  - apply get_down. right. eauto.
  - rewrite (get_answering cache r rest now key Hr E) in Hr'.
    cbn [snd counted redis with_redis] in Hr'. injection Hr' as <-. cbn [faults] in Hf.
    apply one_sent in Hf as ->. apply list_elem_of_singleton in Hin. discriminate.
Qed.

(** A write during which the command raised stores nothing. *)
Lemma set_raised (cache : CacheManager) (now : Z) (key : list N) (v : pyval) (ttl : Z) :
  raised_between cache (set cache now key v ttl).2 ->
  (set cache now key v ttl).1 = false /\ same_data cache (set cache now key v ttl).2.
Proof.
  intros (r & r' & sent & Hr & Hr' & Hf & Hin).
  destruct (faults r) as [|[] rest] eqn:E.
  - rewrite (set_working cache r now key v ttl Hr E) in Hr'. cbn [snd redis] in Hr'.
    injection Hr' as <-. cbn [faults] in Hf.
    apply (nothing_sent sent []) in Hf as ->. by apply elem_of_nil in Hin.
  - apply set_down. right. eauto.
  - rewrite (set_answering cache r rest now key v ttl Hr E) in Hr'. cbn [snd redis] in Hr'.
    injection Hr' as <-. cbn [faults] in Hf.
    apply one_sent in Hf as ->. apply list_elem_of_singleton in Hin. discriminate.
Qed.

(** A request is refused after one command, the read of the counter, and
    that command answered. *)
Lemma check_rate_limit_refusal_state (cache : CacheManager) (now : Z)
    (identifier : list N) (limit window : Z) :
  (check_rate_limit cache now identifier limit window).1 = false ->
  exists r,
    redis cache = Some r /\
    head (faults r) ≠ Some true /\
    redis (check_rate_limit cache now identifier limit window).2
    = Some {| data := data r; faults := tail (faults r) |}.
Proof.
  unfold check_rate_limit.
  destruct (redis cache) as [r|] eqn:Hr; [|discriminate].
  unfold redis_get, redis_command.
  assert (Hend : forall (r' : Redis) (o : option redis_value),
    (match (ret o, r') with
     | (inl _, r0) => (true, with_redis cache r0)
     | (inr (Some current), r0) =>
         match int_stored current with
         | inl _ => (true, with_redis cache r0)
         | inr current_count =>
             if limit <=? current_count
             then (false, with_redis cache r0)
             else
               let '(_, r2) := redis_incr r0 now (lit "rate_limit:" ++ identifier) in
               (true, with_redis cache r2)
         end
     | (inr None, r0) =>
         let '(_, r2) :=
           redis_setex r0 now (lit "rate_limit:" ++ identifier) window (RJson (PInt 1)) in
         (true, with_redis cache r2)
     end).1 = false ->
    redis (match (ret o, r') with
     | (inl _, r0) => (true, with_redis cache r0)
     | (inr (Some current), r0) =>
         match int_stored current with
         | inl _ => (true, with_redis cache r0)
         | inr current_count =>
             if limit <=? current_count
             then (false, with_redis cache r0)
             else
               let '(_, r2) := redis_incr r0 now (lit "rate_limit:" ++ identifier) in
               (true, with_redis cache r2)
         end
     | (inr None, r0) =>
         let '(_, r2) :=
           redis_setex r0 now (lit "rate_limit:" ++ identifier) window (RJson (PInt 1)) in
         (true, with_redis cache r2)
     end).2 = Some r').
  { intros r' [current|]; unfold ret; cbv iota.
    - destruct (int_stored current) as [err|count] eqn:Hc; [discriminate|].
      destruct (Z.leb_spec limit count); [reflexivity|].
      destruct (redis_incr r' now (lit "rate_limit:" ++ identifier)); simpl; discriminate.
    - destruct (redis_setex r' now (lit "rate_limit:" ++ identifier) window
                  (RJson (PInt 1))); simpl; discriminate. }
  destruct r as [d [|[] rest]]; cbn [faults data]; cbv iota.
  - destruct (d !! _) as [e|]; cbn [mbind option_bind];
      intros H; exists {| data := d; faults := [] |};
      (split; [reflexivity|]); (split; [discriminate|]);
      cbn [tail data faults]; apply Hend in H; exact H.
  - discriminate.
  - destruct (d !! _) as [e|]; cbn [mbind option_bind];
      intros H; exists {| data := d; faults := false :: rest |};
      (split; [reflexivity|]); (split; [discriminate|]);
      cbn [tail data faults]; apply Hend in H; exact H.
Qed.

Lemma check_rate_limit_raised (cache : CacheManager) (now : Z) (identifier : list N)
    (limit window : Z) :
  raised_between cache (check_rate_limit cache now identifier limit window).2 ->
  (check_rate_limit cache now identifier limit window).1 = true.
Proof.
  intros (r & r' & sent & Hr & Hr' & Hf & Hin).
  destruct (check_rate_limit cache now identifier limit window).1 eqn:Hreply;
    [reflexivity|].
  apply check_rate_limit_refusal_state in Hreply as (r0 & Hr0 & Hhead & Hstate).
  rewrite Hr in Hr0. injection Hr0 as <-. rewrite Hstate in Hr'. injection Hr' as <-.
  cbn [faults] in Hf. destruct (faults r) as [|[] rest]; cbn [tail head] in *.
  - apply (nothing_sent sent []) in Hf as ->. by apply elem_of_nil in Hin.
  - done.
  - apply one_sent in Hf as ->. apply list_elem_of_singleton in Hin. discriminate.
Qed.

(** A single-item analysis during which a command raised returns what the
    pipeline computes. *)
Lemma analyze_single_raised (cache : CacheManager) (now later : Z)
    (title summary request_id : list N) :
  raised_between cache
    (analyze_single world cache now later (PStr title) (PStr summary) request_id).2 ->
  (analyze_single world cache now later (PStr title) (PStr summary) request_id).1
  = _analyze_news_item world (PStr title) (PStr summary) request_id.
Proof.
  unfold analyze_single. rewrite cache_key_text.
  pose proof (get_raised cache now (lit "news:" ++ str_of_Z (hash_str (title ++ summary))))
    as Hget.
  destruct (get cache now _) as [cached cache']. cbn [fst snd] in Hget.
  assert (Hmiss :
    (match _analyze_news_item world (PStr title) (PStr summary) request_id with
     | inl e => (inl e, cache')
     | inr r =>
         let '(_, cache0) :=
           set cache' later (lit "news:" ++ str_of_Z (hash_str (title ++ summary)))
             (NewsAnalysisResponse_dict r) 43200 in
         (ret r, cache0)
     end).1 = _analyze_news_item world (PStr title) (PStr summary) request_id).
  { destruct (_analyze_news_item world (PStr title) (PStr summary) request_id) as [e|r];
      [reflexivity|].
    by destruct (set cache' later _ _ _). }
  destruct cached as [cached|]; [|intros _; exact Hmiss].
  destruct (truthy cached); [|intros _; exact Hmiss].
  intros H. cbn [snd] in H. specialize (Hget H). discriminate.
Qed.

(** C9.  When the backing store is unavailable, either for want of a
    connection or because a command sent to it raises, the rate-limit
    check allows every identifier, a cache read is a miss, a cache write
    stores nothing and says so, and the single-item analysis completes with
    the verdict the pipeline computes; a request is only ever refused on a
    counter that was read without failure.  The first five parts are about
    a store that is down from the first command on; the last four are about
    any command raising in the course of the call, also after an earlier
    one was answered: the read of the counter answers and the write of
    the counter raises, or the lookup of the cache answers and the write of
    the verdict raises. *)
Theorem store_fails_open :
  (forall cache now identifier limit window,
     store_down cache ->
     (check_rate_limit cache now identifier limit window).1 = true) /\
  (forall cache now identifier limit window,
     (check_rate_limit cache now identifier limit window).1 = false ->
     exists r, redis cache = Some r /\ head (faults r) ≠ Some true) /\
  (forall cache now key, store_down cache -> (get cache now key).1 = None) /\
  (forall cache now key v ttl,
     store_down cache ->
     (set cache now key v ttl).1 = false /\ same_data cache (set cache now key v ttl).2) /\
  (forall cache now later title summary request_id,
     store_down cache ->
     exists r,
       _analyze_news_item world (PStr title) (PStr summary) request_id = inr r /\
       (analyze_single world cache now later (PStr title) (PStr summary) request_id).1
       = inr r) /\
  (forall cache now identifier limit window,
     raised_between cache (check_rate_limit cache now identifier limit window).2 ->
     (check_rate_limit cache now identifier limit window).1 = true) /\
  (forall cache now key,
     raised_between cache (get cache now key).2 -> (get cache now key).1 = None) /\
  (forall cache now key v ttl,
     raised_between cache (set cache now key v ttl).2 ->
     (set cache now key v ttl).1 = false /\ same_data cache (set cache now key v ttl).2) /\
  (forall cache now later title summary request_id,
     raised_between cache
       (analyze_single world cache now later (PStr title) (PStr summary) request_id).2 ->
     exists r,
       _analyze_news_item world (PStr title) (PStr summary) request_id = inr r /\
       (analyze_single world cache now later (PStr title) (PStr summary) request_id).1
       = inr r).
Proof.
  repeat apply conj.
  - apply check_rate_limit_down.
  - intros cache now identifier limit window Hno.
    apply check_rate_limit_refuses in Hno as (r & current & count & Hr & Hf & _).
    eauto.
  - apply get_down.
  - apply set_down.
  - intros cache now later title summary request_id Hdown.
    destruct (analyze_text_total world title summary request_id) as [r E].
    exists r. split; [exact E|]. by rewrite analyze_single_down.
  - apply check_rate_limit_raised.
  - apply get_raised.
  - apply set_raised.
  - intros cache now later title summary request_id Hraised.
    destruct (analyze_text_total world title summary request_id) as [r E].
    exists r. split; [exact E|]. by rewrite analyze_single_raised.
Qed.

Lemma lookup_live_entry (r : Redis) (now : Z) (key : list N) (e : redis_entry) :
  data r !! key = Some e -> live now e = true -> lookup_live r now key = Some (value e).
Proof. unfold lookup_live. intros -> Hl. cbn [mbind option_bind]. by rewrite Hl. Qed.



End Cache.

(** *** The cache on concrete inputs *)


(** Without the cache the second analysis would have asked the endpoint
    and reported its verdict. *)
Lemma second_analysis_uncached :
  exists v2,
    _analyze_news_item (rt := basic.runtime) (basic.answering (lit "{}"))
      (PStr examples.rally_title) (PStr examples.rally_summary) (lit "mcp_2") = inr v2 /\
    impact v2 = NEUTRAL /\ confidence v2 = 50.
Proof. eexists. split; [vm_compute; reflexivity|]. split; reflexivity. Qed.


(** A store whose commands raise: the rate limiter allows the caller and
    the analysis completes with the keyword verdict.  And a store whose
    first command answers and whose second raises: the counter is read and
    its write raises, and the caller is allowed; the cache is looked up and
    the write of the verdict raises, and the analysis returns the keyword
    verdict. *)
Lemma store_fails_open_witness :
  store_down (examples.empty_store [true; true]) /\
  (check_rate_limit (rt := basic.runtime) (examples.empty_store [true; true]) 0
     (lit "client") 100 3600).1 = true /\
  (exists r,
     (analyze_single (rt := basic.runtime) basic.offline
        (examples.empty_store [true; true]) 0 1
        (PStr examples.rally_title) (PStr examples.rally_summary) (lit "mcp_1")).1
     = inr r /\ confidence r = 34) /\
  raised_between (examples.empty_store [false; true])
    (check_rate_limit (rt := basic.runtime) (examples.empty_store [false; true]) 0
       (lit "client") 100 3600).2 /\
  (check_rate_limit (rt := basic.runtime) (examples.empty_store [false; true]) 0
     (lit "client") 100 3600).1 = true /\
  raised_between (examples.empty_store [false; true])
    (analyze_single (rt := basic.runtime) basic.offline
       (examples.empty_store [false; true]) 0 1
       (PStr examples.rally_title) (PStr examples.rally_summary) (lit "mcp_1")).2 /\
  (exists r,
     (analyze_single (rt := basic.runtime) basic.offline
        (examples.empty_store [false; true]) 0 1
        (PStr examples.rally_title) (PStr examples.rally_summary) (lit "mcp_1")).1
     = inr r /\ confidence r = 34).
Proof.
  assert (H : store_down (examples.empty_store [true; true])).
  { right. eexists _, _. split; reflexivity. }
  assert (Hlimit :
    raised_between (examples.empty_store [false; true])
      (check_rate_limit (rt := basic.runtime) (examples.empty_store [false; true]) 0
         (lit "client") 100 3600).2).
  { eexists _, _, [false; true]. split; [reflexivity|].
    split; [vm_compute; reflexivity|]. split; [reflexivity|].
    apply list_elem_of_further, list_elem_of_here. }
  assert (Hsingle :
    raised_between (examples.empty_store [false; true])
      (analyze_single (rt := basic.runtime) basic.offline
         (examples.empty_store [false; true]) 0 1
         (PStr examples.rally_title) (PStr examples.rally_summary) (lit "mcp_1")).2).
  { eexists _, _, [false; true]. split; [reflexivity|].
    split; [vm_compute; reflexivity|]. split; [reflexivity|].
    apply list_elem_of_further, list_elem_of_here. }
  assert (Hkeyword : forall r,
    _analyze_news_item (rt := basic.runtime) basic.offline
      (PStr examples.rally_title) (PStr examples.rally_summary) (lit "mcp_1") = inr r ->
    confidence r = 34).
  { intros r Hr.
    assert (E : inr r = inr (A := exn)
                  {| impact := POSITIVE; confidence := 34;
                     affected_coins := {[ lit "BTC" ]};
                     summary := lit "Bitcoin rally - Positive impact (Low confidence)";
                     lang := lit "en"; low_confidence := Some true; error := None |}).
    { rewrite <- Hr. vm_compute. reflexivity. }
    by injection E as ->. }
  split; [exact H|]. split.
  { exact (proj1 (store_fails_open (rt := basic.runtime) basic.offline) _ 0
             (lit "client") 100 3600 H). }
  split.
  { destruct (proj1 (proj2 (proj2 (proj2 (proj2
                 (store_fails_open (rt := basic.runtime) basic.offline)))))
                 _ 0 1 examples.rally_title examples.rally_summary (lit "mcp_1") H)
      as (r & Hr & ->).
    exists r. split; [reflexivity|]. exact (Hkeyword r Hr). }
  split; [exact Hlimit|]. split.
  { exact (proj1 (proj2 (proj2 (proj2 (proj2 (proj2
             (store_fails_open (rt := basic.runtime) basic.offline))))))
             _ 0 (lit "client") 100 3600 Hlimit). }
  split; [exact Hsingle|].
  destruct (proj2 (proj2 (proj2 (proj2 (proj2 (proj2 (proj2 (proj2
               (store_fails_open (rt := basic.runtime) basic.offline))))))))
               _ 0 1 examples.rally_title examples.rally_summary (lit "mcp_1") Hsingle)
    as (r & Hr & ->).
  exists r. split; [reflexivity|]. exact (Hkeyword r Hr).
Defined.

(** Without a credential the LLM stage is unavailable and the pipeline
    answers with the keyword verdict. *)
Lemma llm_stage_never_raises_witness :
  unavailable (rt := basic.runtime) basic.offline (PStr examples.rally_title)
    (PStr examples.rally_summary)
    (detected_lang examples.rally_title examples.rally_summary) (lit "item") /\
  _llm_analysis (rt := basic.runtime) basic.offline (PStr examples.rally_title)
    (PStr examples.rally_summary)
    (detected_lang examples.rally_title examples.rally_summary) (lit "item") = inr None /\
  exists r,
    _analyze_news_item (rt := basic.runtime) basic.offline
      (PStr examples.rally_title) (PStr examples.rally_summary) (lit "item") = inr r /\
    impact r = POSITIVE /\
    confidence r = 34 /\
    low_confidence r = Some true /\
    affected_coins r = {[ lit "BTC" ]} /\
    response_models.summary r = lit "Bitcoin rally - Positive impact (Low confidence)" /\
    error r = None.
Proof.
  assert (H : unavailable (rt := basic.runtime) basic.offline (PStr examples.rally_title)
                (PStr examples.rally_summary)
                (detected_lang examples.rally_title examples.rally_summary) (lit "item"))
    by (left; reflexivity).
  split; [exact H|].
  pose proof (llm_stage_never_raises (rt := basic.runtime) basic.offline)
    as (_ & Hun & _ & Hfb).
  split; [exact (Hun _ _ _ _ H)|].
  destruct (Hfb examples.rally_title examples.rally_summary (lit "item") H)
    as (r & E & Hi & Hc & Hl & Ha & Hs & _ & He).
  exists r. rewrite Hi, Hc, Hl, Ha, Hs, He.
  split; [exact E|]. repeat split; vm_compute; reflexivity.
Defined.

(** *** The stages on concrete inputs *)

(** Whole words are counted whatever their case; "upgrade" is no "up". *)
Lemma whole_words_are_counted :
  findall_word_count (rt := basic.runtime) (lit "up") (lit "Up, up and UP: an upgrade") = 3 /\
  findall_word_count (rt := basic.runtime) (lit "new high")
    (lit "A new high, then new highs") = 1.
Proof. split; vm_compute; reflexivity. Qed.

(** A trigger term escalates whatever the keyword verdict; the match is on
    raw substrings, so "second" holds the trigger "sec". *)
Lemma trigger_terms_escalate :
  _needs_llm_analysis (POSITIVE, 85) (lit "sec announces new regulation market reacts") = true /\
  _needs_llm_analysis (POSITIVE, 85) (lit "a second rally") = true /\
  _needs_llm_analysis (POSITIVE, 85) (lit "a third rally") = false.
Proof. repeat split; vm_compute; reflexivity. Qed.

(** A coin named twice is detected once. *)
Lemma coins_are_deduplicated :
  _detect_coins (rt := basic.runtime) (lit "BTC climbs as bitcoin funds grow")
  = {[ lit "BTC" ]}.
Proof. vm_compute. reflexivity. Qed.

(** *** The tables of the concrete runtime *)

Lemma ascii_code_listed (c : N) : is_ascii c = true -> c ∈ ascii_codes.
Proof.
  unfold is_ascii. intros Hc%N.ltb_lt. apply list_elem_of_fmap.
  exists (N.to_nat c). split; [by rewrite N2Nat.id|]. apply elem_of_seq. lia.
Qed.

Lemma ascii_word_of_lower (c : N) :
  is_ascii c = true ->
  re_word (rt := basic.runtime) c = re_word (rt := basic.runtime) (ascii_lower c).
Proof.
  intros Hc%ascii_code_listed.
  assert (Hall : forallb
            (fun c => eqb (re_word (rt := basic.runtime) c)
                        (re_word (rt := basic.runtime) (ascii_lower c)))
            ascii_codes = true) by (vm_compute; reflexivity).
  rewrite forallb_forall in Hall. apply eqb_prop, Hall. by apply list_elem_of_In.
Qed.

Lemma basic_ieq_inv (p c : N) :
  re_ieq (rt := basic.runtime) p c = true ->
  (is_ascii p = true /\ is_ascii c = true /\ ascii_lower p = ascii_lower c) \/ p = c.
Proof.
  unfold re_ieq. destruct (is_ascii p), (is_ascii c); cbn [andb uni_ieq basic.runtime].
  - intros H%N.eqb_eq. auto.
  - intros H%N.eqb_eq. auto.
  - intros H%N.eqb_eq. auto.
  - intros H%N.eqb_eq. auto.
Qed.

Lemma basic_ieq_refl (p : N) : re_ieq (rt := basic.runtime) p p = true.
Proof.
  unfold re_ieq. destruct (is_ascii p); cbn [andb uni_ieq basic.runtime];
    apply N.eqb_refl.
Qed.

Lemma basic_ieq_word (p c : N) :
  re_ieq (rt := basic.runtime) p c = true ->
  re_word (rt := basic.runtime) c = re_word (rt := basic.runtime) p.
Proof.
  intros [(Hp & Hc & Hlower)| ->]%basic_ieq_inv; [|reflexivity].
  by rewrite (ascii_word_of_lower c Hc), (ascii_word_of_lower p Hp), Hlower.
Qed.

Lemma basic_ieq_class (p q c : N) :
  re_ieq (rt := basic.runtime) p c = true ->
  re_ieq (rt := basic.runtime) q c = true ->
  re_ieq (rt := basic.runtime) p q = true.
Proof.
  intros [(Hp & Hc & Hpc)| ->]%basic_ieq_inv [(Hq & Hc' & Hqc)| ->]%basic_ieq_inv.
  - unfold re_ieq. rewrite Hp, Hq. cbn [andb]. apply N.eqb_eq. congruence.
  - unfold re_ieq. rewrite Hp, Hc. cbn [andb]. by apply N.eqb_eq.
  - unfold re_ieq. rewrite Hq, Hc'. cbn [andb]. by apply N.eqb_eq.
  - apply basic_ieq_refl.
Qed.

(** With these tables the verdict on a text is as described and each
    lexicon scores its terms by their occurrences as whole words. *)
Lemma keyword_analysis_contract_witness :
  _keyword_analysis (rt := basic.runtime) (lit "rally up, up and away: a new high") = (POSITIVE, 60) /\
  lexicon_score (rt := basic.runtime) positive_keywords
    (lit "rally up, up and away: a new high")
  = occurrences_score (rt := basic.runtime) positive_keywords
      (lit "rally up, up and away: a new high").
Proof.
  split; [vm_compute; reflexivity|].
  exact (proj1 (proj2 (proj2 (keyword_analysis_contract (rt := basic.runtime)
                                (lit "rally up, up and away: a new high")))
                  basic_ieq_word basic_ieq_class)).
Defined.

(* ===================================================================== *)
(** ** Further properties of the services                                 *)
(* ===================================================================== *)

Import webhook_manager behaviour.

(** *** The cache manager over a working store *)

Section CacheOperations.
Context {rt : PyRuntime}.

Lemma lookup_live_insert (r : Redis) (later : Z) (key : list N) (v : redis_value)
    (expiry : Z) :
  lookup_live
    {| data := <[key := {| value := v; expires_at := Some expiry |}]> (data r);
       faults := [] |} later key
  = if later <? expiry then Some v else None.
Proof. unfold lookup_live. cbn [data]. by rewrite lookup_insert_eq. Qed.

Lemma lookup_live_insert_ne (r : Redis) (later : Z) (key key' : list N)
    (e : redis_entry) (fs : list bool) :
  key' ≠ key ->
  lookup_live {| data := <[key := e]> (data r); faults := fs |} later key'
  = lookup_live r later key'.
Proof. intros Hne. unfold lookup_live. cbn [data]. by rewrite lookup_insert_ne. Qed.

Lemma redis_delete_working (r : Redis) (now : Z) (key : list N) :
  faults r = [] ->
  exists removed,
    redis_delete r now [key]
    = (inr removed, {| data := base.delete key (data r); faults := [] |}).
Proof.
  intros Hf. unfold redis_delete, redis_command. rewrite Hf. cbn [fold_left].
  destruct (data r !! key) as [e|] eqn:He.
  - rewrite Hf. eauto.
  - rewrite Hf, delete_id by done. eauto.
Qed.

Lemma delete_working (cache : CacheManager) (r : Redis) (now : Z) (key : list N) :
  redis cache = Some r -> faults r = [] ->
  delete cache now key
  = (true, {| redis := Some {| data := base.delete key (data r); faults := [] |};
              stats := stats cache |}).
Proof.
  intros Hr Hf. unfold delete. rewrite Hr.
  destruct (redis_delete_working r now key Hf) as [removed ->]. reflexivity.
Qed.

Lemma get_value_working (cache : CacheManager) (r : Redis) (now : Z) (key : list N) :
  redis cache = Some r -> faults r = [] ->
  (get cache now key).1
  = if stored_truthy (lookup_live r now key)
    then lookup_live r now key ≫= loads_stored else None.
Proof. intros Hr Hf. by rewrite (get_working cache r now key Hr Hf). Qed.



(** X2.  Over a working store, writing or deleting one key changes what a
    lookup of any other key returns at no time. *)
Theorem other_keys_are_kept (cache : CacheManager) (now later : Z)
    (key key' : list N) (v : pyval) (ttl : Z) :
  working cache -> key' ≠ key ->
  (get (set cache now key v ttl).2 later key').1 = (get cache later key').1 /\
  (get (delete cache now key).2 later key').1 = (get cache later key').1.
Proof.
  intros (r & Hr & Hf) Hne.
  rewrite (set_working cache r now key v ttl Hr Hf).
  rewrite (delete_working cache r now key Hr Hf). cbn [snd].
  rewrite (get_value_working cache r later key' Hr Hf).
  split.
  - erewrite get_value_working; [|reflexivity|reflexivity].
    by rewrite lookup_live_insert_ne.
  - erewrite get_value_working; [|reflexivity|reflexivity].
    unfold lookup_live. cbn [data]. by rewrite lookup_delete_ne.
Qed.

(** X3.  Over a working store [delete] answers [True] whether or not the
    key was there, and no later lookup of the key finds a value; over a
    store that is down it answers [False] and the data are as before. *)
Theorem delete_then_get (cache : CacheManager) (now : Z) (key : list N) :
  (working cache ->
   (delete cache now key).1 = true /\
   working (delete cache now key).2 /\
   forall later, (get (delete cache now key).2 later key).1 = None) /\
  (store_down cache ->
   (delete cache now key).1 = false /\ same_data cache (delete cache now key).2).
Proof.
  split.
  - intros (r & Hr & Hf). rewrite (delete_working cache r now key Hr Hf).
    cbn [fst snd]. split; [reflexivity|]. split; [by eexists|]. intros later.
    erewrite get_value_working; [|reflexivity|reflexivity].
    unfold lookup_live. cbn [data]. by rewrite lookup_delete_eq.
  - unfold delete, same_data. intros [Hr|(r & rest & Hr & Hf)]; rewrite Hr.
    + cbn [fst snd]. by rewrite Hr.
    + unfold redis_delete. rewrite (redis_command_fault _ _ Hf). by split.
Qed.

End CacheOperations.

(** *** The counters of the cache manager *)

Section CacheCounters.
Context {rt : PyRuntime}.
Variable glob : list N -> list N -> bool.




Lemma check_rate_limit_stats (cache : CacheManager) (now : Z) (identifier : list N)
    (limit window : Z) :
  stats (check_rate_limit cache now identifier limit window).2 = stats cache.
Proof. unfold check_rate_limit. by break_match. Qed.








End CacheCounters.

(** *** The rate limiter *)

Section RateLimiter.
Context {rt : PyRuntime}.

Lemma with_redis_twice (cache : CacheManager) (r r' : Redis) :
  with_redis (with_redis cache r) r' = with_redis cache r'.
Proof. reflexivity. Qed.

Lemma redis_incr_working (r : Redis) (now : Z) (key : list N) (n : Z)
    (expiry : option Z) :
  faults r = [] ->
  data r !! key = Some {| value := RJson (PInt n); expires_at := expiry |} ->
  live now {| value := RJson (PInt n); expires_at := expiry |} = true ->
  redis_incr r now key
  = (inr (n + 1),
     {| data := <[key := {| value := RJson (PInt (n + 1)); expires_at := expiry |}]> (data r);
        faults := [] |}).
Proof.
  intros Hf He Hl. unfold redis_incr, redis_command. rewrite Hf, He, Hl.
  cbn [value expires_at]. by rewrite Hf.
Qed.

Lemma redis_get_working (r : Redis) (now : Z) (key : list N) :
  faults r = [] -> redis_get r now key = (inr (lookup_live r now key), r).
Proof.
  intros Hf. unfold redis_get, redis_command, lookup_live. rewrite Hf.
  by destruct (data r !! key).
Qed.

Lemma redis_setex_working (r : Redis) (now : Z) (key : list N) (ttl : Z)
    (v : redis_value) :
  faults r = [] ->
  redis_setex r now key ttl v
  = (inr (),
     {| data := <[key := {| value := v; expires_at := Some (now + ttl) |}]> (data r);
        faults := [] |}).
Proof. intros Hf. unfold redis_setex, redis_command. by rewrite Hf, Hf. Qed.

Lemma check_rate_limit_working (cache : CacheManager) (r : Redis) (now : Z)
    (identifier : list N) (limit window : Z) :
  redis cache = Some r -> faults r = [] ->
  check_rate_limit cache now identifier limit window
  = match lookup_live r now (counter_key identifier) with
    | None =>
        (true,
         with_redis cache
           {| data := <[counter_key identifier :=
                          {| value := RJson (PInt 1);
                             expires_at := Some (now + window) |}]> (data r);
              faults := [] |})
    | Some current =>
        match int_stored current with
        | inl _ => (true, with_redis cache r)
        | inr n =>
            if limit <=? n then (false, with_redis cache r)
            else (true, with_redis cache (redis_incr r now (counter_key identifier)).2)
        end
    end.
Proof.
  intros Hr Hf. unfold check_rate_limit. fold (counter_key identifier).
  rewrite Hr, (redis_get_working r now _ Hf).
  destruct (lookup_live r now (counter_key identifier)) as [current|]; cbv iota beta.
  - destruct (int_stored current) as [e|n]; [reflexivity|].
    destruct (limit <=? n); [reflexivity|].
    by destruct (redis_incr r now (counter_key identifier)).
  - by rewrite (redis_setex_working r now _ window _ Hf).
Qed.

(** X5.  Over a working store, the first request of an identifier in a
    window is allowed whatever the limit, zero and negative limits
    included, and it starts a counter at 1 that lives for [window] seconds
    from the request ([window] being positive, as the server demands). *)
Theorem first_request_is_allowed (cache : CacheManager) (now : Z)
    (identifier : list N) (limit window : Z) :
  working cache -> stored cache now (counter_key identifier) = None -> 0 < window ->
  (check_rate_limit cache now identifier limit window).1 = true /\
  working (check_rate_limit cache now identifier limit window).2 /\
  forall later,
    stored (check_rate_limit cache now identifier limit window).2 later
      (counter_key identifier)
    = if later <? now + window then Some (RJson (PInt 1)) else None.
Proof.
  intros (r & Hr & Hf) Hnone _. unfold stored in Hnone. rewrite Hr in Hnone.
  cbn [mbind option_bind] in Hnone.
  rewrite (check_rate_limit_working cache r now identifier limit window Hr Hf), Hnone.
  cbn [fst snd]. split; [reflexivity|]. split; [by eexists|]. intros later.
  unfold stored, with_redis. cbn [redis mbind option_bind].
  apply lookup_live_insert.
Qed.

(** X7.  A request that is refused changes neither the stored data nor
    the counters of the cache manager: it does not count against the
    limit and does not extend the window. *)
Theorem refused_request_changes_nothing (cache : CacheManager) (now : Z)
    (identifier : list N) (limit window : Z) :
  (check_rate_limit cache now identifier limit window).1 = false ->
  same_data cache (check_rate_limit cache now identifier limit window).2 /\
  stats (check_rate_limit cache now identifier limit window).2 = stats cache.
Proof.
  intros Hno. split; [|apply check_rate_limit_stats].
  revert Hno. unfold check_rate_limit, same_data.
  destruct (redis cache) as [r|] eqn:Hr; [|discriminate].
  assert (Hdata : (redis_get r now (lit "rate_limit:" ++ identifier)).2.(data) = data r).
  { unfold redis_get, redis_command. destruct (faults r) as [|[] rest]; cbn [data snd];
      [|reflexivity|]; by destruct (_ !! _). }
  destruct (redis_get r now (lit "rate_limit:" ++ identifier)) as [[e|[current|]] r'].
  - discriminate.
  - destruct (int_stored current) as [e|n]; [discriminate|].
    destruct (limit <=? n).
    + intros _. cbn [snd with_redis redis]. exact (eq_sym Hdata).
    + destruct (redis_incr r' now _). discriminate.
  - destruct (redis_setex r' now _ window _). discriminate.
Qed.

Lemma answers_shift (f : nat -> bool) (n : nat) :
  f <$> seq 1 n = (fun i => f (S i)) <$> seq 0 n.
Proof. by rewrite <- fmap_S_seq, <- list_fmap_compose. Qed.

(** The requests made while a counter is live. *)
Lemma requests_counting (times : list Z) (cache : CacheManager) (r : Redis)
    (identifier : list N) (limit window c expiry : Z) :
  redis cache = Some r -> faults r = [] ->
  data r !! counter_key identifier
  = Some {| value := RJson (PInt c); expires_at := Some expiry |} ->
  Forall (fun t => t < expiry) times ->
  requests cache times identifier limit window
  = ((fun i : nat => bool_decide (c + Z.of_nat i < limit)) <$> seq 0 (length times),
     with_redis cache
       {| data := <[counter_key identifier :=
                      {| value := RJson (PInt (Z.max c (Z.min (c + Z.of_nat (length times)) limit)));
                         expires_at := Some expiry |}]> (data r);
          faults := [] |}).
Proof.
  revert cache r c. induction times as [|t times IH]; intros cache r c Hr Hf He Hlive.
  - cbn [requests length seq fmap list_fmap]. f_equal.
    replace (Z.max c (Z.min (c + Z.of_nat 0) limit)) with c by lia.
    rewrite insert_id by exact He. unfold with_redis.
    destruct cache as [o s]. cbn [redis stats] in *. subst o. destruct r as [d fs].
    cbn [faults data] in *. by subst fs.
  - apply Forall_cons in Hlive as [Ht Hlive]. cbn [requests].
    rewrite (check_rate_limit_working cache r t identifier limit window Hr Hf).
    assert (Hl : live t {| value := RJson (PInt c); expires_at := Some expiry |} = true).
    { unfold live. cbn [expires_at]. by apply Z.ltb_lt. }
    rewrite (lookup_live_entry r t _ _ He Hl). cbn [value int_stored ret].
    cbn [length seq fmap list_fmap]. rewrite answers_shift.
    destruct (Z.leb_spec limit c) as [Hle|Hlt].
    + rewrite (IH (with_redis cache r) r c eq_refl Hf He Hlive).
      rewrite with_redis_twice. f_equal; [f_equal|].
      * rewrite bool_decide_eq_false_2 by lia. reflexivity.
      * apply list_fmap_ext. intros i x _. apply bool_decide_ext. lia.
      * replace (Z.max c (Z.min (c + Z.of_nat (S (length times))) limit))
          with (Z.max c (Z.min (c + Z.of_nat (length times)) limit)) by lia.
        reflexivity.
    + rewrite (redis_incr_working r t _ c (Some expiry) Hf He Hl). cbn [snd].
      erewrite IH; [|reflexivity|reflexivity|cbn [data]; apply lookup_insert_eq|exact Hlive].
      rewrite with_redis_twice. cbn [data]. rewrite insert_insert_eq.
      f_equal; [f_equal|].
      * rewrite bool_decide_eq_true_2 by lia. reflexivity.
      * apply list_fmap_ext. intros i x _. apply bool_decide_ext. lia.
      * replace (Z.max c (Z.min (c + Z.of_nat (S (length times))) limit))
          with (Z.max (c + 1) (Z.min (c + 1 + Z.of_nat (length times)) limit)) by lia.
        reflexivity.
Qed.

(** X6.  Over a working store, of the requests an identifier makes within
    one window, counted from 0, request [j] is allowed exactly when
    [j < max limit 1]: the first [limit] requests pass and every later one
    is refused. *)
Theorem requests_within_a_window (cache : CacheManager) (t0 : Z) (times : list Z)
    (identifier : list N) (limit window : Z) :
  working cache -> stored cache t0 (counter_key identifier) = None -> 0 < window ->
  Forall (fun t => t < t0 + window) times ->
  (requests cache (t0 :: times) identifier limit window).1
  = (fun j : nat => bool_decide (Z.of_nat j < Z.max limit 1)) <$> seq 0 (S (length times)).
Proof.
  intros (r & Hr & Hf) Hnone _ Hlive. unfold stored in Hnone. rewrite Hr in Hnone.
  cbn [mbind option_bind] in Hnone. cbn [requests].
  rewrite (check_rate_limit_working cache r t0 identifier limit window Hr Hf), Hnone.
  erewrite requests_counting;
    [|reflexivity|reflexivity|cbn [data]; apply lookup_insert_eq|exact Hlive].
  cbn [fst seq fmap list_fmap]. rewrite answers_shift. f_equal.
  - rewrite bool_decide_eq_true_2 by lia. reflexivity.
  - apply list_fmap_ext. intros i x _. apply bool_decide_ext. lia.
Qed.

Lemma get_rate_limit_status_working (cache : CacheManager) (r : Redis)
    (now later utcnow : Z) (identifier : list N) (window n expiry : Z) :
  redis cache = Some r -> faults r = [] ->
  data r !! counter_key identifier
  = Some {| value := RJson (PInt n); expires_at := Some expiry |} ->
  now < expiry -> later < expiry ->
  (get_rate_limit_status cache now later utcnow identifier window).1
  = {| count := n; remaining := Z.max 0 (100 - n);
       reset_time := utcnow + (expiry - later) |}.
Proof.
  intros Hr Hf He Hnow Hlater.
  unfold get_rate_limit_status, redis_get, redis_ttl, redis_command.
  fold (counter_key identifier). rewrite Hr, Hf. cbv iota beta. rewrite He, Hf.
  cbv iota beta. rewrite He. unfold live. cbn [expires_at value].
  rewrite (proj2 (Z.ltb_lt now expiry) Hnow), (proj2 (Z.ltb_lt later expiry) Hlater).
  cbn [stored_truthy int_stored ret fst].
  rewrite (proj2 (Z.ltb_lt 0 (expiry - later))) by lia. reflexivity.
Qed.

(** X8.  Over a working store, after an identifier has made [n] requests
    within one window, the status asked within that window reports as
    count the smaller of [n] and [max limit 1], as remaining the
    difference of the count to 100 whatever limit the requests were
    checked against, and as reset time the clock of the process plus the
    seconds the window has left. *)
Theorem status_after_requests (cache : CacheManager) (t0 : Z) (times : list Z)
    (identifier : list N) (limit window now later utcnow window' : Z) :
  working cache -> stored cache t0 (counter_key identifier) = None -> 0 < window ->
  Forall (fun t => t < t0 + window) times ->
  now < t0 + window -> later < t0 + window ->
  let n := Z.min (1 + Z.of_nat (length times)) (Z.max limit 1) in
  (get_rate_limit_status (requests cache (t0 :: times) identifier limit window).2
     now later utcnow identifier window').1
  = {| count := n; remaining := Z.max 0 (100 - n);
       reset_time := utcnow + (t0 + window - later) |}.
Proof.
  intros (r & Hr & Hf) Hnone _ Hlive Hnow Hlater n. unfold stored in Hnone.
  rewrite Hr in Hnone. cbn [mbind option_bind] in Hnone. cbn [requests].
  rewrite (check_rate_limit_working cache r t0 identifier limit window Hr Hf), Hnone.
  erewrite requests_counting;
    [|reflexivity|reflexivity|cbn [data]; apply lookup_insert_eq|exact Hlive].
  cbn [snd].
  erewrite get_rate_limit_status_working;
    [|reflexivity|reflexivity|cbn [data]; apply lookup_insert_eq|exact Hnow|exact Hlater].
  subst n. do 2 f_equal; lia.
Qed.

End RateLimiter.

(** *** Flushing the cache *)

Section Flush.
Context {rt : PyRuntime}.
Variable glob : list N -> list N -> bool.

Lemma redis_keys_working (r : Redis) (now : Z) (pattern : list N) :
  faults r = [] ->
  redis_keys glob r now pattern
  = (inr ((filter (fun '(key, e) => glob pattern key && live now e)
             (map_to_list (data r))).*1), r).
Proof. intros Hf. unfold redis_keys, redis_command. by rewrite Hf. Qed.

Lemma matching_keys (m : gmap (list N) redis_entry) (now : Z) (pattern key : list N) :
  key ∈ (filter (fun '(key, e) => glob pattern key && live now e) (map_to_list m)).*1
  <-> exists e, m !! key = Some e /\ glob pattern key = true /\ live now e = true.
Proof.
  rewrite list_elem_of_fmap. split.
  - intros ([k e] & -> & Hin). apply list_elem_of_filter in Hin as [HP Hin].
    apply elem_of_map_to_list in Hin. exists e. cbn [fst].
    apply Is_true_true, andb_true_iff in HP. tauto.
  - intros (e & He & Hg & Hl). exists (key, e). split; [reflexivity|].
    apply list_elem_of_filter. split; [|by apply elem_of_map_to_list].
    apply Is_true_true. by rewrite Hg, Hl.
Qed.

Lemma matching_keys_NoDup (m : gmap (list N) redis_entry) (now : Z) (pattern : list N) :
  NoDup (filter (fun '(key, e) => glob pattern key && live now e) (map_to_list m)).*1.
Proof.
  eapply sublist_NoDup; [apply (NoDup_fst_map_to_list m)|].
  apply fmap_sublist, sublist_filter.
Qed.

Lemma matching_keys_length (m : gmap (list N) redis_entry) (now : Z) (pattern : list N) :
  length ((filter (fun '(key, e) => glob pattern key && live now e) (map_to_list m)).*1)
  = size (filter (fun '(key, e) => glob pattern key && live now e) m).
Proof.
  rewrite length_fmap, <- length_map_to_list, map_filter_alt.
  symmetry. apply Permutation_length, map_to_list_to_map.
  apply matching_keys_NoDup.
Qed.

(** Deleting keys that are there, each once. *)
Lemma delete_present (now : Z) (keys : list (list N)) (d : gmap (list N) redis_entry)
    (n : Z) :
  NoDup keys ->
  (forall key, key ∈ keys -> exists e, d !! key = Some e /\ live now e = true) ->
  exists d',
    fold_left
      (fun '(removed, d) key =>
         match d !! key with
         | Some e => (if live now e then removed + 1 else removed, base.delete key d)
         | None => (removed, d)
         end)
      keys (n, d)
    = (n + Z.of_nat (length keys), d') /\
    forall key, d' !! key = if bool_decide (key ∈ keys) then None else d !! key.
Proof.
  revert d n. induction keys as [|k keys IH]; intros d n Hnd Hin.
  - exists d. split; [cbn; f_equal; lia|]. intros key.
    by rewrite bool_decide_eq_false_2 by apply not_elem_of_nil.
  - apply NoDup_cons in Hnd as [Hk Hnd].
    destruct (Hin k) as (e & He & Hl); [by left|].
    cbn [fold_left]. rewrite He, Hl.
    destruct (IH (base.delete k d) (n + 1) Hnd) as (d' & Hfold & Hd').
    { intros key Hkey. destruct (Hin key) as (e' & He' & Hl'); [by right|].
      exists e'. split; [|exact Hl']. rewrite lookup_delete_ne; [exact He'|].
      intros ->. contradiction. }
    exists d'. split.
    + rewrite Hfold. f_equal. cbn [length]. lia.
    + intros key. rewrite Hd'. destruct (decide (key = k)) as [->|Hne].
      * rewrite (bool_decide_eq_true_2 (k ∈ k :: keys)) by by left.
        rewrite bool_decide_eq_false_2 by exact Hk. apply lookup_delete_eq.
      * rewrite lookup_delete_ne by done.
        apply (f_equal (fun b : bool => if b then None else d !! key)).
        apply bool_decide_ext. rewrite elem_of_cons.
        split; [by right|]. by intros [?|?].
Qed.

Lemma flush_pattern_working (cache : CacheManager) (r : Redis) (now : Z)
    (c : N) (p : list N) :
  redis cache = Some r -> faults r = [] ->
  exists d',
    flush_cache glob cache now (Some (c :: p))
    = (Z.of_nat (size (filter (fun '(key, e) => glob (c :: p) key && live now e) (data r))),
       with_redis cache {| data := d'; faults := [] |}) /\
    forall key,
      d' !! key
      = match data r !! key with
        | Some e => if glob (c :: p) key && live now e then None else Some e
        | None => None
        end.
Proof.
  intros Hr Hf. unfold flush_cache. rewrite Hr, (redis_keys_working r now _ Hf).
  rewrite <- matching_keys_length.
  pose proof (matching_keys (data r) now (c :: p)) as Hkeys.
  pose proof (matching_keys_NoDup (data r) now (c :: p)) as Hnd.
  set (keys := (filter _ (map_to_list (data r))).*1) in *.
  assert (Hlookup : forall key,
    (if bool_decide (key ∈ keys) then None else data r !! key)
    = match data r !! key with
      | Some e => if glob (c :: p) key && live now e then None else Some e
      | None => None
      end).
  { intros key. destruct (decide (key ∈ keys)) as [Hin|Hout].
    - rewrite bool_decide_eq_true_2 by done.
      apply Hkeys in Hin as (e & -> & -> & ->). reflexivity.
    - rewrite bool_decide_eq_false_2 by done.
      destruct (data r !! key) as [e|] eqn:He; [|reflexivity].
      destruct (glob (c :: p) key && live now e) eqn:Hm; [|reflexivity].
      apply andb_true_iff in Hm as [Hg Hl]. destruct Hout. apply Hkeys. eauto. }
  destruct keys as [|k keys'] eqn:Ek.
  - exists (data r). split.
    + cbn [length]. do 2 f_equal. destruct r as [d fs]. cbn [faults data] in *.
      by subst fs.
    + intros key. rewrite <- Hlookup. by rewrite bool_decide_eq_false_2 by apply not_elem_of_nil.
  - rewrite <- Ek in *. clear Ek.
    destruct (delete_present now keys (data r) 0 Hnd) as (d' & Hfold & Hd').
    { intros key Hin. apply Hkeys in Hin as (e & ? & ? & ?). eauto. }
    exists d'. split.
    + unfold redis_delete, redis_command. rewrite Hf, Hfold, Hf. reflexivity.
    + intros key. by rewrite Hd', Hlookup.
Qed.

(** X9.  Over a working store, flushing without a pattern (none, or the
    empty text) answers 1 and leaves nothing behind: every later lookup
    misses and every identifier starts a new window, its first request
    being allowed again.  Over a store that is down, a flush answers 0 and
    the data are as before. *)
Theorem flush_everything (cache : CacheManager) (now : Z) (pattern : option (list N)) :
  (working cache -> pattern = None \/ pattern = Some [] ->
   (flush_cache glob cache now pattern).1 = 1 /\
   working (flush_cache glob cache now pattern).2 /\
   (forall later key, stored (flush_cache glob cache now pattern).2 later key = None) /\
   (forall later key, (get (flush_cache glob cache now pattern).2 later key).1 = None) /\
   (forall later identifier limit window,
      (check_rate_limit (flush_cache glob cache now pattern).2 later identifier
         limit window).1 = true)) /\
  (store_down cache ->
   (flush_cache glob cache now pattern).1 = 0 /\
   same_data cache (flush_cache glob cache now pattern).2).
Proof.
  split.
  - intros (r & Hr & Hf) Hp.
    assert (Hflush : flush_cache glob cache now pattern
                     = (1, with_redis cache {| data := ∅; faults := [] |})).
    { unfold flush_cache, redis_flushdb, redis_command. rewrite Hr, Hf.
      destruct Hp as [->| ->]; cbv iota beta; by rewrite Hf. }
    rewrite Hflush. cbn [fst snd]. split; [reflexivity|]. split; [by eexists|].
    assert (Hnone : forall later key,
              lookup_live {| data := ∅; faults := [] |} later key = None).
    { intros later key. unfold lookup_live. cbn [data]. by rewrite lookup_empty. }
    split; [|split].
    + intros later key. unfold stored. cbn [with_redis redis mbind option_bind].
      apply Hnone.
    + intros later key. erewrite get_value_working; [|reflexivity|reflexivity].
      by rewrite Hnone.
    + intros later identifier limit window.
      erewrite check_rate_limit_working; [|reflexivity|reflexivity].
      by rewrite Hnone.
  - unfold flush_cache, same_data. intros [Hr|(r & rest & Hr & Hf)]; rewrite Hr.
    + cbn [fst snd]. by rewrite Hr.
    + unfold redis_keys, redis_flushdb. rewrite (redis_command_fault _ _ Hf).
      destruct pattern as [[|c p]|]; by split.
Qed.

(** X10.  Over a working store, flushing under a pattern answers the
    number of entries that are there and match, removes exactly those, and
    leaves every other entry as it is. *)
Theorem flush_by_pattern (cache : CacheManager) (now : Z) (pattern : list N) :
  working cache -> pattern ≠ [] ->
  (flush_cache glob cache now (Some pattern)).1
  = Z.of_nat (size (matching glob cache now pattern)) /\
  working (flush_cache glob cache now (Some pattern)).2 /\
  forall later key,
    stored (flush_cache glob cache now (Some pattern)).2 later key
    = if glob pattern key && bool_decide (is_Some (stored cache now key))
      then None else stored cache later key.
Proof.
  intros (r & Hr & Hf) Hp. destruct pattern as [|c p]; [done|].
  destruct (flush_pattern_working cache r now c p Hr Hf) as (d' & -> & Hd').
  unfold matching, stored. rewrite Hr. cbn [fst snd with_redis redis mbind option_bind].
  split; [reflexivity|]. split; [by eexists|]. intros later key.
  unfold lookup_live. cbn [data]. rewrite Hd'.
  destruct (data r !! key) as [e|]; cbn [mbind option_bind].
  - destruct (glob (c :: p) key); cbn [andb]; [|reflexivity].
    destruct (live now e).
    + by rewrite bool_decide_eq_true_2 by eauto.
    + rewrite bool_decide_eq_false_2; [reflexivity|]. by intros [? ?].
  - rewrite bool_decide_eq_false_2 by (by intros [? ?]). by rewrite andb_false_r.
Qed.

End Flush.

(** *** The stages of the pipeline *)

Section Stages.
Context {rt : PyRuntime}.

Lemma detected_iff (patterns : list (list (list N) * list N)) (text : list N)
    (acc : list (list N)) (coin : list N) :
  coin ∈ fold_left
           (fun detected '(pattern, coin) =>
              if search_words pattern text then detected ++ [coin] else detected)
           patterns acc
  <-> coin ∈ acc \/
      exists aliases, (aliases, coin) ∈ patterns /\ search_words aliases text = true.
Proof.
  revert acc. induction patterns as [|[pattern symbol] patterns IH]; intros acc;
    cbn [fold_left].
  - split; [auto|]. intros [?|(aliases & Hin & _)]; [done|].
    by apply elem_of_nil in Hin.
  - rewrite IH. split.
    + intros [Hin|(aliases & Hin & Hs)].
      * destruct (search_words pattern text) eqn:Hs; [|auto].
        apply elem_of_app in Hin as [Hin|Hin]; [auto|].
        apply list_elem_of_singleton in Hin as ->. right. exists pattern.
        split; [left|exact Hs].
      * right. exists aliases. split; [by right|exact Hs].
    + intros [Hin|(aliases & Hin & Hs)].
      * left. destruct (search_words pattern text); [|exact Hin].
        apply elem_of_app. by left.
      * apply elem_of_cons in Hin as [[= -> ->]|Hin].
        -- left. rewrite Hs. apply elem_of_app. right. by apply list_elem_of_singleton.
        -- right. eauto.
Qed.

(** X11.  A symbol is among the detected coins exactly when one of the
    two aliases the pattern table lists for it stands as a whole word in
    the lower-cased text; nothing but the ten symbols of the table is ever
    detected. *)
Theorem detect_coins_characterised (text coin : list N) :
  (coin ∈ _detect_coins text <->
   exists aliases,
     (aliases, coin) ∈ crypto_patterns /\
     search_words aliases (str_lower text) = true) /\
  (coin ∈ _detect_coins text -> coin ∈ symbols).
Proof.
  split; [|apply detect_coins_symbols].
  unfold _detect_coins. rewrite elem_of_list_to_set, detected_iff.
  split; [|by right]. intros [Hin|H]; [|exact H]. by apply elem_of_nil in Hin.
Qed.

(** X12.  The generated summary opens with the first 80 characters of the
    title and is never longer than 121 characters, whatever the title, the
    verdict and the language. *)
Theorem generate_summary_shape (title : list N) (impact : ImpactType)
    (confidence : Z) (lang : list N) :
  take 80 title `prefix_of` _generate_summary title impact confidence lang /\
  (length (_generate_summary title impact confidence lang) <= 121)%nat.
Proof.
  unfold _generate_summary.
  assert (Hshort : exists rest,
    (if (80 <? length title)%nat then take 80 title ++ lit "..." else title)
    = take 80 title ++ rest /\ (length (take 80 title ++ rest) <= 83)%nat).
  { destruct (Nat.ltb_spec 80 (length title)) as [Hlong|Hfits].
    - exists (lit "..."). split; [reflexivity|].
      rewrite length_app, length_take. cbn [lit length list_ascii_of_string map]. lia.
    - exists []. rewrite app_nil_r, take_ge by lia. split; [reflexivity|lia]. }
  destruct Hshort as (rest & -> & Hlen).
  assert (Himpact : (length (ImpactType_value impact) <= 8)%nat).
  { destruct impact; cbn; lia. }
  assert (Hlabel : (length (confidence_text confidence) <= 6)%nat).
  { unfold confidence_text. destruct (75 <? confidence), (50 <? confidence); cbn; lia. }
  split.
  - destruct (decide (lang = lit "ar")); rewrite <- app_assoc; by eexists.
  - destruct (decide (lang = lit "ar")); rewrite !length_app;
      change (length (lit " - ")) with 3%nat;
      change (length arabic_impact) with 5%nat;
      change (length arabic_confidence) with 3%nat;
      change (length (lit " ")) with 1%nat;
      change (length (lit " (")) with 2%nat;
      change (length (lit ")")) with 1%nat;
      change (length (lit " impact (")) with 9%nat;
      change (length (lit " confidence)")) with 12%nat;
      rewrite length_app in Hlen; lia.
Qed.

Lemma findall_word_from_nonneg (pat : list N) (text : list N) (prev : option N)
    (skip : nat) :
  0 <= findall_word_from pat prev text skip.
Proof.
  revert prev skip. induction text as [|c text IH]; intros prev skip; cbn [findall_word_from].
  - lia.
  - destruct skip; [|apply IH].
    destruct (match_word_at re_ieq pat prev (c :: text)).
    + pose proof (IH (Some c) (length pat - 1)%nat). lia.
    + apply IH.
Qed.

Lemma lexicon_score_nonneg (lexicon : list (list N * Z)) (text : list N) :
  Forall (fun entry => 0 <= entry.2) lexicon -> 0 <= lexicon_score lexicon text.
Proof.
  induction 1 as [|[term weight] lexicon Hw _ IH]; cbn [lexicon_score foldr]; [lia|].
  cbn [snd] in Hw. fold (lexicon_score lexicon text).
  pose proof (findall_word_from_nonneg term text None 0) as Hn.
  unfold findall_word_count. nia.
Qed.

Lemma weights_nonneg :
  Forall (fun entry : list N * Z => 0 <= entry.2) positive_keywords /\
  Forall (fun entry : list N * Z => 0 <= entry.2) negative_keywords.
Proof.
  split; apply Forall_fmap, Forall_forall; intros [keyword weight] Hin; cbn;
    repeat (apply elem_of_cons in Hin as [[= -> ->]|Hin]; [lia|]);
    by apply elem_of_nil in Hin.
Qed.

Lemma keyword_scores_nonneg (text : list N) :
  0 <= keyword_score positive_keywords text /\
  0 <= keyword_score negative_keywords text.
Proof.
  rewrite !keyword_score_sum.
  split; apply lexicon_score_nonneg; apply weights_nonneg.
Qed.

(** X13.  A Neutral keyword draft has a confidence between 40 and 45,
    hence is always escalated; a Positive or Negative draft has one
    between 12 and 85; and a draft is spared the escalation only when it
    is not Neutral and the score of its side is at least 30. *)
Theorem neutral_draft_is_escalated (text : list N) :
  ((_keyword_analysis text).1 = NEUTRAL ->
   40 <= (_keyword_analysis text).2 <= 45 /\
   forall full_text, _needs_llm_analysis (_keyword_analysis text) full_text = true) /\
  ((_keyword_analysis text).1 ≠ NEUTRAL -> 12 <= (_keyword_analysis text).2 <= 85) /\
  (forall full_text,
     _needs_llm_analysis (_keyword_analysis text) full_text = false ->
     (_keyword_analysis text).1 ≠ NEUTRAL /\
     60 <= (_keyword_analysis text).2 /\
     30 <= Z.max (keyword_score positive_keywords text)
             (keyword_score negative_keywords text)).
Proof.
  destruct (keyword_scores_nonneg text) as [Hp Hn].
  unfold _keyword_analysis, _needs_llm_analysis.
  set (p := keyword_score positive_keywords text) in *.
  set (n := keyword_score negative_keywords text) in *.
  destruct (Z.ltb_spec n p), (Z.ltb_spec 5 p), (Z.ltb_spec p n), (Z.ltb_spec 5 n);
    cbn [andb fst snd]; (split; [|split]).
  all: try (intros Hi; discriminate Hi).
  all: try (intros Hi; exfalso; apply Hi; reflexivity).
  all: try (intros _; lia).
  all: try (intros _; split; [lia|]; intros full_text;
            match goal with
            | |- context [?c <? 60] => destruct (Z.ltb_spec c 60); [reflexivity|lia]
            end).
  all: intros full_text;
       match goal with
       | |- context [?c <? 60] => destruct (Z.ltb_spec c 60); [discriminate|]
       end;
       intros _; first [exfalso; lia | split; [discriminate|lia]].
Qed.

End Stages.

(** *** The verdicts of the pipeline *)

Section Verdicts.
Context {rt : PyRuntime}.
Variable world : World.

Lemma neutral_draft_confidence (text : list N) :
  (_keyword_analysis text).1 = NEUTRAL -> (_keyword_analysis text).2 <= 45.
Proof.
  destruct (keyword_scores_nonneg text) as [Hp Hn].
  unfold _keyword_analysis.
  set (p := keyword_score positive_keywords text) in *.
  set (n := keyword_score negative_keywords text) in *.
  destruct (Z.ltb_spec n p), (Z.ltb_spec 5 p), (Z.ltb_spec p n), (Z.ltb_spec 5 n);
    cbn [andb fst snd]; intros Hi; first [discriminate Hi | lia].
Qed.

Lemma neutral_keyword_draft (title summary : list N) :
  (keyword_draft title summary).1 = NEUTRAL -> (keyword_draft title summary).2 <= 45.
Proof. unfold keyword_draft. apply neutral_draft_confidence. Qed.

Lemma spared_draft (impact : ImpactType) (raw : Z) (text : list N) :
  _needs_llm_analysis (impact, raw) text = false -> 60 <= raw.
Proof.
  unfold _needs_llm_analysis. destruct (Z.ltb_spec raw 60); [discriminate|done].
Qed.

(** X14.  Whatever the completion endpoint does, the analysis of a
    textual item returns a verdict; its coins are exactly the coins
    detected in title and summary (the endpoint never contributes any),
    its language is the detected one, its confidence lies within 0..100,
    its flag is set, it carries no error, and each of its coins is a name
    the validator of the response leaves as it is: not empty and in upper
    case. *)
Theorem every_verdict_is_well_formed (title summary item_id : list N) :
  exists r,
    _analyze_news_item world (PStr title) (PStr summary) item_id = inr r /\
    affected_coins r = _detect_coins (title ++ summary) /\
    response_models.lang r = detected_lang title summary /\
    0 <= confidence r <= 100 /\
    (exists flag, low_confidence r = Some flag) /\
    error r = None /\
    (forall coin, coin ∈ affected_coins r -> coin ≠ [] /\ str_upper coin = coin).
Proof.
  destruct (analyze_text_total world title summary item_id) as [r Hr].
  exists r. split; [exact Hr|].
  pose proof (proj2 (analysis_valid world _ _ _ _ Hr)) as Hback.
  rewrite analyze_text in Hr.
  assert (Hkeyword :
    keyword_verdict title (keyword_draft title summary)
      (_detect_coins (title ++ summary)) (detected_lang title summary) = inr r ->
    affected_coins r = _detect_coins (title ++ summary) /\
    response_models.lang r = detected_lang title summary /\
    0 <= confidence r <= 100 /\
    (exists flag, low_confidence r = Some flag) /\
    error r = None /\
    (forall coin, coin ∈ affected_coins r -> coin ≠ [] /\ str_upper coin = coin)).
  { pose proof (keyword_draft_range title summary) as Hrange.
    destruct (keyword_draft title summary) as [impact raw]. cbn [fst snd] in Hrange.
    rewrite keyword_verdict_value by lia. intros [= E]. rewrite <- E in *.
    cbn [affected_coins response_models.lang confidence low_confidence error].
    split; [reflexivity|]. split; [reflexivity|]. split; [lia|].
    split; [by eexists|]. split; [reflexivity|exact Hback]. }
  destruct (_needs_llm_analysis _ _); [|by rewrite bind_ret in Hr; apply Hkeyword].
  destruct (_llm_analysis world (PStr title) (PStr summary) (detected_lang title summary)
              item_id) as [e|[llm|]] eqn:E.
  - change (try_except (inl e) _) with (ret (@None NewsAnalysisResponse)) in Hr.
    rewrite bind_ret in Hr. by apply Hkeyword.
  - change (try_except (inr (Some llm)) _) with (ret (Some llm)) in Hr.
    rewrite bind_ret in Hr. injection Hr as Hr.
    apply llm_analysis_Some in E as [response E].
    apply parsed_verdict in E as (Hc & Hflag & Hcoins & Hlang & Herror).
    rewrite <- Hr in *.
    cbn [set_affected_coins affected_coins response_models.lang confidence
         low_confidence error].
    split; [case_decide as Hnone; [|reflexivity]; by rewrite Hcoins, Hnone|].
    split; [exact Hlang|]. split; [lia|]. split; [by eexists|].
    split; [exact Herror|exact Hback].
  - change (try_except (inr None) _) with (ret (@None NewsAnalysisResponse)) in Hr.
    rewrite bind_ret in Hr. by apply Hkeyword.
Qed.

(** X15.  An item whose draft is not escalated is settled without the
    completion endpoint: its verdict is the same in every world and under
    every item id; it is never Neutral, its confidence lies within 60..75
    and it is not flagged. *)
Theorem unescalated_item_ignores_the_endpoint (world' : World)
    (title summary item_id item_id' : list N) :
  _needs_llm_analysis (keyword_draft title summary)
    (str_lower (title ++ lit " " ++ summary)) = false ->
  exists r,
    _analyze_news_item world (PStr title) (PStr summary) item_id = inr r /\
    _analyze_news_item world' (PStr title) (PStr summary) item_id' = inr r /\
    impact r = (keyword_draft title summary).1 /\
    impact r ≠ NEUTRAL /\
    60 <= confidence r <= 75 /\
    low_confidence r = Some false.
Proof.
  intros Hspared. rewrite !analyze_text, Hspared, !bind_ret.
  pose proof (neutral_keyword_draft title summary) as Hneutral.
  destruct (keyword_draft title summary) as [impact raw]. cbn [fst snd] in *.
  apply spared_draft in Hspared.
  rewrite keyword_verdict_value by lia. eexists. split; [reflexivity|].
  split; [reflexivity|]. cbn [response_models.impact confidence low_confidence].
  split; [reflexivity|]. split; [intros ->; specialize (Hneutral eq_refl); lia|]. split; [lia|].
  by rewrite bool_decide_eq_false_2 by lia.
Qed.

End Verdicts.

(** *** Single items through the cache, batches past it *)

Section Coordination.
Context {rt : PyRuntime}.
Variable world : World.

Lemma analyze_single_miss (w : World) (cache : CacheManager) (now later : Z)
    (title summary request_id : list N) :
  (get cache now (news_key title summary)).1 = None ->
  (analyze_single w cache now later (PStr title) (PStr summary) request_id).1
  = _analyze_news_item w (PStr title) (PStr summary) request_id.
Proof.
  unfold news_key. intros Hget. unfold analyze_single. rewrite cache_key_text.
  destruct (get cache now _) as [cached cache']. cbn [fst] in Hget. subst cached.
  destruct (_analyze_news_item w (PStr title) (PStr summary) request_id) as [e|r];
    [reflexivity|].
  by destruct (set cache' later _ _ _).
Qed.

(** X16.  Over a working store that holds nothing for the item, the
    single-item analysis returns the verdict of the pipeline and caches
    its [dict] for 43200 seconds from the time of the write: the entry is
    there at every time before, and any analysis of the same item made
    from then on computes its verdict afresh. *)
Theorem cached_verdict_expires (world' : World) (cache : CacheManager)
    (now1 later1 : Z) (title summary request_id : list N) :
  working cache -> stored cache now1 (news_key title summary) = None ->
  exists v cache1,
    analyze_single world cache now1 later1 (PStr title) (PStr summary) request_id
    = (inr v, cache1) /\
    _analyze_news_item world (PStr title) (PStr summary) request_id = inr v /\
    working cache1 /\
    (forall t,
       stored cache1 t (news_key title summary)
       = if t <? later1 + 43200 then Some (RJson (NewsAnalysisResponse_dict v)) else None) /\
    (forall now2 later2 request_id',
       later1 + 43200 <= now2 ->
       (analyze_single world' cache1 now2 later2 (PStr title) (PStr summary) request_id').1
       = _analyze_news_item world' (PStr title) (PStr summary) request_id').
Proof.
  intros (r & Hr & Hf) Hnone. unfold stored in Hnone. rewrite Hr in Hnone.
  cbn [mbind option_bind] in Hnone.
  destruct (analyze_text_total world title summary request_id) as [v Hv].
  exists v. eexists. split.
  { unfold analyze_single. rewrite cache_key_text. fold (news_key title summary).
    rewrite (get_working cache r now1 _ Hr Hf), Hnone. cbn [stored_truthy].
    rewrite Hv.
    rewrite (set_working (counted cache false) r later1 _ _ 43200 Hr Hf), dumped_dict.
    reflexivity. }
  split; [exact Hv|]. split; [by eexists|]. split.
  - intros t. unfold stored. cbn [redis mbind option_bind]. apply lookup_live_insert.
  - intros now2 later2 request_id' Hlate. apply analyze_single_miss.
    erewrite get_value_working; [|reflexivity|reflexivity].
    rewrite lookup_live_insert, (proj2 (Z.ltb_ge now2 (later1 + 43200))) by lia.
    reflexivity.
Qed.

(** X17.  A batch of dicts is answered entry by entry, in order: an item
    whose title and summary are text gets the [dict] of its verdict, and
    an item of which one is not text gets the placeholder, without any
    effect on the other entries. *)
Theorem batch_answers_item_by_item (items : list (list (list N * pyval))) (request_id : list N) :
  exists results,
    analyze_batch world (PDict <$> items) request_id = inr results /\
    length results = length items /\
    forall (i : nat) d, items !! i = Some d ->
      (forall title summary,
         dict_get d (lit "title") (PStr []) = PStr title ->
         dict_get d (lit "summary") (PStr []) = PStr summary ->
         exists r,
           _analyze_news_item world (PStr title) (PStr summary)
             (request_id ++ lit "_item_" ++ str_of_Z (Z.of_nat i)) = inr r /\
           results !! i = Some (NewsAnalysisResponse_dict r)) /\
      ((forall title, dict_get d (lit "title") (PStr []) ≠ PStr title) \/
       (forall summary, dict_get d (lit "summary") (PStr []) ≠ PStr summary) ->
       exists e, results !! i = Some (failed_verdict e)).
Proof.
  destruct (analyze_batch_isolates_failures world items request_id)
    as (results & Hbatch & Hlen & Hat).
  exists results. split; [exact Hbatch|]. split; [exact Hlen|].
  intros i d Hd. rewrite (Hat i d Hd). unfold item_verdict. split.
  - intros title summary -> ->.
    destruct (analyze_text_total world title summary
                (request_id ++ lit "_item_" ++ str_of_Z (Z.of_nat i))) as [r Hr].
    exists r. by rewrite Hr.
  - intros Hbad.
    destruct (_analyze_news_item world _ _ _) as [e|r] eqn:Hr; [by exists e|].
    apply analysis_inputs in Hr as (t & s & Ht & Hs).
    destruct Hbad as [Hbad|Hbad]; [by destruct (Hbad t)|by destruct (Hbad s)].
Qed.

End Coordination.

(** *** The JSON-RPC endpoint and its guard *)

Section Endpoints.
Context {rt : PyRuntime}.
Variable world : World.

(** X18.  A JSON-RPC request whose arguments hold a [news] key is
    answered without the cache: the reply is the same whatever the cache
    holds and whatever the time, and the cache manager is left as it
    was.  Batch items are neither served from the cache nor written to
    it. *)
Theorem batch_requests_bypass_the_cache (request : MCPRequest) (request_id : list N) :
  has_news (dict_get (params request) (lit "arguments") (PDict [])) = inr true ->
  exists answer,
    forall cache now later,
      mcp_endpoint world cache now later request request_id = (answer, cache).
Proof.
  intros Hnews. unfold mcp_endpoint, mcp_body. rewrite Hnews.
  destruct (decide (method request = lit "tools/call")) as [_|_].
  - destruct (is_text (dict_get (params request) (lit "name") PNone) "news_analysis").
    + destruct (subscript_key (dict_get (params request) (lit "arguments") (PDict []))
                  (lit "news")) as [e|news_items]; [by eexists|].
      destruct (negb (truthy news_items) || negb (is_list news_items)); [by eexists|].
      destruct (analyze_batch world (items_of news_items) request_id) as [e|results];
        by eexists.
    + by eexists.
  - destruct (decide (method request = lit "tools/list")); by eexists.
Qed.

(** X19.  In single mode (a [tools/call] of [news_analysis] whose
    arguments are a dict without a [news] key) a missing or empty title
    or summary is refused with status 400 before the cache or the
    pipeline is touched; a request with a title and a summary of text,
    both non-empty, whose cache lookup misses is answered with the [dict]
    of the verdict of the pipeline. *)
Theorem single_request_contract (cache : CacheManager) (now later : Z)
    (request : MCPRequest) (request_id : list N) (d : list (list N * pyval)) :
  method request = lit "tools/call" ->
  dict_lookup (lit "name") (params request) = Some (PStr (lit "news_analysis")) ->
  dict_lookup (lit "arguments") (params request) = Some (PDict d) ->
  dict_lookup (lit "news") d = None ->
  (truthy (dict_get d (lit "title") (PStr [])) = false \/
   truthy (dict_get d (lit "summary") (PStr [])) = false ->
   mcp_endpoint world cache now later request request_id
   = (HTTPException 400 (lit "Both 'title' and 'summary' required"), cache)) /\
  (forall title summary,
     dict_get d (lit "title") (PStr []) = PStr title -> title ≠ [] ->
     dict_get d (lit "summary") (PStr []) = PStr summary -> summary ≠ [] ->
     (get cache now (news_key title summary)).1 = None ->
     exists r,
       _analyze_news_item world (PStr title) (PStr summary) request_id = inr r /\
       (mcp_endpoint world cache now later request request_id).1
       = MCPResponse (id request) (Some (NewsAnalysisResponse_dict r)) None).
Proof.
  intros Hmethod Hname Harguments Hnews.
  unfold mcp_endpoint, mcp_body. rewrite decide_True by exact Hmethod.
  assert (dict_get (params request) (lit "name") PNone = PStr (lit "news_analysis"))
    as -> by (unfold dict_get; by rewrite Hname).
  assert (dict_get (params request) (lit "arguments") (PDict []) = PDict d)
    as -> by (unfold dict_get; by rewrite Harguments).
  change (is_text (PStr (lit "news_analysis")) "news_analysis") with true.
  cbv iota. unfold has_news. rewrite Hnews.
  rewrite bool_decide_eq_false_2 by (by intros [? ?]).
  unfold py_get. rewrite !bind_ret. unfold ret. cbv iota beta. split.
  - intros Hfalsy.
    assert (negb (truthy (dict_get d (lit "title") (PStr []))) ||
            negb (truthy (dict_get d (lit "summary") (PStr []))) = true) as ->.
    { destruct Hfalsy as [-> | ->]; [reflexivity|apply orb_true_r]. }
    reflexivity.
  - intros title summary -> Ht -> Hs Hmiss.
    destruct (analyze_text_total world title summary request_id) as [r Hr].
    exists r. split; [exact Hr|].
    assert (negb (truthy (PStr title)) || negb (truthy (PStr summary)) = false) as ->.
    { destruct title, summary; done. }
    pose proof (analyze_single_miss world cache now later title summary request_id Hmiss)
      as Hfirst.
    destruct (analyze_single world cache now later (PStr title) (PStr summary) request_id)
      as [outcome cache']. cbn [fst] in Hfirst. subst outcome. rewrite Hr.
    reflexivity.
Qed.

End Endpoints.

Section Guard.

(** The first piece of a split: it ends at the first separator. *)
Lemma split_from_first (sep : N) (s piece : list N) :
  exists before after pieces,
    split_from sep piece s = (piece ++ before) :: pieces /\
    s = before ++ after /\ (sep ∉ before) /\
    (after = [] \/ exists after', after = sep :: after').
Proof.
  revert piece. induction s as [|c s IH]; intros piece; cbn [split_from].
  - exists [], [], []. rewrite app_nil_r. repeat split; [apply not_elem_of_nil|by left].
  - destruct (N.eqb_spec c sep) as [->|Hne].
    + exists [], (sep :: s), (split_from sep [] s). rewrite app_nil_r.
      repeat split; [apply not_elem_of_nil|right; by eexists].
    + destruct (IH (piece ++ [c])) as (before & after & pieces & Hsplit & -> & Hno & Hafter).
      exists (c :: before), after, pieces. rewrite Hsplit, <- app_assoc.
      repeat split; [|exact Hafter]. rewrite not_elem_of_cons. split; [congruence|exact Hno].
Qed.

Lemma first_piece_unique (sep : N) (before before' after after' : list N) :
  before ++ after = before' ++ after' ->
  sep ∉ before -> sep ∉ before' ->
  (after = [] \/ exists rest, after = sep :: rest) ->
  (after' = [] \/ exists rest, after' = sep :: rest) ->
  before = before'.
Proof.
  revert before'. induction before as [|c before IH]; intros [|c' before'] Heq Hno Hno' Ha Ha'.
  - reflexivity.
  - cbn in Heq. destruct Ha as [->|[rest ->]]; [discriminate|].
    injection Heq as <- _. destruct Hno'. left.
  - cbn in Heq. destruct Ha' as [->|[rest ->]]; [discriminate|].
    injection Heq as -> _. destruct Hno. left.
  - cbn in Heq. injection Heq as -> Heq. f_equal.
    apply not_elem_of_cons in Hno as [_ Hno]. apply not_elem_of_cons in Hno' as [_ Hno'].
    by apply IH.
Qed.

Lemma bearer_token (s : list N) :
  exists token after,
    str_split 32 (lit "Bearer " ++ s) !! 1%nat = Some token /\
    s = token ++ after /\ (32%N ∉ token) /\
    (after = [] \/ exists after', after = 32%N :: after').
Proof.
  destruct (split_from_first 32 s []) as (before & after & pieces & Hsplit & Hs & Hno & Hafter).
  exists before, after. split; [|done].
  change (str_split 32 (lit "Bearer " ++ s) !! 1%nat)
    with (split_from 32 [] s !! 0%nat).
  by rewrite Hsplit.
Qed.

(** X20.  With a token configured, a request passes the guard exactly
    when its header is [Bearer], one space, the token, and then nothing or
    a space followed by anything; a configured token that holds a space
    therefore lets no request pass.  Every refusal has status 401, and
    without a configured token every request passes. *)
Theorem verify_token_contract (token : list N) (authorization : option (list N)) :
  token ≠ [] ->
  (verify_token (Some token) authorization = inr true <->
   (32%N ∉ token) /\
   exists rest,
     authorization = Some (lit "Bearer " ++ token ++ rest) /\
     (rest = [] \/ exists rest', rest = 32%N :: rest')) /\
  (verify_token (Some token) authorization = inr true \/
   exists detail, verify_token (Some token) authorization = inl (HTTPException 401 detail)) /\
  verify_token None authorization = inr true /\
  verify_token (Some []) authorization = inr true.
Proof.
  intros Htoken. split; [|split; [|by split]].
  - unfold verify_token. destruct token as [|c token]; [done|].
    destruct authorization as [[|a header]|].
    + split; [discriminate|]. intros (_ & rest & [=] & _).
    + destruct (starts_with (lit "Bearer ") (a :: header)) eqn:Hstart; cbn [negb].
      * apply starts_with_spec in Hstart as [s Hs]. rewrite Hs.
        destruct (bearer_token s) as (found & after & -> & -> & Hno & Hafter).
        case_decide as Heq.
        -- split; [intros _|done]. subst found. split; [exact Hno|]. by exists after.
        -- split; [discriminate|]. intros (Hno' & rest & [= Hrest] & Hrest').
           destruct Heq.
           by apply (first_piece_unique 32 found (c :: token) after rest).
      * split; [discriminate|]. intros (_ & rest & Hrest & _).
        assert (a :: header = lit "Bearer " ++ (c :: token) ++ rest) as Hheader
          by congruence.
        assert (starts_with (lit "Bearer ") (a :: header) = true) as Hyes; [|congruence].
        apply starts_with_spec. rewrite Hheader. by eexists.
    + split; [discriminate|]. intros (_ & rest & [=] & _).
  - unfold verify_token. destruct token as [|c token]; [done|].
    destruct authorization as [[|a header]|]; [right; by eexists| |right; by eexists].
    destruct (starts_with (lit "Bearer ") (a :: header)) eqn:Hstart; cbn [negb];
      [|right; by eexists].
    apply starts_with_spec in Hstart as [s Hs]. rewrite Hs.
    destruct (bearer_token s) as (found & after & -> & _).
    case_decide; [by left|right; by eexists].
Qed.

End Guard.

(** *** The request and response models *)

Section Models.
Context {rt : PyRuntime}.

Lemma NewsItem_parse_bounds (v : pyval) (item : NewsItem) :
  NewsItem_parse v = Some item ->
  (1 <= length (ni_title item) <= 500)%nat /\
  (1 <= length (ni_summary item) <= 2000)%nat.
Proof.
  unfold NewsItem_parse. destruct v as [| | | | |l|d|]; try discriminate.
  destruct (required str_validator d "title") as [t|]; [|discriminate].
  cbn [mbind option_bind]. case_guard as Ht; [|discriminate]. cbn [mbind option_bind].
  destruct (required str_validator d "summary") as [s|]; [|discriminate].
  cbn [mbind option_bind]. case_guard as Hs; [|discriminate]. cbn [mbind option_bind].
  intros [= <-]. by split.
Qed.

(** X21.  A body that [BatchNewsRequest] accepts holds between 1 and 50
    items, as many as the list it was given, each with a title of 1 to 500
    characters and a summary of 1 to 2000 characters. *)
Theorem accepted_batch_bounds (body : pyval) (news : list NewsItem) :
  BatchNewsRequest_parse body = Some news ->
  (1 <= length news <= 50)%nat /\
  (exists d l, body = PDict d /\ dict_lookup (lit "news") d = Some (PList l) /\
               length l = length news) /\
  Forall (fun item => (1 <= length (ni_title item) <= 500)%nat /\
                      (1 <= length (ni_summary item) <= 2000)%nat) news.
Proof.
  unfold BatchNewsRequest_parse. destruct body as [| | | | |l|d|]; try discriminate.
  destruct (dict_lookup (lit "news") d) as [[| | | | |l|d'|]|] eqn:Hnews; try discriminate.
  case_guard as Hlen; [|discriminate]. cbn [mbind option_bind]. intros Hitems.
  apply mapM_Some in Hitems. pose proof (Forall2_length _ _ _ Hitems) as Hsame.
  split; [lia|]. split; [by exists d, l|].
  clear Hnews Hlen Hsame. induction Hitems as [|v item l news Hitem _ IH]; constructor.
  - by apply NewsItem_parse_bounds with v.
  - exact IH.
Qed.

Lemma ascii_upper_ascii (c : N) : is_ascii c = true -> is_ascii (ascii_upper c) = true.
Proof.
  unfold is_ascii, ascii_upper. intros Hc%N.ltb_lt.
  destruct (N.leb_spec 97 c), (N.leb_spec c 122); cbn [andb]; apply N.ltb_lt; lia.
Qed.

Lemma ascii_upper_twice (c : N) : ascii_upper (ascii_upper c) = ascii_upper c.
Proof.
  unfold ascii_upper.
  destruct (N.leb_spec 97 c), (N.leb_spec c 122); cbn [andb];
  repeat match goal with
         | |- context [(?a <=? ?b)%N] => destruct (N.leb_spec a b); cbn [andb]
         end; lia.
Qed.

Lemma str_upper_ascii (s : list N) :
  forallb is_ascii s = true ->
  str_upper s = map ascii_upper s /\
  forallb is_ascii (map ascii_upper s) = true /\
  str_upper (map ascii_upper s) = map ascii_upper s.
Proof.
  intros Hs. assert (Hup : forallb is_ascii (map ascii_upper s) = true).
  { rewrite forallb_forall in *. intros c Hin. apply in_map_iff in Hin as (c0 & <- & Hin).
    by apply ascii_upper_ascii, Hs. }
  unfold str_upper. rewrite Hs, Hup. repeat split.
  rewrite map_map. apply map_ext. intros c. apply ascii_upper_twice.
Qed.

(** X22.  On names made of Basic Latin characters, [validate_coins]
    yields exactly the upper-cased non-empty names; no name of the result
    is empty, every one is its own upper case, and validating the result
    again changes nothing. *)
Theorem validate_coins_ascii (v : list (list N)) :
  Forall (fun coin => forallb is_ascii coin = true) v ->
  (forall coin,
     coin ∈ validate_coins v <->
     exists name, name ∈ v /\ name ≠ [] /\ coin = map ascii_upper name) /\
  (forall coin, coin ∈ validate_coins v -> coin ≠ [] /\ str_upper coin = coin) /\
  validate_coins (elements (validate_coins v)) = validate_coins v.
Proof.
  intros Hascii.
  assert (Hin : forall coin,
    coin ∈ validate_coins v <->
    exists name, name ∈ v /\ name ≠ [] /\ coin = map ascii_upper name).
  { intros coin. unfold validate_coins.
    rewrite elem_of_list_to_set, list_elem_of_fmap. split.
    - intros (name & -> & Hname). apply list_elem_of_filter in Hname as [Hne Hname].
      exists name. repeat split; [exact Hname|exact Hne|].
      apply str_upper_ascii. by apply (proj1 (Forall_forall _ _) Hascii).
    - intros (name & Hname & Hne & ->). exists name. split.
      + symmetry. apply str_upper_ascii. by apply (proj1 (Forall_forall _ _) Hascii).
      + by apply list_elem_of_filter. }
  assert (Hclean : forall coin,
    coin ∈ validate_coins v -> coin ≠ [] /\ str_upper coin = coin).
  { intros coin (name & Hname & Hne & ->)%Hin. split.
    - by destruct name.
    - apply str_upper_ascii. by apply (proj1 (Forall_forall _ _) Hascii). }
  split; [exact Hin|]. split; [exact Hclean|].
  by apply validate_coins_fixed.
Qed.

End Models.

(** *** The webhook manager *)

Section Webhook.
Context {rt : PyRuntime}.
Variable post : option (list N) -> list (list N * list N) -> pyval -> post_outcome.

Lemma lower_impact (i : ImpactType) :
  str_lower (ImpactType_value i)
  = match i with
    | POSITIVE => lit "positive"
    | NEGATIVE => lit "negative"
    | NEUTRAL => lit "neutral"
    end.
Proof. by destruct i. Qed.

Lemma increment_stats (p n u h l e : Z) :
  increment (lit "positive") (stats_of p n u h l e) = stats_of (p + 1) n u h l e /\
  increment (lit "negative") (stats_of p n u h l e) = stats_of p (n + 1) u h l e /\
  increment (lit "neutral") (stats_of p n u h l e) = stats_of p n (u + 1) h l e /\
  increment (lit "high_confidence") (stats_of p n u h l e) = stats_of p n u (h + 1) l e /\
  increment (lit "low_confidence") (stats_of p n u h l e) = stats_of p n u h (l + 1) e /\
  increment (lit "errors") (stats_of p n u h l e) = stats_of p n u h l (e + 1).
Proof. repeat split. Qed.

Lemma count_fields (d : list (list N * pyval)) (i : ImpactType) (c : Z)
    (err : pyval) (p n u h l e : Z) :
  dict_get d (lit "impact") (PStr (lit "Neutral")) = PStr (ImpactType_value i) ->
  dict_get d (lit "confidence") (PInt 0) = PInt c ->
  dict_get d (lit "error") PNone = err ->
  count_result (stats_of p n u h l e) (PDict d)
  = inr (stats_of
           (p + match i with POSITIVE => 1 | _ => 0 end)
           (n + match i with NEGATIVE => 1 | _ => 0 end)
           (u + match i with NEUTRAL => 1 | _ => 0 end)
           (h + if 75 <? c then 1 else 0)
           (l + if 75 <? c then 0 else 1)
           (e + if truthy err then 1 else 0)).
Proof.
  intros Hi Hc He. unfold count_result, py_get. rewrite !bind_ret, Hi, Hc, He.
  unfold lower_method, above_75. rewrite !bind_ret, lower_impact.
  assert (Hknown : forall key,
    key ∈ [lit "positive"; lit "negative"; lit "neutral"] ->
    bool_decide (key ∈ (stats_of p n u h l e).*1) = true).
  { intros key Hkey. apply bool_decide_eq_true_2. cbn [stats_of fmap list_fmap fst].
    repeat (apply elem_of_cons in Hkey as [->|Hkey]; [repeat constructor|]).
    by apply elem_of_nil in Hkey. }
  rewrite Hknown by (destruct i; repeat constructor).
  unfold ret. f_equal.
  assert (Himpact :
    increment match i with
              | POSITIVE => lit "positive"
              | NEGATIVE => lit "negative"
              | NEUTRAL => lit "neutral"
              end (stats_of p n u h l e)
    = stats_of (p + match i with POSITIVE => 1 | _ => 0 end)
        (n + match i with NEGATIVE => 1 | _ => 0 end)
        (u + match i with NEUTRAL => 1 | _ => 0 end) h l e).
  { destruct i.
    - rewrite (proj1 (increment_stats p n u h l e)). f_equal; lia.
    - rewrite (proj1 (proj2 (increment_stats p n u h l e))). f_equal; lia.
    - rewrite (proj1 (proj2 (proj2 (increment_stats p n u h l e)))). f_equal; lia. }
  rewrite Himpact.
  set (p' := p + _). set (n' := n + _). set (u' := u + _).
  destruct (increment_stats p' n' u' h l e) as (_ & _ & _ & Hh & Hl & _).
  destruct (75 <? c); [rewrite Hh|rewrite Hl].
  - destruct (increment_stats p' n' u' (h + 1) l e) as (_ & _ & _ & _ & _ & He').
    destruct (truthy err); [rewrite He'|]; f_equal; lia.
  - destruct (increment_stats p' n' u' h (l + 1) e) as (_ & _ & _ & _ & _ & He').
    destruct (truthy err); [rewrite He'|]; f_equal; lia.
Qed.

Lemma count_entry (o : outcome) (p n u h l e : Z) :
  count_result (stats_of p n u h l e) (entry_of o)
  = inr (stats_of
           (p + if has_impact POSITIVE o then 1 else 0)
           (n + if has_impact NEGATIVE o then 1 else 0)
           (u + if has_impact NEUTRAL o then 1 else 0)
           (h + if is_high o then 1 else 0)
           (l + if is_low o then 1 else 0)
           (e + if has_error o then 1 else 0)).
Proof.
  destruct o as [[i c coins s lg lc er]|ex].
  - unfold entry_of, NewsAnalysisResponse_dict.
    cbn [response_models.impact confidence affected_coins summary lang
         low_confidence error].
    erewrite (count_fields _ i c (py_option PStr er));
      [|unfold dict_get; lookup_keys; reflexivity..].
    unfold has_impact, is_low, is_high, has_error.
    cbn [response_of response_models.impact confidence error].
    f_equal. unfold stats_of.
    destruct i, (75 <? c), er as [[|x msg]|]; reflexivity.
  - unfold entry_of, failed_verdict.
    erewrite (count_fields _ NEUTRAL 0 (PStr (exn_str ex)));
      [|unfold dict_get; lookup_keys; reflexivity..].
    unfold has_impact, is_low, is_high, has_error.
    cbn [response_of response_models.impact confidence error].
    f_equal. unfold stats_of. by destruct (exn_str ex).
Qed.

Lemma tally_cons (kind : outcome -> bool) (o : outcome) (os : list outcome) :
  tally kind (o :: os) = (if kind o then 1 else 0) + tally kind os.
Proof. unfold tally. cbn [List.filter]. destruct (kind o); cbn [length]; lia. Qed.

Lemma count_entries (os : list outcome) (p n u h l e : Z) :
  count_results (stats_of p n u h l e) (entry_of <$> os)
  = inr (stats_of
           (p + tally (has_impact POSITIVE) os)
           (n + tally (has_impact NEGATIVE) os)
           (u + tally (has_impact NEUTRAL) os)
           (h + tally is_high os)
           (l + tally is_low os)
           (e + tally has_error os)).
Proof.
  revert p n u h l e. induction os as [|o os IH]; intros p n u h l e.
  - cbn [fmap list_fmap count_results]. unfold ret, tally. cbn [List.filter length].
    f_equal. f_equal; lia.
  - cbn [fmap list_fmap count_results]. rewrite count_entry, bind_inr, IH, !tally_cons.
    f_equal. f_equal; lia.
Qed.

Lemma tally_split (os : list outcome) :
  tally (has_impact POSITIVE) os + tally (has_impact NEGATIVE) os
  + tally (has_impact NEUTRAL) os = Z.of_nat (length os) /\
  tally is_high os + tally is_low os = Z.of_nat (length os) /\
  0 <= tally has_error os <= Z.of_nat (length os).
Proof.
  induction os as [|o os (IH1 & IH2 & IH3)]; [by cbn|].
  rewrite !tally_cons. cbn [length].
  assert ((if has_impact POSITIVE o then 1 else 0) + (if has_impact NEGATIVE o then 1 else 0)
          + (if has_impact NEUTRAL o then 1 else 0) = 1) as Himpact.
  { unfold has_impact. by destruct (response_models.impact (response_of o)). }
  assert ((if is_high o then 1 else 0) + (if is_low o then 1 else 0) = 1) as Hclass.
  { unfold is_low. by destruct (is_high o). }
  assert (0 <= (if has_error o then 1 else 0) <= 1) as Herror.
  { destruct (has_error o); lia. }
  lia.
Qed.

Lemma summary_stats_of_entries (os : list outcome) :
  _generate_summary_stats (entry_of <$> os) = inr (summary_of os).
Proof.
  unfold _generate_summary_stats, summary_of.
  change no_stats with (stats_of 0 0 0 0 0 0). by rewrite count_entries.
Qed.

(** X23.  For a batch result (verdicts as dicts, placeholders for failed
    items) the summary statistics are the six counts one expects: the
    entries of each impact, a placeholder counting as Neutral; the entries
    whose confidence exceeds 75 and the others; the entries with a
    non-empty error.  The impacts add up to the number of entries, and so
    do the two confidence classes. *)
Theorem summary_stats_count (os : list outcome) :
  _generate_summary_stats (entry_of <$> os) = inr (summary_of os) /\
  tally (has_impact POSITIVE) os + tally (has_impact NEGATIVE) os
  + tally (has_impact NEUTRAL) os = Z.of_nat (length os) /\
  tally is_high os + tally is_low os = Z.of_nat (length os) /\
  0 <= tally has_error os <= Z.of_nat (length os).
Proof.
  split; [apply summary_stats_of_entries|apply tally_split].
Qed.

Lemma placeholder_is_valid (e : exn) :
  response_validator (failed_verdict e) = Some (response_of (Failed e)).
Proof.
  unfold response_validator, failed_verdict, NewsAnalysisResponse_init, required,
    with_default.
  lookup_keys. cbn [mbind option_bind].
  change (ImpactType_of (PStr (lit "Neutral"))) with (Some NEUTRAL).
  cbn [mbind option_bind int_validator]. case_guard; [|lia].
  reflexivity.
Qed.

Lemma entry_is_valid (o : outcome) :
  sound o -> response_validator (entry_of o) = Some (response_of o).
Proof.
  destruct o as [r|e]; [|intros _; apply placeholder_is_valid].
  intros Hvalid. pose proof (from_cached_dict r Hvalid) as Hback.
  unfold from_cached, NewsAnalysisResponse_dict in Hback.
  unfold entry_of, response_validator, NewsAnalysisResponse_dict. by rewrite Hback.
Qed.

Lemma entries_are_valid (os : list outcome) :
  Forall sound os -> mapM response_validator (entry_of <$> os) = Some (response_of <$> os).
Proof.
  intros Hsound. apply mapM_Some, Forall2_fmap, Forall_Forall2_diag.
  eapply Forall_impl; [exact Hsound|]. apply entry_is_valid.
Qed.

Lemma send_sound_outcomes (self : WebhookManager) (os : list outcome)
    (request_id timestamp : list N) :
  Forall sound os ->
  send_batch_results post self (entry_of <$> os) request_id timestamp
  = if enabled self
    then delivered (post (webhook_url self) (headers self)
                      (payload_of request_id timestamp os))
    else true.
Proof.
  intros Hsound. unfold send_batch_results.
  destruct (enabled self); [|reflexivity]. cbn [negb].
  rewrite summary_stats_of_entries, bind_inr. unfold WebhookPayload_init.
  rewrite (entries_are_valid os Hsound), bind_ret, length_fmap.
  unfold _send_webhook. fold (payload_of request_id timestamp os).
  by destruct (post _ _ _).
Qed.

Section Batch.
Variable world : World.

(** The outcomes behind the result of a batch of dicts. *)
Lemma batch_outcomes (items : list (list (list N * pyval))) (request_id : list N)
    (results : list pyval) :
  analyze_batch world (PDict <$> items) request_id = inr results ->
  exists os,
    results = entry_of <$> os /\ length os = length items /\ Forall sound os.
Proof.
  rewrite analyze_batch_of_dicts. intros [= <-].
  exists (map (fun '(i, d) =>
                 match _analyze_news_item world
                         (dict_get d (lit "title") (PStr []))
                         (dict_get d (lit "summary") (PStr []))
                         (request_id ++ lit "_item_" ++ str_of_Z i) with
                 | inl e => Failed e
                 | inr r => Verdict r
                 end) (enumerate_from 0 items)).
  split; [|split].
  - change (map ?f ?l) with (f <$> l). rewrite <- list_fmap_compose.
    apply list_fmap_ext. intros k [i d] _. cbn [compose]. unfold item_verdict.
    by destruct (_analyze_news_item world _ _ _).
  - by rewrite length_map, enumerate_from_length.
  - apply Forall_forall. intros o Hin. apply list_elem_of_fmap in Hin as ([i d] & -> & _).
    destruct (_analyze_news_item world _ _ _) as [e|r] eqn:Hr; [exact I|].
    cbn [sound]. by apply analysis_valid in Hr.
Qed.

(** X24.  The result of a batch of dicts always passes the validation of
    the webhook payload, placeholders included: with notifications
    enabled exactly one request is built, carrying the number of items,
    the validated entries and the summary statistics, and
    [send_batch_results] answers whether the endpoint replied 200, 201 or
    202; with notifications disabled it answers [True] and the endpoint
    plays no part. *)
Theorem batch_is_notified (self : WebhookManager) (items : list (list (list N * pyval)))
    (request_id timestamp : list N) (results : list pyval) :
  analyze_batch world (PDict <$> items) request_id = inr results ->
  exists os,
    results = entry_of <$> os /\ length os = length items /\
    send_batch_results post self results request_id timestamp
    = if enabled self
      then delivered (post (webhook_url self) (headers self)
                        (payload_of request_id timestamp os))
      else true.
Proof.
  intros Hbatch. apply batch_outcomes in Hbatch as (os & -> & Hlen & Hsound).
  exists os. split; [reflexivity|]. split; [exact Hlen|].
  by apply send_sound_outcomes.
Qed.

End Batch.

(** X25.  When the request to the endpoint raises, no handler of
    [_send_webhook] catches the exception: matching it against
    [aiohttp.ClientTimeout] raises [TypeError], which leaves the method.
    [test_webhook] then raises as well, whereas [send_batch_results]
    answers [False] whatever the results. *)
Theorem failed_request_is_not_caught (self : WebhookManager) (e : exn) :
  enabled self = true ->
  (forall payload, post (webhook_url self) (headers self) payload = PostRaises e) ->
  (forall payload,
     exists msg, _send_webhook post self payload = inl (Exception "TypeError" msg)) /\
  (forall timestamp,
     exists msg, test_webhook post self timestamp = inl (Exception "TypeError" msg)) /\
  (forall results request_id timestamp,
     send_batch_results post self results request_id timestamp = false).
Proof.
  intros Henabled Hpost.
  assert (Hsend : forall payload,
    _send_webhook post self payload
    = inl (Exception "TypeError"
             (lit "catching classes that do not inherit from BaseException is not allowed"))).
  { intros payload. unfold _send_webhook. by rewrite Hpost. }
  split; [|split].
  - intros payload. eexists. apply Hsend.
  - intros timestamp. unfold test_webhook. rewrite Henabled. cbn [negb].
    rewrite Hsend. by eexists.
  - intros results request_id timestamp. unfold send_batch_results.
    rewrite Henabled. cbn [negb].
    destruct (_generate_summary_stats results) as [err|summary_stats];
      [reflexivity|]. rewrite bind_inr.
    destruct (WebhookPayload_init _ _ _ _ _) as [err|payload]; [reflexivity|].
    rewrite bind_inr. by rewrite Hsend.
Qed.

End Webhook.

(** *** The services on concrete inputs *)


(** Writing one key leaves the cached document of another in place. *)
Lemma other_keys_are_kept_witness :
  working scenarios.two_entries /\ lit "news:7" ≠ lit "news:8" /\
  (get (rt := basic.runtime)
     (set (rt := basic.runtime) scenarios.two_entries 0 (lit "news:8") (PInt 1) 60).2
     50 (lit "news:7")).1
  = Some (PDict []).
Proof.
  assert (Hw : working scenarios.two_entries) by (by eexists).
  assert (Hne : lit "news:7" ≠ lit "news:8").
  { intros H. vm_compute in H. discriminate H. }
  split; [exact Hw|]. split; [exact Hne|].
  destruct (other_keys_are_kept (rt := basic.runtime) scenarios.two_entries 0 50
              (lit "news:8") (lit "news:7") (PInt 1) 60 Hw Hne) as [H _].
  rewrite H. vm_compute. reflexivity.
Defined.

(** Deleting the cached document: the lookup that found it now misses. *)
Lemma delete_then_get_witness :
  working scenarios.two_entries /\
  (get (rt := basic.runtime) scenarios.two_entries 50 (lit "news:7")).1 = Some (PDict []) /\
  (delete scenarios.two_entries 10 (lit "news:7")).1 = true /\
  (get (rt := basic.runtime)
     (delete scenarios.two_entries 10 (lit "news:7")).2 50 (lit "news:7")).1 = None.
Proof.
  assert (Hw : working scenarios.two_entries) by (by eexists).
  split; [exact Hw|]. split; [vm_compute; reflexivity|].
  destruct (proj1 (delete_then_get (rt := basic.runtime) scenarios.two_entries 10
                     (lit "news:7")) Hw) as (Hok & _ & Hgone).
  split; [exact Hok|apply Hgone].
Defined.

(** A first request is allowed even under a limit of zero. *)
Lemma first_request_is_allowed_witness :
  working (examples.empty_store []) /\
  stored (examples.empty_store []) 0 (counter_key (lit "client")) = None /\
  0 < 3600 /\
  (check_rate_limit (rt := basic.runtime) (examples.empty_store []) 0
     (lit "client") 0 3600).1 = true.
Proof.
  assert (Hw : working (examples.empty_store [])) by (by eexists).
  assert (Hnone : stored (examples.empty_store []) 0 (counter_key (lit "client")) = None)
    by reflexivity.
  assert (Ht : 0 < 3600) by lia.
  split; [exact Hw|]. split; [exact Hnone|]. split; [exact Ht|].
  destruct (first_request_is_allowed (rt := basic.runtime) (examples.empty_store []) 0
              (lit "client") 0 3600 Hw Hnone Ht) as (H & _).
  exact H.
Defined.

(** Four requests within an hour under a limit of two. *)
Lemma requests_within_a_window_witness :
  working (examples.empty_store []) /\
  stored (examples.empty_store []) 0 (counter_key (lit "client")) = None /\
  0 < 3600 /\
  Forall (fun t => t < 0 + 3600) [10; 20; 30] /\
  (requests (rt := basic.runtime) (examples.empty_store []) [0; 10; 20; 30]
     (lit "client") 2 3600).1
  = [true; true; false; false].
Proof.
  assert (Hw : working (examples.empty_store [])) by (by eexists).
  assert (Hnone : stored (examples.empty_store []) 0 (counter_key (lit "client")) = None)
    by reflexivity.
  assert (Ht : 0 < 3600) by lia.
  assert (Hin : Forall (fun t => t < 0 + 3600) [10; 20; 30]) by (repeat constructor; lia).
  split; [exact Hw|]. split; [exact Hnone|]. split; [exact Ht|]. split; [exact Hin|].
  rewrite (requests_within_a_window (rt := basic.runtime) (examples.empty_store []) 0
             [10; 20; 30] (lit "client") 2 3600 Hw Hnone Ht Hin).
  reflexivity.
Defined.

(** The counter stands at 3 under a limit of 3: the request is refused and
    the counter stays at 3. *)
Lemma refused_request_changes_nothing_witness :
  (check_rate_limit (rt := basic.runtime) scenarios.two_entries 50
     (lit "client") 3 3600).1 = false /\
  same_data scenarios.two_entries
    (check_rate_limit (rt := basic.runtime) scenarios.two_entries 50
       (lit "client") 3 3600).2.
Proof.
  assert (Hno : (check_rate_limit (rt := basic.runtime) scenarios.two_entries 50
                   (lit "client") 3 3600).1 = false) by (vm_compute; reflexivity).
  split; [exact Hno|].
  exact (proj1 (refused_request_changes_nothing (rt := basic.runtime)
                  scenarios.two_entries 50 (lit "client") 3 3600 Hno)).
Defined.

(** After four requests under a limit of two the status shows a count of
    2 and 98 remaining. *)
Lemma status_after_requests_witness :
  working (examples.empty_store []) /\
  stored (examples.empty_store []) 0 (counter_key (lit "client")) = None /\
  0 < 3600 /\
  Forall (fun t => t < 0 + 3600) [10; 20; 30] /\
  40 < 0 + 3600 /\ 41 < 0 + 3600 /\
  (get_rate_limit_status (rt := basic.runtime)
     (requests (rt := basic.runtime) (examples.empty_store []) [0; 10; 20; 30]
        (lit "client") 2 3600).2 40 41 1700000000 (lit "client") 3600).1
  = {| count := 2; remaining := 98; reset_time := 1700003559 |}.
Proof.
  assert (Hw : working (examples.empty_store [])) by (by eexists).
  assert (Hnone : stored (examples.empty_store []) 0 (counter_key (lit "client")) = None)
    by reflexivity.
  assert (Ht : 0 < 3600) by lia.
  assert (Hin : Forall (fun t => t < 0 + 3600) [10; 20; 30]) by (repeat constructor; lia).
  assert (Hnow : 40 < 0 + 3600) by lia.
  assert (Hlater : 41 < 0 + 3600) by lia.
  repeat (split; [assumption|]).
  rewrite (status_after_requests (rt := basic.runtime) (examples.empty_store []) 0
             [10; 20; 30] (lit "client") 2 3600 40 41 1700000000 3600
             Hw Hnone Ht Hin Hnow Hlater).
  reflexivity.
Defined.

(** Flushing everything: the cached document is gone and the client, whose
    counter stood at its limit, is allowed again. *)
Lemma flush_everything_witness :
  working scenarios.two_entries /\
  (check_rate_limit (rt := basic.runtime) scenarios.two_entries 50
     (lit "client") 3 3600).1 = false /\
  (flush_cache scenarios.prefix_glob scenarios.two_entries 20 None).1 = 1 /\
  (get (rt := basic.runtime)
     (flush_cache scenarios.prefix_glob scenarios.two_entries 20 None).2 50
     (lit "news:7")).1 = None /\
  (check_rate_limit (rt := basic.runtime)
     (flush_cache scenarios.prefix_glob scenarios.two_entries 20 None).2 50
     (lit "client") 3 3600).1 = true.
Proof.
  assert (Hw : working scenarios.two_entries) by (by eexists).
  split; [exact Hw|]. split; [vm_compute; reflexivity|].
  destruct (proj1 (flush_everything (rt := basic.runtime) scenarios.prefix_glob
                     scenarios.two_entries 20 None) Hw (or_introl eq_refl))
    as (Hone & _ & _ & Hget & Hcheck).
  split; [exact Hone|]. split; [apply Hget|apply Hcheck].
Defined.

(** Flushing the keys under [news:] removes the one cached document and
    keeps the counter. *)
Lemma flush_by_pattern_witness :
  working scenarios.two_entries /\ lit "news:*" ≠ [] /\
  (flush_cache scenarios.prefix_glob scenarios.two_entries 20 (Some (lit "news:*"))).1 = 1 /\
  stored (flush_cache scenarios.prefix_glob scenarios.two_entries 20
            (Some (lit "news:*"))).2 50 (lit "news:7") = None /\
  stored (flush_cache scenarios.prefix_glob scenarios.two_entries 20
            (Some (lit "news:*"))).2 50 (lit "rate_limit:client") = Some (RJson (PInt 3)).
Proof.
  assert (Hw : working scenarios.two_entries) by (by eexists).
  assert (Hp : lit "news:*" ≠ []) by discriminate.
  split; [exact Hw|]. split; [exact Hp|].
  destruct (flush_by_pattern scenarios.prefix_glob
              scenarios.two_entries 20 (lit "news:*") Hw Hp) as (Hcount & _ & Hstored).
  split; [rewrite Hcount; vm_compute; reflexivity|].
  split; rewrite Hstored; vm_compute; reflexivity.
Defined.

(** A headline with five bullish terms and no trigger term is settled by
    the keywords, with or without an answering endpoint. *)
Lemma unescalated_item_ignores_the_endpoint_witness :
  _needs_llm_analysis (keyword_draft (rt := basic.runtime)
                         examples.english_title examples.arabic_summary)
    (str_lower (rt := basic.runtime)
       (examples.english_title ++ lit " " ++ examples.arabic_summary)) = false /\
  exists r,
    _analyze_news_item (rt := basic.runtime) basic.offline
      (PStr examples.english_title) (PStr examples.arabic_summary) (lit "a") = inr r /\
    _analyze_news_item (rt := basic.runtime) (basic.answering (lit "{}"))
      (PStr examples.english_title) (PStr examples.arabic_summary) (lit "b") = inr r /\
    60 <= confidence r <= 75.
Proof.
  assert (H : _needs_llm_analysis (keyword_draft (rt := basic.runtime)
                                     examples.english_title examples.arabic_summary)
                (str_lower (rt := basic.runtime)
                   (examples.english_title ++ lit " " ++ examples.arabic_summary)) = false)
    by (vm_compute; reflexivity).
  split; [exact H|].
  destruct (unescalated_item_ignores_the_endpoint (rt := basic.runtime) basic.offline
              (basic.answering (lit "{}")) examples.english_title examples.arabic_summary
              (lit "a") (lit "b") H) as (r & H1 & H2 & _ & _ & Hc & _).
  exists r. split; [exact H1|]. split; [exact H2|exact Hc].
Defined.

(** A verdict cached at second 1 is there at second 43200 and gone at
    second 43201, when the analysis runs again. *)
Lemma cached_verdict_expires_witness :
  working (examples.empty_store []) /\
  stored (examples.empty_store []) 0
    (news_key (rt := basic.runtime) examples.rally_title examples.rally_summary) = None /\
  exists v cache1,
    analyze_single (rt := basic.runtime) basic.offline (examples.empty_store []) 0 1
      (PStr examples.rally_title) (PStr examples.rally_summary) (lit "mcp_1")
    = (inr v, cache1) /\
    stored cache1 43200
      (news_key (rt := basic.runtime) examples.rally_title examples.rally_summary)
    = Some (RJson (NewsAnalysisResponse_dict v)) /\
    stored cache1 43201
      (news_key (rt := basic.runtime) examples.rally_title examples.rally_summary)
    = None /\
    (analyze_single (rt := basic.runtime) (basic.answering (lit "{}")) cache1 43201 43202
       (PStr examples.rally_title) (PStr examples.rally_summary) (lit "mcp_2")).1
    = _analyze_news_item (rt := basic.runtime) (basic.answering (lit "{}"))
        (PStr examples.rally_title) (PStr examples.rally_summary) (lit "mcp_2").
Proof.
  assert (Hw : working (examples.empty_store [])) by (by eexists).
  assert (Hnone : stored (examples.empty_store []) 0
                    (news_key (rt := basic.runtime) examples.rally_title
                       examples.rally_summary) = None) by reflexivity.
  split; [exact Hw|]. split; [exact Hnone|].
  destruct (cached_verdict_expires (rt := basic.runtime) basic.offline
              (basic.answering (lit "{}")) (examples.empty_store []) 0 1
              examples.rally_title examples.rally_summary (lit "mcp_1") Hw Hnone)
    as (v & cache1 & Hfirst & _ & _ & Hstored & Hagain).
  exists v, cache1. split; [exact Hfirst|]. split; [by rewrite Hstored|].
  split; [by rewrite Hstored|]. apply Hagain. lia.
Defined.

(** A batch request is answered the same over an empty cache and over one
    that holds entries. *)
Lemma batch_requests_bypass_the_cache_witness :
  has_news (dict_get (params scenarios.batch_request) (lit "arguments") (PDict []))
  = inr true /\
  exists answer,
    mcp_endpoint (rt := basic.runtime) basic.offline (examples.empty_store []) 0 1
      scenarios.batch_request (lit "mcp_2") = (answer, examples.empty_store []) /\
    mcp_endpoint (rt := basic.runtime) basic.offline scenarios.two_entries 50 51
      scenarios.batch_request (lit "mcp_2") = (answer, scenarios.two_entries).
Proof.
  assert (H : has_news (dict_get (params scenarios.batch_request) (lit "arguments")
                          (PDict [])) = inr true) by reflexivity.
  split; [exact H|].
  destruct (batch_requests_bypass_the_cache (rt := basic.runtime) basic.offline
              scenarios.batch_request (lit "mcp_2") H) as [answer Hanswer].
  exists answer. split; apply Hanswer.
Defined.

(** A single request over an empty store is answered with the verdict of
    the pipeline. *)
Lemma single_request_contract_witness :
  method scenarios.single_request = lit "tools/call" /\
  dict_lookup (lit "name") (params scenarios.single_request)
  = Some (PStr (lit "news_analysis")) /\
  dict_lookup (lit "arguments") (params scenarios.single_request)
  = Some (PDict scenarios.single_arguments) /\
  dict_lookup (lit "news") scenarios.single_arguments = None /\
  exists r,
    (mcp_endpoint (rt := basic.runtime) basic.offline (examples.empty_store []) 0 1
       scenarios.single_request (lit "mcp_1")).1
    = MCPResponse (PInt 1) (Some (NewsAnalysisResponse_dict r)) None /\
    confidence r = 34.
Proof.
  assert (H1 : method scenarios.single_request = lit "tools/call") by reflexivity.
  assert (H2 : dict_lookup (lit "name") (params scenarios.single_request)
               = Some (PStr (lit "news_analysis"))) by reflexivity.
  assert (H3 : dict_lookup (lit "arguments") (params scenarios.single_request)
               = Some (PDict scenarios.single_arguments)) by reflexivity.
  assert (H4 : dict_lookup (lit "news") scenarios.single_arguments = None) by reflexivity.
  repeat (split; [assumption|]).
  destruct (proj2 (single_request_contract (rt := basic.runtime) basic.offline
                     (examples.empty_store []) 0 1 scenarios.single_request (lit "mcp_1")
                     scenarios.single_arguments H1 H2 H3 H4)
              examples.rally_title examples.rally_summary)
    as (r & Hr & Hreply).
  - reflexivity.
  - discriminate.
  - reflexivity.
  - discriminate.
  - vm_compute. reflexivity.
  - exists r. split; [exact Hreply|].
    assert (E : inr r = inr (A := exn)
                  {| impact := POSITIVE; confidence := 34;
                     affected_coins := {[ lit "BTC" ]};
                     summary := lit "Bitcoin rally - Positive impact (Low confidence)";
                     lang := lit "en"; low_confidence := Some true; error := None |}).
    { rewrite <- Hr. vm_compute. reflexivity. }
    by injection E as ->.
Defined.

(** The header [Bearer s3cret] passes the guard of the token [s3cret],
    also with a trailing word; a longer token does not. *)
Lemma verify_token_contract_witness :
  lit "s3cret" ≠ [] /\
  verify_token (Some (lit "s3cret")) (Some (lit "Bearer s3cret")) = inr true /\
  verify_token (Some (lit "s3cret")) (Some (lit "Bearer s3cret extra")) = inr true /\
  verify_token (Some (lit "s3cret")) (Some (lit "Bearer s3cretive"))
  = inl (HTTPException 401 (lit "Invalid token")).
Proof.
  assert (Hne : lit "s3cret" ≠ []) by discriminate.
  split; [exact Hne|]. split; [|split; reflexivity].
  apply (proj1 (verify_token_contract (lit "s3cret") (Some (lit "Bearer s3cret")) Hne)).
  split.
  - intros Hin. vm_compute in Hin.
    repeat (apply elem_of_cons in Hin as [Hin|Hin]; [discriminate Hin|]).
    by apply elem_of_nil in Hin.
  - exists []. split; [reflexivity|by left].
Defined.

(** The body of one item is accepted with its item. *)
Lemma accepted_batch_bounds_witness :
  BatchNewsRequest_parse (rt := basic.runtime) examples.rest_body
  = Some [examples.rally_item] /\
  (1 <= length [examples.rally_item] <= 50)%nat.
Proof.
  assert (H : BatchNewsRequest_parse (rt := basic.runtime) examples.rest_body
              = Some [examples.rally_item]) by reflexivity.
  split; [exact H|].
  exact (proj1 (accepted_batch_bounds (rt := basic.runtime) examples.rest_body
                  [examples.rally_item] H)).
Defined.

(** Two spellings of one symbol and an empty name give one coin. *)
Lemma validate_coins_ascii_witness :
  Forall (fun coin => forallb is_ascii coin = true) [lit "btc"; []; lit "BTC"] /\
  validate_coins (rt := basic.runtime) [lit "btc"; []; lit "BTC"] = {[ lit "BTC" ]} /\
  validate_coins (rt := basic.runtime)
    (elements (validate_coins (rt := basic.runtime) [lit "btc"; []; lit "BTC"]))
  = validate_coins (rt := basic.runtime) [lit "btc"; []; lit "BTC"].
Proof.
  assert (H : Forall (fun coin => forallb is_ascii coin = true)
                [lit "btc"; []; lit "BTC"]) by (repeat constructor).
  split; [exact H|]. split; [vm_compute; reflexivity|].
  exact (proj2 (proj2 (validate_coins_ascii (rt := basic.runtime)
                         [lit "btc"; []; lit "BTC"] H))).
Defined.

(** A batch of one well-formed and one untitled item is notified to an
    accepting endpoint. *)
Lemma batch_is_notified_witness :
  exists results,
    analyze_batch (rt := basic.runtime) basic.offline
      (PDict <$> [scenarios.single_arguments;
                  [(lit "title", PNone); (lit "summary", PStr examples.rally_summary)]])
      (lit "mcp_2")
    = inr results /\
    length results = 2%nat /\
    send_batch_results (rt := basic.runtime) scenarios.accepting scenarios.notifier
      results (lit "mcp_2") (lit "2024-01-01T00:00:00Z") = true.
Proof.
  destruct (analyze_batch (rt := basic.runtime) basic.offline
              (PDict <$> [scenarios.single_arguments;
                          [(lit "title", PNone);
                           (lit "summary", PStr examples.rally_summary)]])
              (lit "mcp_2")) as [e|results] eqn:Hbatch.
  - exfalso. vm_compute in Hbatch. discriminate Hbatch.
  - exists results. split; [reflexivity|].
    destruct (batch_is_notified (rt := basic.runtime) scenarios.accepting basic.offline
                scenarios.notifier _ (lit "mcp_2") (lit "2024-01-01T00:00:00Z")
                results Hbatch) as (os & -> & Hlen & ->).
    split; [by rewrite length_fmap|reflexivity].
Defined.

(** An endpoint that cannot be reached: the test raises, the notification
    of a batch answers [False]. *)
Lemma failed_request_is_not_caught_witness :
  enabled scenarios.notifier = true /\
  (forall payload,
     scenarios.unreachable (webhook_url scenarios.notifier)
       (headers scenarios.notifier) payload
     = PostRaises (Exception "ClientConnectorError" (lit "Cannot connect to host"))) /\
  (exists msg,
     test_webhook scenarios.unreachable scenarios.notifier (lit "2024-01-01T00:00:00Z")
     = inl (Exception "TypeError" msg)) /\
  send_batch_results (rt := basic.runtime) scenarios.unreachable scenarios.notifier
    [] (lit "mcp_2") (lit "2024-01-01T00:00:00Z") = false.
Proof.
  assert (He : enabled scenarios.notifier = true) by reflexivity.
  assert (Hp : forall payload,
            scenarios.unreachable (webhook_url scenarios.notifier)
              (headers scenarios.notifier) payload
            = PostRaises (Exception "ClientConnectorError" (lit "Cannot connect to host")))
    by reflexivity.
  split; [exact He|]. split; [exact Hp|].
  destruct (failed_request_is_not_caught (rt := basic.runtime) scenarios.unreachable
              scenarios.notifier _ He Hp) as (_ & Htest & Hsend).
  split; [apply Htest|apply Hsend].
Defined.
